(** * Serial font uploader: [Tools/send_chinese_font.py]

    A shallow embedding of [send_font_file] and the properties of the
    START / DATA / END / ACK exchange it drives over a serial link.

    The Python function talks to three collaborators: the host file
    system, the pyserial port object and the console.  Each one is made
    explicit here:

    - the file system and the behaviour of the device on the other end of
      the link are an environment [Env] of oracles;
    - the port object [ser], the bytes put on the wire, the console output
      and the time slept are the fields of a state [St] threaded through a
      small state-and-exception monad [M];
    - the two [while] loops take a bound on the number of iterations; a
      run that exhausts it is reported as still running, never as a result. *)

From Stdlib Require Import ZArith List Bool Lia String.
From Stdlib.Strings Require Import Byte.
Import ListNotations.

Local Open Scope Z_scope.

(** ** Bytes and [int.to_bytes] *)

Definition byte_val (b : byte) : Z := Z.of_N (Byte.to_N b).

Definition byte_of_Z (z : Z) : byte :=
  match Byte.of_N (Z.to_N (z mod 256)) with
  | Some b => b
  | None => Byte.x00
  end.

(** The exception classes a session meets.  The first five are raised by
    the operations themselves and derive from [Exception]
    ([SerialTimeoutException] from [SerialException]).
    [KeyboardInterrupt] is raised in whatever call is under way when the
    user presses Ctrl-C, and derives from [BaseException] only. *)
Inductive exn : Type :=
| SerialException
| SerialTimeoutException
| OSError
| ValueError
| OverflowError
| KeyboardInterrupt.

Definition isinstance_SerialException (e : exn) : bool :=
  match e with
  | SerialException | SerialTimeoutException => true
  | _ => false
  end.

Definition isinstance_Exception (e : exn) : bool :=
  match e with
  | SerialException | SerialTimeoutException
  | OSError | ValueError | OverflowError => true
  | KeyboardInterrupt => false
  end.

(** [n.to_bytes(length, 'little')], little-endian digits of [n]. *)
Fixpoint le_digits (length : nat) (n : Z) : list byte :=
  match length with
  | O => []
  | S k => byte_of_Z n :: le_digits k (n / 256)
  end.

(** [int.to_bytes] raises [OverflowError] on a negative number and on one
    that does not fit in [length] bytes. *)
Definition to_bytes (n : Z) (length : nat) : exn + list byte :=
  if (0 <=? n) && (n <? 256 ^ Z.of_nat length)
  then inr (le_digits length n)
  else inl OverflowError.

(** Little-endian decoding, the receiver's reading of a length field. *)
Fixpoint from_bytes (bs : list byte) : Z :=
  match bs with
  | [] => 0
  | b :: tl => byte_val b + 256 * from_bytes tl
  end.

(** ** Protocol definitions (lines 21-26) *)

Definition CMD_START : byte := Byte.xaa.
Definition CMD_DATA : byte := Byte.xbb.
Definition CMD_END : byte := Byte.xcc.
Definition CMD_ACK : byte := Byte.xdd.
Definition CMD_CHINESE : byte := Byte.x43.
Definition CHUNK_SIZE : nat := 256.

(** ** The environment *)

(** What [open(font_file, 'rb')] gives. *)
Inductive opened : Type :=
| Content (data : list byte)
| OpenError (e : exn).

(** A directory entry: [os.path.getsize] and the result of opening it. *)
Record File : Type := mkFile {
  st_size : Z;
  fopen : opened
}.

Record Env : Type := mkEnv {
  (** the host file system; [None] when [os.path.exists] is false *)
  fs : string -> option File;
  (** the bytes the device has made available to the k-th [ser.read] on
      the port object (an empty list is a timed-out read) *)
  rx : nat -> list byte;
  (** whether the k-th call on the port object raises, or is interrupted;
      call 0 is the constructor [serial.Serial(...)] *)
  fault : nat -> option exn
}.

(** ** Console output *)

Inductive msg : Type :=
| MsgFileNotFound (font_file : string)
| MsgFontFile (font_file : string)
| MsgFileSize (file_size : Z)
| MsgConnected (port : string) (baudrate : Z)
| MsgSendingC
| MsgWaitingOK
| MsgWarnNoOK
| MsgReceivedOK
| MsgWarnUnexpected (response_str : list byte)
| MsgSendingStart
| MsgAckReceived
| MsgReceived (first5 : list byte)
| MsgWaitingAck (retry_count : Z) (max_retries : Z)
| MsgNoAckAfter (max_retries : Z)
| MsgNoAckAt (total_sent : Z)
| MsgProgress (total_sent : Z) (file_size : Z)
| MsgNewline
| MsgTransferComplete
| MsgSerialPortError (e : exn)
| MsgError (e : exn)
| MsgTraceback.

(** ** The state *)

Record St : Type := mkSt {
  ser_calls : nat;            (* calls made on the port object so far *)
  ser_reads : nat;            (* [ser.read] calls made so far *)
  ser_open : bool;            (* the port is open *)
  wire : list (list byte);    (* every [ser.write], oldest first *)
  log : list msg;             (* everything printed, oldest first *)
  clock : Z                   (* milliseconds spent in [time.sleep] *)
}.

(** ** The monad *)

Inductive res (A : Type) : Type :=
| Val (a : A)        (* the statement completed *)
| Ret (b : bool)     (* a [return b] was executed *)
| Exc (e : exn)      (* an exception is in flight *)
| Fuel.              (* the iteration bound ran out: still looping *)

Arguments Val {A} a.
Arguments Ret {A} b.
Arguments Exc {A} e.
Arguments Fuel {A}.

Definition M (A : Type) : Type := St -> res A * St.

Definition pure {A} (a : A) : M A := fun s => (Val a, s).

Definition bind {A B} (m : M A) (f : A -> M B) : M B :=
  fun s =>
    match m s with
    | (Val a, s') => f a s'
    | (Ret b, s') => (Ret b, s')
    | (Exc e, s') => (Exc e, s')
    | (Fuel, s') => (Fuel, s')
    end.

Definition ret {A} (b : bool) : M A := fun s => (Ret b, s).
Definition raise {A} (e : exn) : M A := fun s => (Exc e, s).
Definition out_of_fuel {A} : M A := fun s => (Fuel, s).

Declare Scope py_scope.
Delimit Scope py_scope with py.
Notation "x <- m ;; k" := (bind m (fun x => k))
  (at level 61, m at next level, right associativity) : py_scope.
Notation "' pat <- m ;; k" := (bind m (fun x => match x with pat => k end))
  (at level 61, pat pattern, m at next level, right associativity) : py_scope.
Notation "m ;; k" := (bind m (fun _ => k))
  (at level 61, right associativity) : py_scope.
Local Open Scope py_scope.

(** ** Primitive statements *)

Definition print (m : msg) : M unit :=
  fun s => (Val tt, mkSt (ser_calls s) (ser_reads s) (ser_open s) (wire s)
                         (log s ++ [m]) (clock s)).

(** [time.sleep], in milliseconds. *)
Definition sleep (ms : Z) : M unit :=
  fun s => (Val tt, mkSt (ser_calls s) (ser_reads s) (ser_open s) (wire s)
                         (log s) (clock s + ms)).

Definition tick (s : St) : St :=
  mkSt (S (ser_calls s)) (ser_reads s) (ser_open s) (wire s) (log s) (clock s).

Section Primitives.

Variable env : Env.

(** A method call on the port object: it raises when the environment
    says so, and otherwise has the effect [k]. *)
Definition call {A} (k : St -> A * St) : M A :=
  fun s =>
    match fault env (ser_calls s) with
    | Some e => (Exc e, tick s)
    | None => let (a, s') := k (tick s) in (Val a, s')
    end.

(** [serial.Serial(port, baudrate, timeout=3)]: a new port object. *)
Definition serial_Serial (port : string) (baudrate : Z) : M unit :=
  fun s =>
    call (fun s' => (tt, mkSt (ser_calls s') (ser_reads s') true (wire s')
                              (log s') (clock s')))
         (mkSt 0 0 false (wire s) (log s) (clock s)).

Definition ser_reset_input_buffer : M unit := call (fun s => (tt, s)).
Definition ser_reset_output_buffer : M unit := call (fun s => (tt, s)).
Definition ser_flush : M unit := call (fun s => (tt, s)).

Definition ser_write (data : list byte) : M unit :=
  call (fun s => (tt, mkSt (ser_calls s) (ser_reads s) (ser_open s)
                           (wire s ++ [data]) (log s) (clock s))).

(** [ser.read(size)]: at most [size] of the bytes the device sent. *)
Definition ser_read (size : nat) : M (list byte) :=
  call (fun s => (firstn size (rx env (ser_reads s)),
                  mkSt (ser_calls s) (S (ser_reads s)) (ser_open s) (wire s)
                       (log s) (clock s))).

Definition ser_close : M unit :=
  call (fun s => (tt, mkSt (ser_calls s) (ser_reads s) false (wire s)
                           (log s) (clock s))).

End Primitives.

(** [n.to_bytes(length, 'little')] as a statement. *)
Definition int_to_bytes (n : Z) (length : nat) : M (list byte) :=
  match to_bytes n length with
  | inr bs => pure bs
  | inl e => raise e
  end.

(** [open(font_file, 'rb')]. *)
Definition open_rb (f : File) : M (list byte) :=
  match fopen f with
  | Content data => pure data
  | OpenError e => raise e
  end.

(** [response.decode('ascii', errors='ignore')]: bytes above 127 vanish. *)
Definition decode_ascii_ignore (response : list byte) : list byte :=
  filter (fun b => byte_val b <? 128) response.

(** ["OK" in response_str]. *)
Fixpoint contains_OK (s : list byte) : bool :=
  match s with
  | [] => false
  | a :: tl =>
      match tl with
      | b :: _ => (Byte.eqb a Byte.x4f && Byte.eqb b Byte.x4b) || contains_OK tl
      | [] => false
      end
  end.

(** ** [send_font_file] *)

Definition max_retries : Z := 50.

(** [len(ack) == 0 or ack[0] != CMD_ACK] (line 128). *)
Definition no_ack (ack : list byte) : bool :=
  match ack with
  | [] => true
  | b :: _ => negb (Byte.eqb b CMD_ACK)
  end.

(** [for byte in ack: if byte == CMD_ACK: ...] (lines 88-92). *)
Definition has_ack (ack : list byte) : bool :=
  existsb (fun b => Byte.eqb b CMD_ACK) ack.

Section Session.

Variable env : Env.

(** Lines 40-66: open the port, send the trigger byte, look at the answer. *)
Definition mode_select (port : string) (baudrate : Z) : M unit :=
  serial_Serial env port baudrate ;;
  print (MsgConnected port baudrate) ;;
  ser_reset_input_buffer env ;;
  ser_reset_output_buffer env ;;
  print MsgSendingC ;;
  ser_write env [CMD_CHINESE] ;;
  ser_flush env ;;
  print MsgWaitingOK ;;
  response <- ser_read env 4 ;;
  (if (List.length response <? 4)%nat then print MsgWarnNoOK
   else
     let response_str := decode_ascii_ignore response in
     if contains_OK response_str then print MsgReceivedOK
     else print (MsgWarnUnexpected response_str)) ;;
  sleep 500 ;;
  ser_reset_input_buffer env.

(** Lines 75-102: one turn of the handshake loop, entered with
    [ack_received] false; gives the new [(retry_count, ack_received)]. *)
Definition handshake_iter (file_size : Z) (retry_count : Z) : M (Z * bool) :=
  ser_reset_input_buffer env ;;
  sleep 100 ;;
  ser_write env [CMD_START] ;;
  ser_flush env ;;
  sleep 50 ;;
  len <- int_to_bytes file_size 4 ;;
  ser_write env len ;;
  ser_flush env ;;
  sleep 200 ;;
  ack <- ser_read env 10 ;;
  if (0 <? List.length ack)%nat then
    let ack_received := has_ack ack in
    (if ack_received then print MsgAckReceived
     else if retry_count mod 5 =? 0 then print (MsgReceived (firstn 5 ack))
          else pure tt) ;;
    pure (retry_count, ack_received)
  else
    let retry_count := retry_count + 1 in
    (if retry_count mod 5 =? 0 then print (MsgWaitingAck retry_count max_retries)
     else pure tt) ;;
    sleep 200 ;;
    pure (retry_count, false).

(** Line 74: [while retry_count < max_retries and not ack_received]. *)
Fixpoint handshake_loop (fuel : nat) (file_size : Z)
         (retry_count : Z) (ack_received : bool) : M (Z * bool) :=
  if (retry_count <? max_retries) && negb ack_received then
    match fuel with
    | O => out_of_fuel
    | S fuel' =>
        '(retry_count', ack_received') <- handshake_iter file_size retry_count ;;
        handshake_loop fuel' file_size retry_count' ack_received'
    end
  else pure (retry_count, ack_received).

(** Lines 69-107. *)
Definition handshake (fuel : nat) (file_size : Z) : M unit :=
  print MsgSendingStart ;;
  '(_, ack_received) <- handshake_loop fuel file_size 0 false ;;
  if negb ack_received then
    print (MsgNoAckAfter max_retries) ;;
    ser_close env ;;
    ret false
  else pure tt.

(** Lines 117-135: send one chunk and wait for its ACK; gives the new
    [total_sent]. *)
Definition transfer_iter (chunk : list byte) (total_sent file_size : Z) : M Z :=
  ser_write env [CMD_DATA] ;;
  sleep 10 ;;
  let packet_size := Z.of_nat (List.length chunk) in
  len <- int_to_bytes packet_size 2 ;;
  ser_write env len ;;
  sleep 10 ;;
  ser_write env chunk ;;
  sleep 50 ;;
  ack <- ser_read env 1 ;;
  if no_ack ack then
    print (MsgNoAckAt total_sent) ;;
    ser_close env ;;
    ret false
  else
    let total_sent := total_sent + Z.of_nat (List.length chunk) in
    print (MsgProgress total_sent file_size) ;;
    pure total_sent.

(** Lines 112-115: [while total_sent < file_size], reading the open file
    [f] (what is left of it) [CHUNK_SIZE] bytes at a time. *)
Fixpoint transfer_loop (fuel : nat) (f : list byte)
         (total_sent file_size : Z) : M unit :=
  if total_sent <? file_size then
    match fuel with
    | O => out_of_fuel
    | S fuel' =>
        let chunk := firstn CHUNK_SIZE f in
        let f' := skipn CHUNK_SIZE f in
        if (List.length chunk =? 0)%nat then pure tt
        else
          total_sent' <- transfer_iter chunk total_sent file_size ;;
          transfer_loop fuel' f' total_sent' file_size
    end
  else pure tt.

(** Lines 110-135. *)
Definition transfer (fuel : nat) (file : File) (file_size : Z) : M unit :=
  f <- open_rb file ;;
  transfer_loop fuel f 0 file_size.

(** Lines 137-145. *)
Definition finish : M Empty_set :=
  print MsgNewline ;;
  ser_write env [CMD_END] ;;
  sleep 100 ;;
  ser_close env ;;
  print MsgTransferComplete ;;
  ret true.

(** The body of the [try] (lines 40-145). *)
Definition session (fuel : nat) (port : string) (baudrate : Z)
           (file : File) (file_size : Z) : M Empty_set :=
  mode_select port baudrate ;;
  handshake fuel file_size ;;
  transfer fuel file file_size ;;
  finish.

(** Lines 40-107: everything up to the start of the transfer. *)
Definition upto_handshake (fuel : nat) (port : string) (baudrate : Z)
           (file_size : Z) : M unit :=
  mode_select port baudrate ;;
  handshake fuel file_size.

(** Lines 36-37. *)
Definition announce (font_file : string) (file_size : Z) : M unit :=
  print (MsgFontFile font_file) ;;
  print (MsgFileSize file_size).

(** How a call of [send_font_file] ends. *)
Inductive completion : Type :=
| Returned (b : bool)      (* the function returned [b] *)
| Propagated (e : exn)     (* an exception reached the caller *)
| Running.                 (* the iteration bound ran out *)

(** Lines 28-154. *)
Definition send_font_file (fuel : nat) (port : string) (baudrate : Z)
           (font_file : string) (s : St) : completion * St :=
  match fs env font_file with
  | None =>
      (Returned false, snd (print (MsgFileNotFound font_file) s))
  | Some file =>
      let file_size := st_size file in
      let s := snd (announce font_file file_size s) in
      match session fuel port baudrate file file_size s with
      | (Val v, _) => match v with end
      | (Ret b, s') => (Returned b, s')
      | (Fuel, s') => (Running, s')
      | (Exc e, s') =>
          if isinstance_SerialException e then
            (Returned false, snd (print (MsgSerialPortError e) s'))
          else if isinstance_Exception e then
            (Returned false,
             snd ((print (MsgError e) ;; print MsgTraceback) s'))
          else (Propagated e, s')
      end
  end.

End Session.

(** ** A first run *)

Definition st0 : St := mkSt 0 0 false [] [] 0.

(** A file holding [payload], with the size the file system reports for it. *)
Definition regular_file (payload : list byte) : File :=
  mkFile (Z.of_nat (List.length payload)) (Content payload).

(** A device that answers every read with one ACK byte, and a font of
    [n] bytes. *)
Definition always_ack (n : nat) : Env :=
  mkEnv (fun _ => Some (regular_file (repeat Byte.x01 n)))
        (fun _ => [CMD_ACK])
        (fun _ => None).

(** The same device, except that it answers the read after the second
    chunk with a byte that is not ACK. *)
Definition nack_second_chunk : Env :=
  mkEnv (fun _ => Some (regular_file (repeat Byte.x01 600)))
        (fun k => if (k =? 3)%nat then [Byte.x00] else [CMD_ACK])
        (fun _ => None).

(** A device that stays silent. *)
Definition silent : Env :=
  mkEnv (fun _ => Some (regular_file [Byte.x01]))
        (fun _ => [])
        (fun _ => None).


(** A device that answers every read with a byte that is not ACK. *)
Definition junk_forever : Env :=
  mkEnv (fun _ => Some (regular_file [Byte.x01]))
        (fun _ => [Byte.x00])
        (fun _ => None).

(** No font file on disk. *)
Definition no_file : Env :=
  mkEnv (fun _ => None) (fun _ => [CMD_ACK]) (fun _ => None).

(** A link whose first [ser.write] raises. *)
Definition broken_link : Env :=
  mkEnv (fun _ => Some (regular_file [Byte.x01]))
        (fun _ => [CMD_ACK])
        (fun k => if (k =? 3)%nat then Some SerialException else None).

(** ** What a session puts on the wire *)

(** One START attempt (lines 78-83): the command, then the length field. *)
Definition start_frame (file_size : Z) : list (list byte) :=
  [[CMD_START]; le_digits 4 file_size].

(** One DATA chunk (lines 117-124): the command, the 2-byte length, the
    chunk. *)
Definition data_frame (chunk : list byte) : list (list byte) :=
  [[CMD_DATA]; le_digits 2 (Z.of_nat (List.length chunk)); chunk].

(** [h] START attempts in a row. *)
Definition start_frames (file_size : Z) (h : nat) : list (list byte) :=
  List.concat (repeat (start_frame file_size) h).

(** The successive [f.read(CHUNK_SIZE)] results on a file holding [l],
    up to the first empty one. *)
Fixpoint chunks_fuel (fuel : nat) (l : list byte) : list (list byte) :=
  match fuel with
  | O => []
  | S k =>
      match l with
      | [] => []
      | _ :: _ => firstn CHUNK_SIZE l :: chunks_fuel k (skipn CHUNK_SIZE l)
      end
  end.

Definition chunked (l : list byte) : list (list byte) :=
  chunks_fuel (List.length l) l.

(** The progress lines printed while [chunks] are acknowledged one after
    the other, starting from [total_sent]. *)
Fixpoint progress_msgs (total_sent file_size : Z) (chunks : list (list byte))
  : list msg :=
  match chunks with
  | [] => []
  | c :: tl =>
      let total_sent := total_sent + Z.of_nat (List.length c) in
      MsgProgress total_sent file_size :: progress_msgs total_sent file_size tl
  end.

(** Sum of the chunk lengths. *)
Definition total_length (chunks : list (list byte)) : Z :=
  fold_right (fun c acc => Z.of_nat (List.length c) + acc) 0 chunks.

(** Number of chunks needed for [L] bytes: [ceil(L / 256)]. *)
Definition ceil_div (L : nat) : nat := ((L + 255) / 256)%nat.

(** What can follow the START attempts of a session: nothing; the command
    byte of an attempt that an exception cut short; or the transfer, which
    opens with a DATA or an END command. *)
Definition after_handshake (tail : list (list byte)) : Prop :=
  tail = [] \/ tail = [[CMD_START]] \/
  exists t, tail = [CMD_DATA] :: t \/ tail = [CMD_END] :: t.

(** What lines 55-62 print for a given answer to the trigger byte. *)
Definition mode_select_msg (response : list byte) : msg :=
  if (List.length response <? 4)%nat then MsgWarnNoOK
  else if contains_OK (decode_ascii_ignore response) then MsgReceivedOK
       else MsgWarnUnexpected (decode_ascii_ignore response).

(** ** Two runs side by side *)

(** Two states whose port objects are at the same point of their life:
    as many calls made, as many reads made.  Everything else (what is on
    the wire already, what was printed, the time slept, whether a port is
    open) may differ. *)
Definition same_port (s1 s2 : St) : Prop :=
  ser_calls s1 = ser_calls s2 /\ ser_reads s1 = ser_reads s2.

(** Two statements agree from states related by [P] when they end the
    same way, add the same writes to the wire, and leave port objects at
    the same point. *)
Definition agree {A} (P : St -> St -> Prop) (m1 m2 : M A) : Prop :=
  forall s1 s2,
    P s1 s2 ->
    fst (m1 s1) = fst (m2 s2) /\
    same_port (snd (m1 s1)) (snd (m2 s2)) /\
    exists out,
      wire (snd (m1 s1)) = wire s1 ++ out /\
      wire (snd (m2 s2)) = wire s2 ++ out.

(** A state left behind by earlier activity. *)
Definition st_used : St :=
  mkSt 9 4 true [[Byte.x00]; [Byte.xff; Byte.x01]] [MsgNewline] 77.

(** ** The command line: [main] (lines 156-194) *)

(** What [main] takes from the host besides the file system and the link:
    the argument vector, the built-in [int], the path functions it calls
    and the standard input its closing prompt reads. *)
Record Host : Type := mkHost {
  (** [sys.argv] *)
  argv : list string;
  (** [int(s)]; [None] when it raises [ValueError] *)
  py_int : string -> option Z;
  (** [os.path.isabs] *)
  isabs : string -> bool;
  (** [os.path.join(os.path.dirname(os.path.abspath(__file__)), name)] *)
  beside_script : string -> string;
  (** [input()] raises [EOFError] *)
  input_eof : bool
}.

Definition default_port : string := "COM4".
Definition default_font_file : string := "chinese16x16.bin".
Definition default_baudrate : Z := 115200.

(** What [main] itself prints. *)
Inductive main_msg : Type :=
| MsgUsingDefaults
| MsgShowPort (port : string)
| MsgShowFontFile (font_file : string)
| MsgShowBaudrate (baudrate : Z)
| MsgToCustomize
| MsgBlank
| MsgUploadCompleted
| MsgUploadFailed
| MsgPressEnter.

(** The exceptions that leave [main]. *)
Inductive uncaught : Type :=
| ValueError_int          (* [int(sys.argv[3])] on a string that is no number *)
| EOFError_input          (* [input()] on a closed standard input *)
| FromUpload (e : exn).   (* one that left [send_font_file] *)

(** How [main] ends. *)
Inductive ending : Type :=
| SystemExit (code : Z)
| Uncaught (u : uncaught)
| Looping.

(** A run of [main]: how it ended, what it printed before calling
    [send_font_file], the state that call left, what it printed after. *)
Record main_run : Type := mkRun {
  run_end : ending;
  run_before : list main_msg;
  run_state : St;
  run_after : list main_msg
}.

(** Lines 157-178: [port], [baudrate] and [font_file] from the arguments,
    or [None] when [int] raises, and what was printed on the way. *)
Definition parse_args (h : Host)
  : option (string * Z * string) * list main_msg :=
  if (3 <=? List.length (argv h))%nat then
    let port := nth 1 (argv h) EmptyString in
    let font_file := nth 2 (argv h) EmptyString in
    if (3 <? List.length (argv h))%nat then
      match py_int h (nth 3 (argv h) EmptyString) with
      | Some baudrate => (Some (port, baudrate, font_file), [])
      | None => (None, [])
      end
    else (Some (port, default_baudrate, font_file), [])
  else if (List.length (argv h) =? 2)%nat then
    (Some (nth 1 (argv h) EmptyString, default_baudrate, default_font_file), [])
  else
    (Some (default_port, default_baudrate, default_font_file),
     [MsgUsingDefaults; MsgShowPort default_port;
      MsgShowFontFile default_font_file; MsgShowBaudrate default_baudrate;
      MsgToCustomize; MsgBlank]).

(** [os.path.exists]. *)
Definition path_exists (env : Env) (name : string) : bool :=
  match fs env name with
  | Some _ => true
  | None => false
  end.

(** Lines 180-184: a relative name that is not found is looked for beside
    the script. *)
Definition resolve_font_file (env : Env) (h : Host) (font_file : string)
  : string :=
  if negb (isabs h font_file) && negb (path_exists env font_file) then
    let font_file_path := beside_script h font_file in
    if path_exists env font_file_path then font_file_path else font_file
  else font_file.

(** Lines 156-194. *)
Definition main (env : Env) (h : Host) (fuel : nat) (s : St) : main_run :=
  match parse_args h with
  | (None, before) => mkRun (Uncaught ValueError_int) before s []
  | (Some (port, baudrate, font_file), before) =>
      let font_file := resolve_font_file env h font_file in
      match send_font_file env fuel port baudrate font_file s with
      | (Returned success, s') =>
          let after :=
            [if success then MsgUploadCompleted else MsgUploadFailed;
             MsgPressEnter] in
          if input_eof h then mkRun (Uncaught EOFError_input) before s' after
          else mkRun (SystemExit (if success then 0 else 1)) before s' after
      | (Propagated e, s') => mkRun (Uncaught (FromUpload e)) before s' []
      | (Running, s') => mkRun Looping before s' []
      end
  end.

(** A host started as [send_chinese_font.py COM7 font.bin 9600], on
    which every relative name is looked for under [/opt/tools]. *)
Definition host_three_args : Host :=
  mkHost ["send_chinese_font.py"; "COM7"; "font.bin"; "9600"]%string
         (fun _ => Some 9600)
         (fun _ => false)
         (fun name => String.append "/opt/tools/" name)
         false.

(** The same command line with a baud rate that is no number. *)
Definition host_bad_baudrate : Host :=
  mkHost ["send_chinese_font.py"; "COM7"; "font.bin"; "fast"]%string
         (fun _ => None)
         (fun _ => false)
         (fun name => String.append "/opt/tools/" name)
         false.

(** A file system that has the font only beside the script; a device that
    answers every read with one ACK byte. *)
Definition font_beside_script : Env :=
  mkEnv (fun name =>
           if String.eqb name "/opt/tools/font.bin"
           then Some (regular_file (repeat Byte.x01 300)) else None)
        (fun _ => [CMD_ACK])
        (fun _ => None).

(** A device that lets the first two START attempts time out and
    acknowledges the third. *)
Definition ack_third_attempt : Env :=
  mkEnv (fun _ => Some (regular_file (repeat Byte.x01 300)))
        (fun k => if (k <? 3)%nat then [] else [CMD_ACK])
        (fun _ => None).


(** A port that cannot be opened. *)
Definition no_port : Env :=
  mkEnv (fun _ => Some (regular_file [Byte.x01]))
        (fun _ => [CMD_ACK])
        (fun k => if (k =? 0)%nat then Some SerialException else None).

(** A file of 2^32 bytes as far as [os.path.getsize] goes. *)
Definition oversize : Env :=
  mkEnv (fun _ => Some (mkFile (2 ^ 32) (Content [Byte.x01])))
        (fun _ => [CMD_ACK])
        (fun _ => None).

(** A file whose size was reported as 600 bytes and that holds 300 when it
    is read; and one reported as 300 bytes that holds 600. *)
Definition shrunk_file : Env :=
  mkEnv (fun _ => Some (mkFile 600 (Content (repeat Byte.x01 300))))
        (fun _ => [CMD_ACK])
        (fun _ => None).

Definition grown_file : Env :=
  mkEnv (fun _ => Some (mkFile 300 (Content (repeat Byte.x01 600))))
        (fun _ => [CMD_ACK])
        (fun _ => None).

(** ** The port object across a statement *)

(** A statement run on an open port closes it when it executes a [return]
    and leaves it open otherwise: when it completes, when it raises, and
    while it is still looping. *)
Definition closes_on_return {A} (m : M A) : Prop :=
  forall s, ser_open s = true ->
    ser_open (snd (m s)) = match fst (m s) with
                           | Ret _ => false
                           | _ => true
                           end.

(** ** What a completed upload leaves *)

(** The state a successful upload leaves: END was the last thing written,
    the completion line the last thing printed, and the port is closed. *)
Definition completed (s : St) : Prop :=
  ser_open s = false /\
  (exists w, wire s = w ++ [[CMD_END]]) /\
  (exists l, log s = l ++ [MsgTransferComplete]).

(** A statement that executes [return True] only in such a state. *)
Definition true_means_completed {A} (m : M A) : Prop :=
  forall s, match m s with
            | (Ret true, s') => completed s'
            | _ => True
            end.

(** The number of turns the transfer loop needs to bring [total_sent] up
    to [file_size] with full chunks: [ceil((file_size - total_sent) / 256)]. *)
Definition chunks_wanted (total_sent file_size : Z) : nat :=
  Z.to_nat ((file_size - total_sent + 255) / 256).

(** What a session that got a START attempt through has written: the
    trigger byte, then [h >= 1] whole attempts, each one the START command
    followed by a four-byte field that decodes to [file_size], then the
    rest of the session. *)
Definition announces (file_size : Z) (out : list (list byte)) : Prop :=
  exists h tail,
    (1 <= h)%nat /\
    out = [CMD_CHINESE] :: start_frames file_size h ++ tail /\
    after_handshake tail /\
    List.length (le_digits 4 file_size) = 4%nat /\
    from_bytes (le_digits 4 file_size) = file_size.

(** * Properties *)

(** ** Bytes and length fields *)

Lemma byte_val_of_Z (z : Z) : byte_val (byte_of_Z z) = z mod 256.
Proof.
  unfold byte_val, byte_of_Z.
  assert (Hm : 0 <= z mod 256 < 256) by (apply Z.mod_pos_bound; lia).
  destruct (Byte.of_N (Z.to_N (z mod 256))) as [b|] eqn:E.
  - apply Byte.to_of_N in E. rewrite E. apply Z2N.id. lia.
  - apply Byte.of_N_None_iff in E. lia.
Qed.

Lemma byte_val_range (b : byte) : 0 <= byte_val b < 256.
Proof.
  unfold byte_val. pose proof (Byte.to_N_bounded b). lia.
Qed.

Lemma le_digits_length (k : nat) (n : Z) : List.length (le_digits k n) = k.
Proof.
  revert n. induction k as [|k IH]; intro n; simpl; [reflexivity|].
  now rewrite IH.
Qed.

Lemma from_bytes_le_digits (k : nat) (n : Z) :
  0 <= n -> from_bytes (le_digits k n) = n mod 256 ^ Z.of_nat k.
Proof.
  revert n. induction k as [|k IH]; intros n Hn.
  - simpl. now rewrite Z.mod_1_r.
  - cbn [le_digits from_bytes]. rewrite byte_val_of_Z.
    rewrite IH by (apply Z.div_pos; lia).
    rewrite Nat2Z.inj_succ, Z.pow_succ_r by lia.
    rewrite Z.rem_mul_r by lia. reflexivity.
Qed.

(** [to_bytes] succeeds exactly on the numbers that fit, and the field it
    gives has the asked length and decodes to the number. *)
Lemma to_bytes_inr (n : Z) (k : nat) (bs : list byte) :
  to_bytes n k = inr bs ->
  List.length bs = k /\ from_bytes bs = n /\ 0 <= n < 256 ^ Z.of_nat k.
Proof.
  unfold to_bytes.
  destruct (0 <=? n) eqn:E1; destruct (n <? 256 ^ Z.of_nat k) eqn:E2;
    cbn; try discriminate.
  intros [= <-]. apply Z.leb_le in E1. apply Z.ltb_lt in E2.
  rewrite le_digits_length, from_bytes_le_digits by assumption.
  rewrite Z.mod_small by lia. repeat split; lia.
Qed.

Lemma to_bytes_fits (n : Z) (k : nat) :
  0 <= n < 256 ^ Z.of_nat k -> to_bytes n k = inr (le_digits k n).
Proof.
  intros [H1 H2]. unfold to_bytes.
  apply Z.leb_le in H1. apply Z.ltb_lt in H2. now rewrite H1, H2.
Qed.

(** ** Symbolic execution of the primitives *)

#[local] Arguments firstn : simpl never.
#[local] Arguments skipn : simpl never.
#[local] Arguments Z.add : simpl never.
#[local] Arguments Z.mul : simpl never.
#[local] Arguments Z.modulo : simpl never.
#[local] Arguments Z.pow : simpl never.

Ltac unfold_prims :=
  unfold bind, ser_reset_input_buffer, ser_reset_output_buffer, ser_write,
    ser_flush, ser_read, ser_close, serial_Serial, sleep, call, int_to_bytes,
    open_rb, print, pure, raise, ret, out_of_fuel, tick; cbn.

Ltac on_faults :=
  repeat match goal with
         | |- context [fault ?e ?k] => destruct (fault e k) eqn:?; cbn
         end.

Ltac on_tests :=
  repeat match goal with
         | |- context [if ?c then _ else _] => destruct c eqn:?; cbn
         end.

Ltac explore :=
  repeat first
    [ match goal with
      | |- context [fault ?e ?k] => destruct (fault e k) eqn:?; cbn
      end
    | match goal with
      | |- context [if ?c then _ else _] => destruct c eqn:?; cbn
      end ].

Ltac wire_eq :=
  cbn; rewrite <- ?app_assoc; first [reflexivity | symmetry; apply app_nil_r].

Ltac give_wire := eexists; split; [wire_eq | cbn].

Lemma to_bytes_4_cases (n : Z) :
  (to_bytes n 4 = inr (le_digits 4 n) /\ 0 <= n < 2 ^ 32) \/
  to_bytes n 4 = inl OverflowError.
Proof.
  unfold to_bytes.
  destruct (0 <=? n) eqn:E1; destruct (n <? 256 ^ Z.of_nat 4) eqn:E2;
    cbn; auto.
  left. split; [reflexivity|].
  apply Z.leb_le in E1. apply Z.ltb_lt in E2.
  change (256 ^ Z.of_nat 4) with (2 ^ 32) in E2. lia.
Qed.

Lemma bind_eq {A B} (m : M A) (f : A -> M B) (s : St) :
  bind m f s =
  match m s with
  | (Val a, s') => f a s'
  | (Ret b, s') => (Ret b, s')
  | (Exc e, s') => (Exc e, s')
  | (Fuel, s') => (Fuel, s')
  end.
Proof. reflexivity. Qed.

(** ** The wire under arbitrary link behaviour *)

Section Wire.

Variable env : Env.

Lemma mode_select_wire (port : string) (baudrate : Z) (s : St) :
  exists out,
    wire (snd (mode_select env port baudrate s)) = wire s ++ out /\
    match fst (mode_select env port baudrate s) with
    | Val _ => out = [[CMD_CHINESE]]
    | Exc _ => out = [] \/ out = [[CMD_CHINESE]]
    | Ret _ | Fuel => False
    end.
Proof.
  unfold mode_select. unfold_prims.
  explore; give_wire; auto.
Qed.

Lemma handshake_iter_wire (file_size retry_count : Z) (s : St) :
  exists out,
    wire (snd (handshake_iter env file_size retry_count s)) = wire s ++ out /\
    match fst (handshake_iter env file_size retry_count s) with
    | Val _ => out = start_frame file_size /\ 0 <= file_size < 2 ^ 32
    | Exc _ => out = [] \/ out = [[CMD_START]] \/
               (out = start_frame file_size /\ 0 <= file_size < 2 ^ 32)
    | Ret _ | Fuel => False
    end.
Proof.
  unfold handshake_iter. unfold_prims.
  destruct (to_bytes_4_cases file_size) as [[-> Hr] | ->].
  - explore; give_wire; auto.
  - explore; give_wire; auto.
Qed.

(** The handshake loop writes whole START attempts, except that an
    exception can cut the last one short after its command byte. *)
Lemma handshake_loop_wire (fuel : nat) (file_size : Z) :
  forall (retry_count : Z) (ack_received : bool) (s : St),
  exists h tail,
    wire (snd (handshake_loop env fuel file_size retry_count ack_received s))
    = wire s ++ start_frames file_size h ++ tail /\
    ((1 <= h)%nat -> 0 <= file_size < 2 ^ 32) /\
    match fst (handshake_loop env fuel file_size retry_count ack_received s) with
    | Val (_, ack) => tail = [] /\ (ack = true -> ack_received = true \/ (1 <= h)%nat)
    | Exc _ => tail = [] \/ tail = [[CMD_START]]
    | Fuel => tail = []
    | Ret _ => False
    end.
Proof.
  induction fuel as [|fuel IH]; intros rc ar s; cbn [handshake_loop].
  - destruct ((rc <? max_retries) && negb ar); cbn.
    + exists 0%nat, []. cbn. rewrite app_nil_r. repeat split; auto; lia.
    + exists 0%nat, []. cbn. rewrite app_nil_r. repeat split; auto; lia.
  - destruct ((rc <? max_retries) && negb ar); cbn.
    2:{ exists 0%nat, []. cbn. rewrite app_nil_r. repeat split; auto; lia. }
    rewrite bind_eq.
    destruct (handshake_iter_wire file_size rc s) as (o1 & W1 & Q1).
    destruct (handshake_iter env file_size rc s) as [[[rc' ar']|b|e|] s1];
      cbn in W1, Q1; try contradiction.
    + destruct (IH rc' ar' s1) as (h & tail & W2 & R2 & Q2).
      destruct Q1 as [-> Hr].
      exists (S h), tail. split; [|split].
      * rewrite W2, W1. unfold start_frames. cbn [repeat concat].
        now rewrite <- !app_assoc.
      * auto.
      * destruct (fst (handshake_loop env fuel file_size rc' ar' s1))
          as [[? ack]| | |]; auto.
        destruct Q2 as [-> _]. split; [reflexivity|]. intros _. right. lia.
    + cbn. destruct Q1 as [-> | [-> | [-> Hr]]].
      * exists 0%nat, []. cbn. rewrite W1. repeat split; auto; lia.
      * exists 0%nat, [[CMD_START]]. cbn. rewrite W1. repeat split; auto; lia.
      * exists 1%nat, []. unfold start_frames. cbn [repeat concat].
        rewrite W1, !app_nil_r. repeat split; auto; lia.
Qed.

End Wire.

(** ** Chunking *)

Lemma ceil_div_step (L : nat) :
  (0 < L)%nat -> ceil_div L = S (ceil_div (L - 256)).
Proof.
  intro HL. unfold ceil_div.
  destruct (Nat.le_gt_cases L 256) as [Hle|Hgt].
  - replace (L - 256 + 255)%nat with 255%nat by lia.
    rewrite (Nat.div_small 255 256) by lia.
    symmetry. apply Nat.div_unique with (r := (L - 1)%nat); lia.
  - replace (L + 255)%nat with ((L - 256 + 255) + 1 * 256)%nat by lia.
    rewrite Nat.div_add by lia. lia.
Qed.

Lemma skipn_chunk_length (l : list byte) :
  l <> [] -> (List.length (skipn CHUNK_SIZE l) < List.length l)%nat.
Proof.
  intro Hl. rewrite length_skipn. unfold CHUNK_SIZE.
  destruct l; [contradiction|]. cbn [List.length]. lia.
Qed.

Lemma chunks_fuel_enough (n : nat) :
  forall (m : nat) (l : list byte),
    (List.length l <= n)%nat -> (List.length l <= m)%nat ->
    chunks_fuel n l = chunks_fuel m l.
Proof.
  induction n as [|n IH]; intros m l Hn Hm.
  - destruct l; [|cbn in Hn; lia]. destruct m; reflexivity.
  - destruct l as [|a l]; [destruct m; reflexivity|].
    destruct m as [|m]; [cbn in Hm; lia|].
    cbn [chunks_fuel]. f_equal.
    pose proof (skipn_chunk_length (a :: l) ltac:(discriminate)).
    apply IH; lia.
Qed.

Lemma chunked_nil : chunked [] = [].
Proof. reflexivity. Qed.

Lemma chunked_cons (l : list byte) :
  l <> [] -> chunked l = firstn CHUNK_SIZE l :: chunked (skipn CHUNK_SIZE l).
Proof.
  intro Hl. unfold chunked at 1.
  pose proof (skipn_chunk_length l Hl) as Hlt.
  destruct l as [|a l]; [contradiction|].
  cbn [List.length chunks_fuel]. f_equal.
  apply chunks_fuel_enough; cbn [List.length] in *; lia.
Qed.

(** Induction on a list taken [CHUNK_SIZE] bytes at a time. *)
Lemma chunk_ind (P : list byte -> Prop) :
  P [] ->
  (forall l, l <> [] -> P (skipn CHUNK_SIZE l) -> P l) ->
  forall l, P l.
Proof.
  intros Hnil Hstep l.
  remember (List.length l) as n eqn:Hn.
  revert l Hn. induction n as [n IH] using lt_wf_ind. intros l Hn.
  destruct l as [|a l]; [exact Hnil|].
  apply Hstep; [discriminate|].
  apply (IH (List.length (skipn CHUNK_SIZE (a :: l)))); [|reflexivity].
  subst n. apply skipn_chunk_length. discriminate.
Qed.

Lemma concat_chunked (l : list byte) : List.concat (chunked l) = l.
Proof.
  induction l as [|l Hl IH] using chunk_ind; [reflexivity|].
  rewrite chunked_cons by assumption. cbn [List.concat].
  rewrite IH. apply firstn_skipn.
Qed.

Lemma chunked_count (l : list byte) :
  List.length (chunked l) = ceil_div (List.length l).
Proof.
  induction l as [|l Hl IH] using chunk_ind; [reflexivity|].
  rewrite chunked_cons by assumption. cbn [List.length].
  rewrite IH, length_skipn. unfold CHUNK_SIZE.
  symmetry. apply ceil_div_step.
  destruct l; [contradiction|cbn; lia].
Qed.

Lemma chunked_sizes (l : list byte) :
  Forall (fun c => (1 <= List.length c <= CHUNK_SIZE)%nat) (chunked l).
Proof.
  induction l as [|l Hl IH] using chunk_ind; [constructor|].
  rewrite chunked_cons by assumption. constructor; [|exact IH].
  rewrite length_firstn. unfold CHUNK_SIZE.
  destruct l; [contradiction|cbn [List.length]; lia].
Qed.

Lemma chunked_total (l : list byte) :
  total_length (chunked l) = Z.of_nat (List.length l).
Proof.
  induction l as [|l Hl IH] using chunk_ind; [reflexivity|].
  rewrite chunked_cons by assumption. cbn [total_length fold_right].
  fold (total_length (chunked (skipn CHUNK_SIZE l))).
  rewrite IH, length_firstn, length_skipn. lia.
Qed.

(** ** The wire under arbitrary link behaviour: transfer and end *)

Lemma to_bytes_2_cases (n : Z) :
  to_bytes n 2 = inr (le_digits 2 n) \/ to_bytes n 2 = inl OverflowError.
Proof.
  unfold to_bytes. destruct ((0 <=? n) && (n <? 256 ^ Z.of_nat 2)); auto.
Qed.

Lemma firstn_chunk_empty (f : list byte) :
  (List.length (firstn CHUNK_SIZE f) =? 0)%nat = true -> f = [].
Proof.
  intro H. apply Nat.eqb_eq in H. rewrite length_firstn in H.
  destruct f; [reflexivity|]. unfold CHUNK_SIZE in H. cbn [List.length] in H. lia.
Qed.

Lemma firstn_chunk_nonempty (f : list byte) :
  (List.length (firstn CHUNK_SIZE f) =? 0)%nat = false -> f <> [].
Proof.
  intros H ->. discriminate.
Qed.

Section WireTransfer.

Variable env : Env.

Lemma handshake_wire (fuel : nat) (file_size : Z) (s : St) :
  exists h tail,
    wire (snd (handshake env fuel file_size s))
    = wire s ++ start_frames file_size h ++ tail /\
    ((1 <= h)%nat -> 0 <= file_size < 2 ^ 32) /\
    match fst (handshake env fuel file_size s) with
    | Val _ => tail = [] /\ (1 <= h)%nat
    | Ret b => b = false /\ tail = []
    | Exc _ => tail = [] \/ tail = [[CMD_START]]
    | Fuel => tail = []
    end.
Proof.
  cbv beta iota delta [handshake bind print].
  match goal with
  | |- context [handshake_loop env fuel file_size 0 false ?s0] =>
      destruct (handshake_loop_wire env fuel file_size 0 false s0)
        as (h & tail & W & R & Q);
      destruct (handshake_loop env fuel file_size 0 false s0)
        as [[[rc ack]|b|e|] s1]
  end; cbn in W, Q; try contradiction; exists h, tail.
  - destruct Q as [-> Hack]. destruct ack; unfold_prims.
    + split; [exact W|]. split; [exact R|]. split; [reflexivity|].
      destruct (Hack eq_refl) as [Hf|Hh]; [discriminate Hf|exact Hh].
    + explore; rewrite W; auto.
  - cbn. auto.
  - cbn. auto.
Qed.

Lemma transfer_iter_wire (chunk : list byte) (total_sent file_size : Z) (s : St) :
  exists out,
    wire (snd (transfer_iter env chunk total_sent file_size s)) = wire s ++ out /\
    match fst (transfer_iter env chunk total_sent file_size s) with
    | Val ts =>
        out = data_frame chunk /\
        ts = total_sent + Z.of_nat (List.length chunk)
    | Ret b => b = false /\ out = data_frame chunk
    | Exc _ => out = [] \/ exists t, out = [CMD_DATA] :: t
    | Fuel => False
    end.
Proof.
  unfold transfer_iter. unfold_prims.
  destruct (to_bytes_2_cases (Z.of_nat (List.length chunk))) as [-> | ->].
  - explore; give_wire; eauto.
  - explore; give_wire; eauto.
Qed.

Lemma transfer_loop_wire (fuel : nat) (file_size : Z) :
  forall (f : list byte) (total_sent : Z) (s : St),
  exists out,
    wire (snd (transfer_loop env fuel f total_sent file_size s)) = wire s ++ out /\
    (out = [] \/ exists t, out = [CMD_DATA] :: t) /\
    match fst (transfer_loop env fuel f total_sent file_size s) with
    | Val _ =>
        file_size = total_sent + Z.of_nat (List.length f) ->
        out = flat_map data_frame (chunked f)
    | Ret b => b = false
    | _ => True
    end.
Proof.
  induction fuel as [|fuel IH]; intros f total s; cbn [transfer_loop].
  - destruct (total <? file_size) eqn:Hlt; cbn.
    + exists []. rewrite app_nil_r. auto.
    + exists []. rewrite app_nil_r. repeat split; auto.
      intro Hsz. apply Z.ltb_ge in Hlt.
      destruct f; [reflexivity|cbn [List.length] in Hsz; lia].
  - destruct (total <? file_size) eqn:Hlt; cbn.
    2:{ exists []. rewrite app_nil_r. repeat split; auto.
        intro Hsz. apply Z.ltb_ge in Hlt.
        destruct f; [reflexivity|cbn [List.length] in Hsz; lia]. }
    destruct (List.length (firstn CHUNK_SIZE f) =? 0)%nat eqn:Hc.
    { apply firstn_chunk_empty in Hc. subst f. cbn.
      exists []. rewrite app_nil_r. auto. }
    apply firstn_chunk_nonempty in Hc.
    rewrite bind_eq.
    destruct (transfer_iter_wire (firstn CHUNK_SIZE f) total file_size s)
      as (o1 & W1 & Q1).
    destruct (transfer_iter env (firstn CHUNK_SIZE f) total file_size s)
      as [[ts|b|e|] s1]; cbn in W1, Q1; try contradiction.
    + destruct Q1 as [-> ->].
      destruct (IH (skipn CHUNK_SIZE f)
                   (total + Z.of_nat (List.length (firstn CHUNK_SIZE f))) s1)
        as (o2 & W2 & _ & Q2).
      exists (data_frame (firstn CHUNK_SIZE f) ++ o2).
      split; [rewrite W2, W1; now rewrite <- app_assoc|].
      split; [right; unfold data_frame; cbn; eauto|].
      destruct (fst (transfer_loop env fuel (skipn CHUNK_SIZE f) _ file_size s1));
        auto.
      intro Hsz. rewrite chunked_cons by assumption. cbn [flat_map].
      f_equal. apply Q2. rewrite length_firstn, length_skipn. lia.
    + destruct Q1 as [-> ->]. cbn. exists (data_frame (firstn CHUNK_SIZE f)).
      repeat split; auto. right. unfold data_frame. eauto.
    + cbn. exists o1. repeat split; auto.
Qed.

Lemma finish_wire (s : St) :
  exists out,
    wire (snd (finish env s)) = wire s ++ out /\
    match fst (finish env s) with
    | Ret b => b = true /\ out = [[CMD_END]]
    | Exc _ => out = [] \/ out = [[CMD_END]]
    | Val _ | Fuel => False
    end.
Proof.
  unfold finish. unfold_prims. explore; give_wire; auto.
Qed.

(** The shape of everything a session writes, however it ends. *)
Lemma session_wire (fuel : nat) (port : string) (baudrate : Z)
      (file : File) (file_size : Z) (s : St) :
  exists out,
    wire (snd (session env fuel port baudrate file file_size s)) = wire s ++ out /\
    (out = [] \/
     exists h tail,
       out = [CMD_CHINESE] :: start_frames file_size h ++ tail /\
       ((1 <= h)%nat -> 0 <= file_size < 2 ^ 32) /\
       after_handshake tail) /\
    (fst (session env fuel port baudrate file file_size s) = Ret true ->
     forall payload,
       fopen file = Content payload ->
       file_size = Z.of_nat (List.length payload) ->
       exists h,
         (1 <= h)%nat /\
         out = [CMD_CHINESE] :: start_frames file_size h
               ++ flat_map data_frame (chunked payload) ++ [[CMD_END]]).
Proof.
  unfold session. rewrite bind_eq.
  destruct (mode_select_wire env port baudrate s) as (o1 & W1 & Q1).
  destruct (mode_select env port baudrate s) as [[[]|b|e|] s1];
    cbn in W1, Q1; try contradiction.
  2:{ cbn. exists o1. split; [assumption|]. split; [|discriminate].
      destruct Q1 as [-> | ->]; [now left|right].
      exists 0%nat, []. repeat split; [lia|lia|now left]. }
  subst o1. rewrite bind_eq.
  destruct (handshake_wire fuel file_size s1) as (h & tail & W2 & R2 & Q2).
  assert (Hstop :
    forall r : res Empty_set,
      (tail = [] \/ tail = [[CMD_START]]) -> r <> Ret true ->
      exists out,
        wire (snd (handshake env fuel file_size s1)) = wire s ++ out /\
        (out = [] \/
         exists h tail,
           out = [CMD_CHINESE] :: start_frames file_size h ++ tail /\
           ((1 <= h)%nat -> 0 <= file_size < 2 ^ 32) /\ after_handshake tail) /\
        (r = Ret true ->
         forall payload,
           fopen file = Content payload ->
           file_size = Z.of_nat (List.length payload) ->
           exists h,
             (1 <= h)%nat /\
             out = [CMD_CHINESE] :: start_frames file_size h
                   ++ flat_map data_frame (chunked payload) ++ [[CMD_END]])).
  { intros r Ht Hr. exists ([CMD_CHINESE] :: start_frames file_size h ++ tail).
    split; [rewrite W2, W1; now rewrite <- app_assoc|].
    split; [|intro; contradiction].
    right. exists h, tail. repeat split; try apply R2; auto.
    unfold after_handshake. tauto. }
  destruct (handshake env fuel file_size s1) as [[[]|b|e|] s2];
    cbn in W2, Q2 |- *.
  2:{ destruct Q2 as [-> ->]. apply (Hstop (Ret false)); [auto|discriminate]. }
  2:{ apply (Hstop (Exc e)); [auto|discriminate]. }
  2:{ apply (Hstop Fuel); [auto|discriminate]. }
  clear Hstop. destruct Q2 as [-> Hh]. rewrite app_nil_r in W2.
  rewrite bind_eq. unfold transfer. rewrite bind_eq. unfold open_rb.
  assert (Hpre : wire s2 = wire s ++ [CMD_CHINESE] :: start_frames file_size h).
  { rewrite W2, W1. now rewrite <- app_assoc. }
  destruct (fopen file) as [data|e] eqn:Hfile; unfold pure, raise.
  2:{ cbn. eexists. split; [exact Hpre|]. split; [|discriminate].
      right. exists h, []. rewrite app_nil_r. repeat split; try apply R2; auto.
      now left. }
  destruct (transfer_loop_wire fuel file_size data 0 s2) as (o3 & W3 & S3 & Q3).
  assert (Hafter : forall o4, o4 = [] \/ o4 = [[CMD_END]] ->
                              after_handshake (o3 ++ o4)).
  { intros o4 H4. unfold after_handshake.
    destruct S3 as [-> | [t ->]].
    - destruct H4 as [-> | ->]; cbn; [now left|].
      right. right. exists []. now right.
    - right. right. exists (t ++ o4). now left. }
  destruct (transfer_loop env fuel data 0 file_size s2) as [[[]|b|e|] s3];
    cbn in W3, Q3; cbv beta iota.
  2,3,4:
    (cbn; exists ([CMD_CHINESE] :: start_frames file_size h ++ o3);
     split; [rewrite W3, Hpre; now rewrite <- app_assoc|];
     split; [|subst; discriminate];
     right; exists h, o3; repeat split; try apply R2; auto;
     rewrite <- (app_nil_r o3); apply Hafter; now left).
  destruct (finish_wire s3) as (o4 & W4 & Q4).
  destruct (finish env s3) as [[[]|b|e|] s4]; cbn in W4, Q4 |- *;
    try contradiction.
  - destruct Q4 as [-> ->].
    exists ([CMD_CHINESE] :: start_frames file_size h ++ o3 ++ [[CMD_END]]).
    split; [rewrite W4, W3, Hpre; now rewrite <- !app_assoc|].
    split.
    + right. exists h, (o3 ++ [[CMD_END]]). repeat split; try apply R2; auto.
    + intros _ payload [= <-] Hsz. exists h. split; [assumption|].
      rewrite Q3 by lia. reflexivity.
  - exists ([CMD_CHINESE] :: start_frames file_size h ++ o3 ++ o4).
    split; [rewrite W4, W3, Hpre; now rewrite <- !app_assoc|].
    split; [|discriminate].
    right. exists h, (o3 ++ o4). repeat split; try apply R2; auto.
Qed.

End WireTransfer.

(** * What the upload guarantees *)

Lemma announce_wire (font_file : string) (file_size : Z) (s : St) :
  wire (snd (announce font_file file_size s)) = wire s.
Proof. reflexivity. Qed.

(** C1.  A session that returns [True] for a font of [L] bytes has written
    the trigger byte, at least one START attempt, the DATA chunks and the
    END byte, and nothing else.  The chunks are the successive 256-byte
    slices of the font: there are [ceil(L/256)] of them, none longer than
    256 bytes, and their lengths add up to [L]. *)
Theorem chunk_count_and_total
        (env : Env) (fuel : nat) (port : string) (baudrate : Z)
        (font_file : string) (payload : list byte) (s s' : St) :
  fs env font_file = Some (regular_file payload) ->
  send_font_file env fuel port baudrate font_file s = (Returned true, s') ->
  (exists h,
     wire s' = wire s ++ [CMD_CHINESE]
                 :: start_frames (Z.of_nat (List.length payload)) h
                 ++ flat_map data_frame (chunked payload) ++ [[CMD_END]]) /\
  List.length (chunked payload) = ceil_div (List.length payload) /\
  Forall (fun c => (List.length c <= 256)%nat) (chunked payload) /\
  total_length (chunked payload) = Z.of_nat (List.length payload).
Proof.
  intros Hfile Hrun. split; [|split; [|split]].
  - unfold send_font_file in Hrun. rewrite Hfile in Hrun. cbv zeta in Hrun.
    destruct (session_wire env fuel port baudrate (regular_file payload)
                (st_size (regular_file payload))
                (snd (announce font_file (st_size (regular_file payload)) s)))
      as (out & W & _ & Ok).
    rewrite announce_wire in W.
    destruct (session env fuel port baudrate (regular_file payload) _ _)
      as [[[]|b|e|] s1]; cbn in W, Ok.
    + injection Hrun as -> ->.
      destruct (Ok eq_refl payload eq_refl eq_refl) as (h & _ & ->).
      exists h. exact W.
    + destruct (isinstance_SerialException e); [discriminate|].
      destruct (isinstance_Exception e); discriminate.
    + discriminate.
  - apply chunked_count.
  - eapply Forall_impl; [|apply chunked_sizes].
    cbv beta. unfold CHUNK_SIZE. intros c Hc. lia.
  - apply chunked_total.
Qed.

Lemma chunk_count_and_total_witness :
  (exists h,
     wire (snd (send_font_file (always_ack 300) 5 "COM4" 115200 "font.bin" st0))
     = wire st0 ++ [CMD_CHINESE]
         :: start_frames (Z.of_nat (List.length (repeat Byte.x01 300))) h
         ++ flat_map data_frame (chunked (repeat Byte.x01 300)) ++ [[CMD_END]]) /\
  List.length (chunked (repeat Byte.x01 300))
  = ceil_div (List.length (repeat Byte.x01 300)) /\
  Forall (fun c => (List.length c <= 256)%nat) (chunked (repeat Byte.x01 300)) /\
  total_length (chunked (repeat Byte.x01 300))
  = Z.of_nat (List.length (repeat Byte.x01 300)).
Proof.
  apply (chunk_count_and_total
           (always_ack 300) 5 "COM4" 115200 "font.bin" (repeat Byte.x01 300) st0).
  - reflexivity.
  - vm_compute. reflexivity.
Defined.

(** C6.  When the font file does not exist the function returns [False]
    having only printed the error: no call was made on any port object
    (the constructor included), so no port was opened, and nothing was
    written to the link. *)
Theorem missing_file_no_link_activity
        (env : Env) (fuel : nat) (port : string) (baudrate : Z)
        (font_file : string) (s : St) :
  fs env font_file = None ->
  send_font_file env fuel port baudrate font_file s
  = (Returned false,
     mkSt (ser_calls s) (ser_reads s) (ser_open s) (wire s)
          (log s ++ [MsgFileNotFound font_file]) (clock s)).
Proof.
  intro Hfile. unfold send_font_file. rewrite Hfile. reflexivity.
Qed.

Lemma missing_file_no_link_activity_witness :
  send_font_file no_file 5 "COM4" 115200 "font.bin" st0
  = (Returned false,
     mkSt 0 0 false [] [MsgFileNotFound "font.bin"] 0).
Proof.
  apply (missing_file_no_link_activity no_file 5 "COM4" 115200 "font.bin" st0).
  reflexivity.
Defined.




(** ** A link that raises nothing *)

Lemma bind_assoc {A B C} (m : M A) (f : A -> M B) (g : B -> M C) (s : St) :
  bind (bind m f) g s = bind m (fun a => bind (f a) g) s.
Proof.
  unfold bind. destruct (m s) as [[a|b|e|] s1]; reflexivity.
Qed.

Lemma session_split (env : Env) (fuel : nat) (port : string) (baudrate : Z)
      (file : File) (file_size : Z) (s : St) :
  session env fuel port baudrate file file_size s
  = bind (upto_handshake env fuel port baudrate file_size)
         (fun _ => bind (transfer env fuel file file_size)
                        (fun _ => finish env)) s.
Proof.
  unfold session, upto_handshake. now rewrite bind_assoc.
Qed.

Lemma to_bytes_4_fits (n : Z) :
  0 <= n < 2 ^ 32 -> to_bytes n 4 = inr (le_digits 4 n).
Proof.
  intro H. apply to_bytes_fits. change (256 ^ Z.of_nat 4) with (2 ^ 32). lia.
Qed.

Ltac on_ifs :=
  repeat match goal with
         | |- context [if ?c then _ else _] => destruct c eqn:?; cbn
         end.

Ltac give_state :=
  eexists; split; [reflexivity|]; cbn; rewrite <- ?app_assoc; auto.

Section NoFault.

Variable env : Env.
Hypothesis nofault : forall k, fault env k = None.

Ltac run_ok := unfold_prims; repeat first [rewrite nofault | progress cbn].

Lemma mode_select_ok (port : string) (baudrate : Z) (s : St) :
  exists s1,
    mode_select env port baudrate s = (Val tt, s1) /\
    wire s1 = wire s ++ [[CMD_CHINESE]] /\
    ser_reads s1 = 1%nat /\
    ser_open s1 = true /\
    log s1 = log s ++ [MsgConnected port baudrate; MsgSendingC; MsgWaitingOK;
                       mode_select_msg (firstn 4 (rx env 0))].
Proof.
  unfold mode_select, mode_select_msg. run_ok. on_ifs; run_ok; give_state.
Qed.

(** One turn of the handshake loop when the length fits in four bytes. *)
Lemma handshake_iter_ok (file_size retry_count : Z) (s : St) :
  0 <= file_size < 2 ^ 32 ->
  exists s1,
    handshake_iter env file_size retry_count s
    = (Val (if (0 <? List.length (firstn 10 (rx env (ser_reads s))))%nat
            then retry_count else retry_count + 1,
            has_ack (firstn 10 (rx env (ser_reads s)))), s1) /\
    wire s1 = wire s ++ start_frame file_size /\
    ser_reads s1 = S (ser_reads s) /\
    ser_open s1 = ser_open s /\
    (has_ack (firstn 10 (rx env (ser_reads s))) = true ->
     log s1 = log s ++ [MsgAckReceived]).
Proof.
  intro Hfit. unfold handshake_iter, int_to_bytes.
  rewrite (to_bytes_4_fits _ Hfit). run_ok.
  destruct (firstn 10 (rx env (ser_reads s))) as [|b ack]; cbn.
  - on_ifs; run_ok; give_state; repeat split; auto; discriminate.
  - on_ifs; run_ok; give_state; repeat split; auto; discriminate.
Qed.

(** One turn when it does not: the START byte goes out, then
    [to_bytes] raises. *)
Lemma handshake_iter_overflow (file_size retry_count : Z) (s : St) :
  ~ 0 <= file_size < 2 ^ 32 ->
  exists s1,
    handshake_iter env file_size retry_count s = (Exc OverflowError, s1) /\
    wire s1 = wire s ++ [[CMD_START]].
Proof.
  intro Hfit. unfold handshake_iter, int_to_bytes.
  destruct (to_bytes_4_cases file_size) as [[_ E] | E]; [contradiction|].
  rewrite E. run_ok. give_state.
Qed.

Lemma handshake_loop_exit (fuel : nat) (file_size retry_count : Z)
      (ack_received : bool) (s : St) :
  (retry_count <? max_retries) && negb ack_received = false ->
  handshake_loop env fuel file_size retry_count ack_received s
  = (Val (retry_count, ack_received), s).
Proof.
  intro H. destruct fuel; cbn [handshake_loop]; now rewrite H.
Qed.

(** One more turn of the loop. *)
Lemma handshake_loop_step (fuel : nat) (file_size retry_count : Z) (s : St) :
  0 <= file_size < 2 ^ 32 ->
  retry_count < max_retries ->
  exists s1,
    handshake_loop env (S fuel) file_size retry_count false s
    = handshake_loop env fuel file_size
        (if (0 <? List.length (firstn 10 (rx env (ser_reads s))))%nat
         then retry_count else retry_count + 1)
        (has_ack (firstn 10 (rx env (ser_reads s)))) s1 /\
    wire s1 = wire s ++ start_frame file_size /\
    ser_reads s1 = S (ser_reads s) /\
    ser_open s1 = ser_open s /\
    (has_ack (firstn 10 (rx env (ser_reads s))) = true ->
     log s1 = log s ++ [MsgAckReceived]).
Proof.
  intros Hfit Hrc.
  destruct (handshake_iter_ok file_size retry_count s Hfit) as (s1 & E & H).
  exists s1. split; [|exact H].
  cbn [handshake_loop]. apply Z.ltb_lt in Hrc. rewrite Hrc. cbn [andb negb].
  rewrite bind_eq, E. reflexivity.
Qed.


(** A device that keeps sending bytes without ever sending ACK keeps the
    loop going for as long as it is allowed to run. *)
Lemma handshake_loop_junk (file_size : Z) (fuel : nat) :
  0 <= file_size < 2 ^ 32 ->
  forall (retry_count : Z) (s : St),
    retry_count < max_retries ->
    (forall k, (ser_reads s <= k)%nat ->
               firstn 10 (rx env k) <> [] /\
               has_ack (firstn 10 (rx env k)) = false) ->
    exists s',
      handshake_loop env fuel file_size retry_count false s = (Fuel, s') /\
      wire s' = wire s ++ start_frames file_size fuel.
Proof.
  intro Hfit. induction fuel as [|fuel IH]; intros rc s Hrc Hrx.
  - exists s. cbn [handshake_loop]. apply Z.ltb_lt in Hrc. rewrite Hrc. cbn.
    now rewrite app_nil_r.
  - destruct (handshake_loop_step fuel file_size rc s Hfit Hrc)
      as (s1 & E & W1 & R1 & _).
    rewrite E. destruct (Hrx (ser_reads s) ltac:(lia)) as [Hne Hna].
    rewrite Hna.
    destruct (firstn 10 (rx env (ser_reads s))) as [|b ack]; [contradiction|].
    cbn [List.length Nat.ltb Nat.leb].
    destruct (IH rc s1 Hrc) as (s' & E' & W').
    { intros k Hk. apply Hrx. lia. }
    exists s'. split; [exact E'|].
    rewrite W', W1. unfold start_frames. cbn [repeat List.concat].
    now rewrite <- !app_assoc.
Qed.

(** A device whose every answer is either nothing or contains ACK lets the
    loop end within the retries that are left. *)
Lemma handshake_loop_terminates (file_size : Z) (n : nat) :
  0 <= file_size < 2 ^ 32 ->
  forall (fuel : nat) (retry_count : Z) (ack_received : bool) (s : St),
    max_retries - retry_count <= Z.of_nat n ->
    (n <= fuel)%nat ->
    (forall k, firstn 10 (rx env k) = [] \/
               has_ack (firstn 10 (rx env k)) = true) ->
    exists r s' h,
      handshake_loop env fuel file_size retry_count ack_received s
      = (Val r, s') /\
      wire s' = wire s ++ start_frames file_size h /\
      (h <= n)%nat.
Proof.
  intro Hfit. induction n as [|n IH]; intros fuel rc ar s Hrc Hfuel Hrx.
  - exists (rc, ar), s, 0%nat. rewrite handshake_loop_exit.
    + cbn. rewrite app_nil_r. auto.
    + replace (rc <? max_retries) with false; [reflexivity|].
      symmetry. apply Z.ltb_ge. lia.
  - destruct ((rc <? max_retries) && negb ar) eqn:Hc.
    2:{ exists (rc, ar), s, 0%nat. rewrite handshake_loop_exit by assumption.
        cbn. rewrite app_nil_r. repeat split; lia. }
    apply andb_true_iff in Hc. destruct Hc as [Hlt Har].
    apply Z.ltb_lt in Hlt. destruct ar; [discriminate|].
    destruct fuel as [|fuel]; [lia|].
    destruct (handshake_loop_step fuel file_size rc s Hfit Hlt)
      as (s1 & E & W1 & _).
    rewrite E.
    assert (Hnext : forall rc' ar',
               max_retries - rc' <= Z.of_nat n \/ ar' = true ->
               exists r s' h,
                 handshake_loop env fuel file_size rc' ar' s1 = (Val r, s') /\
                 wire s' = wire s ++ start_frames file_size h /\
                 (h <= S n)%nat).
    { intros rc' ar' [Hrc' | ->].
      - destruct (IH fuel rc' ar' s1 Hrc' ltac:(lia) Hrx)
          as (r & s' & h & E' & W' & Hh).
        exists r, s', (S h). split; [exact E'|]. split; [|lia].
        rewrite W', W1. unfold start_frames. cbn [repeat List.concat].
        now rewrite <- !app_assoc.
      - exists (rc', true), s1, 1%nat. rewrite handshake_loop_exit.
        + split; [reflexivity|]. split; [|lia].
          rewrite W1. unfold start_frames. cbn [repeat List.concat].
          now rewrite app_nil_r.
        + cbn. apply andb_false_r. }
    apply Hnext.
    destruct (Hrx (ser_reads s)) as [H0 | H0]; rewrite H0.
    + left. cbn. lia.
    + now right.
Qed.

End NoFault.

(** ** The transfer over a link that raises nothing *)

Lemma total_length_cons (c : list byte) (l : list (list byte)) :
  total_length (c :: l) = Z.of_nat (List.length c) + total_length l.
Proof. reflexivity. Qed.

Lemma total_length_nonneg (l : list (list byte)) : 0 <= total_length l.
Proof.
  induction l as [|c l IH]; [cbn; lia|]. rewrite total_length_cons. lia.
Qed.

Lemma to_bytes_2_fits (n : Z) :
  0 <= n < 65536 -> to_bytes n 2 = inr (le_digits 2 n).
Proof.
  intro H. apply to_bytes_fits. change (256 ^ Z.of_nat 2) with 65536. lia.
Qed.

Lemma firstn_chunk_length (f : list byte) :
  (List.length (firstn CHUNK_SIZE f) <= 256)%nat.
Proof.
  rewrite length_firstn. unfold CHUNK_SIZE. lia.
Qed.

Section NoFaultTransfer.

Variable env : Env.
Hypothesis nofault : forall k, fault env k = None.

Ltac run_ok := unfold_prims; repeat first [rewrite nofault | progress cbn].

(** One chunk: it is written in full, then the single byte read decides. *)
Lemma transfer_iter_ok (chunk : list byte) (total_sent file_size : Z) (s : St) :
  (List.length chunk <= 256)%nat ->
  exists s1,
    transfer_iter env chunk total_sent file_size s
    = (if no_ack (firstn 1 (rx env (ser_reads s))) then Ret false
       else Val (total_sent + Z.of_nat (List.length chunk)), s1) /\
    wire s1 = wire s ++ data_frame chunk /\
    ser_reads s1 = S (ser_reads s) /\
    log s1 = log s ++
             [if no_ack (firstn 1 (rx env (ser_reads s)))
              then MsgNoAckAt total_sent
              else MsgProgress (total_sent + Z.of_nat (List.length chunk))
                               file_size] /\
    ser_open s1 = (if no_ack (firstn 1 (rx env (ser_reads s)))
                   then false else ser_open s).
Proof.
  intro Hlen. unfold transfer_iter, int_to_bytes.
  rewrite to_bytes_2_fits by lia. run_ok.
  destruct (no_ack (firstn 1 (rx env (ser_reads s)))); run_ok; give_state.
Qed.

Lemma transfer_loop_step (fuel : nat) (f : list byte)
      (total_sent file_size : Z) (s : St) :
  f <> [] -> total_sent < file_size ->
  transfer_loop env (S fuel) f total_sent file_size s
  = bind (transfer_iter env (firstn CHUNK_SIZE f) total_sent file_size)
         (fun ts => transfer_loop env fuel (skipn CHUNK_SIZE f) ts file_size) s.
Proof.
  intros Hf Hlt. cbn [transfer_loop]. apply Z.ltb_lt in Hlt. rewrite Hlt.
  destruct (List.length (firstn CHUNK_SIZE f) =? 0)%nat eqn:E; [|reflexivity].
  apply firstn_chunk_empty in E. contradiction.
Qed.

(** Every chunk acknowledged: the loop sends the whole file and ends. *)
Lemma transfer_loop_acked (file_size : Z) (f : list byte) :
  forall (total_sent : Z) (s : St) (fuel : nat),
    file_size = total_sent + Z.of_nat (List.length f) ->
    (List.length (chunked f) <= fuel)%nat ->
    (forall j, (j < List.length (chunked f))%nat ->
               no_ack (firstn 1 (rx env (ser_reads s + j))) = false) ->
    exists s',
      transfer_loop env fuel f total_sent file_size s = (Val tt, s') /\
      wire s' = wire s ++ flat_map data_frame (chunked f) /\
      ser_reads s' = (ser_reads s + List.length (chunked f))%nat /\
      log s' = log s ++ progress_msgs total_sent file_size (chunked f) /\
      ser_open s' = ser_open s.
Proof.
  induction f as [|f Hf IH] using chunk_ind; intros total s fuel Hsz Hfuel Hrx.
  - exists s. cbn [List.length] in Hsz.
    replace (transfer_loop env fuel [] total file_size s) with (@Val unit tt, s).
    + cbn. rewrite !app_nil_r. repeat split; lia.
    + destruct fuel; cbn [transfer_loop];
        (replace (total <? file_size) with false
          by (symmetry; apply Z.ltb_ge; lia)); reflexivity.
  - rewrite chunked_cons in * by assumption. cbn [List.length] in Hfuel, Hrx.
    destruct fuel as [|fuel]; [lia|].
    assert (Hpos : (0 < List.length f)%nat)
      by (destruct f; [contradiction|cbn; lia]).
    rewrite transfer_loop_step by (assumption || lia).
    destruct (transfer_iter_ok (firstn CHUNK_SIZE f) total file_size s
                               (firstn_chunk_length f))
      as (s1 & E & W1 & R1 & L1 & O1).
    pose proof (Hrx 0%nat ltac:(lia)) as H0. rewrite Nat.add_0_r in H0.
    rewrite H0 in E, L1, O1. rewrite bind_eq, E.
    destruct (IH (total + Z.of_nat (List.length (firstn CHUNK_SIZE f))) s1 fuel)
      as (s' & E' & W' & R' & L' & O').
    { rewrite length_firstn, length_skipn. unfold CHUNK_SIZE. lia. }
    { lia. }
    { intros j Hj. rewrite R1.
      replace (S (ser_reads s) + j)%nat with (ser_reads s + S j)%nat by lia.
      apply Hrx. lia. }
    exists s'. split; [exact E'|]. cbn [List.length]. repeat split.
    + rewrite W', W1. cbn [flat_map]. now rewrite <- app_assoc.
    + lia.
    + rewrite L', L1. cbn [progress_msgs]. now rewrite <- app_assoc.
    + congruence.
Qed.

(** [n] chunks acknowledged, then one that is not: the loop stops there
    and reports the bytes of the [n] acknowledged chunks. *)
Lemma transfer_loop_nack (file_size : Z) (n : nat) :
  forall (f : list byte) (total_sent : Z) (s : St) (fuel : nat),
    (n < List.length (chunked f))%nat ->
    total_sent + total_length (firstn n (chunked f)) < file_size ->
    (forall j, (j < n)%nat ->
               no_ack (firstn 1 (rx env (ser_reads s + j))) = false) ->
    no_ack (firstn 1 (rx env (ser_reads s + n))) = true ->
    (n < fuel)%nat ->
    exists s',
      transfer_loop env fuel f total_sent file_size s = (Ret false, s') /\
      wire s' = wire s ++ flat_map data_frame (firstn (S n) (chunked f)) /\
      log s' = log s ++ progress_msgs total_sent file_size (firstn n (chunked f))
                     ++ [MsgNoAckAt (total_sent
                                     + total_length (firstn n (chunked f)))] /\
      ser_open s' = false.
Proof.
  induction n as [|n IH]; intros f total s fuel Hn Hsz Hgood Hbad Hfuel.
  - destruct fuel as [|fuel]; [lia|].
    assert (Hf : f <> []) by (intros ->; cbn in Hn; lia).
    rewrite chunked_cons in * by assumption.
    rewrite firstn_O in *. rewrite firstn_cons, firstn_O.
    cbn [total_length fold_right] in Hsz |- *.
    rewrite transfer_loop_step by (assumption || lia).
    destruct (transfer_iter_ok (firstn CHUNK_SIZE f) total file_size s
                               (firstn_chunk_length f))
      as (s1 & E & W1 & R1 & L1 & O1).
    rewrite Nat.add_0_r in Hbad. rewrite Hbad in E, L1, O1.
    rewrite bind_eq, E. exists s1. split; [reflexivity|]. repeat split.
    + rewrite W1. cbn [flat_map]. now rewrite app_nil_r.
    + rewrite L1. cbn [progress_msgs app]. now rewrite Z.add_0_r.
    + exact O1.
  - destruct fuel as [|fuel]; [lia|].
    assert (Hf : f <> []) by (intros ->; cbn in Hn; lia).
    rewrite chunked_cons in * by assumption. cbn [List.length] in Hn.
    rewrite !firstn_cons in *. rewrite total_length_cons in *.
    pose proof (total_length_nonneg
                  (firstn n (chunked (skipn CHUNK_SIZE f)))) as Hnn.
    rewrite transfer_loop_step by (assumption || lia).
    destruct (transfer_iter_ok (firstn CHUNK_SIZE f) total file_size s
                               (firstn_chunk_length f))
      as (s1 & E & W1 & R1 & L1 & O1).
    pose proof (Hgood 0%nat ltac:(lia)) as H0. rewrite Nat.add_0_r in H0.
    rewrite H0 in E, L1, O1. rewrite bind_eq, E.
    destruct (IH (skipn CHUNK_SIZE f)
                 (total + Z.of_nat (List.length (firstn CHUNK_SIZE f))) s1 fuel)
      as (s' & E' & W' & L' & O'); try lia.
    { intros j Hj. rewrite R1.
      replace (S (ser_reads s) + j)%nat with (ser_reads s + S j)%nat by lia.
      apply Hgood. lia. }
    { rewrite R1.
      replace (S (ser_reads s) + n)%nat with (ser_reads s + S n)%nat by lia.
      exact Hbad. }
    exists s'. split; [exact E'|]. repeat split.
    + rewrite W', W1. cbn [flat_map]. now rewrite <- app_assoc.
    + rewrite L', L1. cbn [progress_msgs]. rewrite <- !app_assoc. cbn [app].
      now rewrite Z.add_assoc.
    + exact O'.
Qed.

End NoFaultTransfer.

(** ** From the session to [send_font_file] *)

Lemma send_font_file_wire (env : Env) (fuel : nat) (port : string)
      (baudrate : Z) (font_file : string) (file : File) (s : St) :
  fs env font_file = Some file ->
  wire (snd (send_font_file env fuel port baudrate font_file s))
  = wire (snd (session env fuel port baudrate file (st_size file)
                       (snd (announce font_file (st_size file) s)))).
Proof.
  intro Hfile. unfold send_font_file. rewrite Hfile. cbv zeta.
  destruct (session env fuel port baudrate file (st_size file) _)
    as [[[]|b|e|] s']; try reflexivity.
  destruct e; reflexivity.
Qed.

Lemma send_font_file_ret (env : Env) (fuel : nat) (port : string)
      (baudrate : Z) (font_file : string) (file : File) (s s' : St) (b : bool) :
  fs env font_file = Some file ->
  session env fuel port baudrate file (st_size file)
          (snd (announce font_file (st_size file) s)) = (Ret b, s') ->
  send_font_file env fuel port baudrate font_file s = (Returned b, s').
Proof.
  intros Hfile Hrun. unfold send_font_file. rewrite Hfile. cbv zeta.
  now rewrite Hrun.
Qed.

Lemma send_font_file_fuel (env : Env) (fuel : nat) (port : string)
      (baudrate : Z) (font_file : string) (file : File) (s s' : St) :
  fs env font_file = Some file ->
  session env fuel port baudrate file (st_size file)
          (snd (announce font_file (st_size file) s)) = (Fuel, s') ->
  send_font_file env fuel port baudrate font_file s = (Running, s').
Proof.
  intros Hfile Hrun. unfold send_font_file. rewrite Hfile. cbv zeta.
  now rewrite Hrun.
Qed.

Lemma chunked_600 (payload : list byte) :
  List.length payload = 600%nat ->
  map (@List.length byte) (chunked payload) = [256; 256; 88]%nat.
Proof.
  intro Hlen.
  assert (H1 : payload <> []) by (intros ->; discriminate).
  rewrite (chunked_cons payload H1).
  assert (L1 : List.length (skipn CHUNK_SIZE payload) = 344%nat)
    by (rewrite length_skipn, Hlen; reflexivity).
  assert (H2 : skipn CHUNK_SIZE payload <> [])
    by (intro E; rewrite E in L1; discriminate).
  rewrite (chunked_cons _ H2).
  assert (L2 : List.length (skipn CHUNK_SIZE (skipn CHUNK_SIZE payload)) = 88%nat)
    by (rewrite length_skipn, L1; reflexivity).
  assert (H3 : skipn CHUNK_SIZE (skipn CHUNK_SIZE payload) <> [])
    by (intro E; rewrite E in L2; discriminate).
  rewrite (chunked_cons _ H3).
  assert (L3 : List.length (skipn CHUNK_SIZE
                 (skipn CHUNK_SIZE (skipn CHUNK_SIZE payload))) = 0%nat)
    by (rewrite length_skipn, L2; reflexivity).
  apply length_zero_iff_nil in L3. rewrite L3, chunked_nil.
  cbn [map]. rewrite !length_firstn, L1, L2, Hlen. reflexivity.
Qed.

Section NoFaultSession.

Variable env : Env.
Hypothesis nofault : forall k, fault env k = None.

Ltac run_ok := unfold_prims; repeat first [rewrite nofault | progress cbn].

Lemma finish_ok (s : St) :
  exists s',
    finish env s = (Ret true, s') /\
    wire s' = wire s ++ [[CMD_END]] /\
    ser_reads s' = ser_reads s /\
    log s' = log s ++ [MsgNewline; MsgTransferComplete] /\
    ser_open s' = false.
Proof.
  unfold finish. run_ok. give_state.
Qed.

(** The handshake is over after one attempt when the first answer has ACK
    in it. *)
Lemma upto_handshake_ack_first (fuel : nat) (port : string) (baudrate : Z)
      (file_size : Z) (s : St) :
  0 <= file_size < 2 ^ 32 ->
  has_ack (firstn 10 (rx env 1)) = true ->
  (1 <= fuel)%nat ->
  exists s1,
    upto_handshake env fuel port baudrate file_size s = (Val tt, s1) /\
    wire s1 = wire s ++ [CMD_CHINESE] :: start_frame file_size /\
    ser_reads s1 = 2%nat /\
    log s1 = log s ++ [MsgConnected port baudrate; MsgSendingC; MsgWaitingOK;
                       mode_select_msg (firstn 4 (rx env 0));
                       MsgSendingStart; MsgAckReceived] /\
    ser_open s1 = true.
Proof.
  intros Hfit Hack Hfuel. destruct fuel as [|fuel]; [lia|].
  unfold upto_handshake. rewrite bind_eq.
  destruct (mode_select_ok env nofault port baudrate s)
    as (s0 & E0 & W0 & R0 & O0 & L0).
  rewrite E0. cbv beta iota delta [handshake bind print].
  match goal with
  | |- context [handshake_loop env (S fuel) file_size 0 false ?st] =>
      destruct (handshake_loop_step env nofault fuel file_size 0 st Hfit
                                    ltac:(reflexivity))
        as (s1 & E1 & W1 & R1 & O1 & L1)
  end.
  rewrite E1. cbn [ser_reads wire log ser_open] in W1, R1, O1, L1 |- *.
  rewrite R0 in L1 |- *. rewrite Hack. specialize (L1 Hack).
  rewrite handshake_loop_exit by (cbn; apply andb_false_r).
  cbn. exists s1. split; [reflexivity|]. repeat split.
  - rewrite W1, W0. now rewrite <- app_assoc.
  - lia.
  - rewrite L1, L0. now rewrite <- !app_assoc.
  - congruence.
Qed.

(** A session in which the first START and every chunk are acknowledged
    returns [True], having sent the whole font. *)
Lemma send_font_file_acked (fuel : nat) (port : string) (baudrate : Z)
      (font_file : string) (payload : list byte) (s : St) :
  fs env font_file = Some (regular_file payload) ->
  Z.of_nat (List.length payload) < 2 ^ 32 ->
  has_ack (firstn 10 (rx env 1)) = true ->
  (forall j, (j < List.length (chunked payload))%nat ->
             no_ack (firstn 1 (rx env (2 + j))) = false) ->
  (1 <= fuel)%nat ->
  (List.length (chunked payload) <= fuel)%nat ->
  exists s',
    send_font_file env fuel port baudrate font_file s = (Returned true, s') /\
    wire s' = wire s ++ [CMD_CHINESE]
                :: start_frame (Z.of_nat (List.length payload))
                ++ flat_map data_frame (chunked payload) ++ [[CMD_END]] /\
    ser_reads s' = (2 + List.length (chunked payload))%nat /\
    log s' = log s
             ++ [MsgFontFile font_file;
                 MsgFileSize (Z.of_nat (List.length payload));
                 MsgConnected port baudrate; MsgSendingC; MsgWaitingOK;
                 mode_select_msg (firstn 4 (rx env 0));
                 MsgSendingStart; MsgAckReceived]
             ++ progress_msgs 0 (Z.of_nat (List.length payload)) (chunked payload)
             ++ [MsgNewline; MsgTransferComplete] /\
    ser_open s' = false.
Proof.
  intros Hfile Hfit Hack Hacks Hfuel1 Hfuel.
  set (L := Z.of_nat (List.length payload)) in *.
  destruct (upto_handshake_ack_first fuel port baudrate L
              (snd (announce font_file L s)) ltac:(lia) Hack Hfuel1)
    as (s1 & E1 & W1 & R1 & L1 & O1).
  destruct (transfer_loop_acked env nofault L payload 0 s1 fuel
              ltac:(subst L; lia) Hfuel)
    as (s2 & E2 & W2 & R2 & L2 & O2).
  { intros j Hj. rewrite R1. now apply Hacks. }
  destruct (finish_ok s2) as (s3 & E3 & W3 & R3 & L3 & O3).
  exists s3. split.
  - apply (send_font_file_ret env fuel port baudrate font_file
                              (regular_file payload) s s3 true Hfile).
    change (st_size (regular_file payload)) with L.
    rewrite session_split, bind_eq, E1, bind_eq.
    unfold transfer. cbn [regular_file fopen open_rb].
    rewrite bind_eq. unfold pure at 1. rewrite E2. exact E3.
  - repeat split.
    + rewrite W3, W2, W1. cbn [announce]. rewrite <- !app_assoc. reflexivity.
    + lia.
    + rewrite L3, L2, L1. cbn. rewrite <- !app_assoc. reflexivity.
    + exact O3.
Qed.

End NoFaultSession.

(** C7.  A font of 600 bytes sent to a device that answers every read with
    one ACK byte: the function returns [True]; it wrote the trigger byte,
    one START attempt, three DATA chunks of 256, 256 and 88 bytes in that
    order and the END byte; it made five reads in all, one for the trigger
    byte, one for the handshake and one per chunk; and it printed three
    progress lines. *)
Theorem six_hundred_bytes_three_chunks
        (env : Env) (fuel : nat) (port : string) (baudrate : Z)
        (font_file : string) (payload : list byte) (s : St) :
  (forall k, fault env k = None) ->
  (forall k, rx env k = [CMD_ACK]) ->
  fs env font_file = Some (regular_file payload) ->
  List.length payload = 600%nat ->
  (3 <= fuel)%nat ->
  exists s',
    send_font_file env fuel port baudrate font_file s = (Returned true, s') /\
    wire s' = wire s ++ [CMD_CHINESE] :: start_frame 600
                ++ flat_map data_frame (chunked payload) ++ [[CMD_END]] /\
    map (@List.length byte) (chunked payload) = [256; 256; 88]%nat /\
    ser_reads s' = 5%nat /\
    log s' = log s
             ++ [MsgFontFile font_file; MsgFileSize 600;
                 MsgConnected port baudrate; MsgSendingC; MsgWaitingOK;
                 MsgWarnNoOK; MsgSendingStart; MsgAckReceived;
                 MsgProgress 256 600; MsgProgress 512 600; MsgProgress 600 600;
                 MsgNewline; MsgTransferComplete] /\
    ser_open s' = false.
Proof.
  intros Hnofault Hrx Hfile Hlen Hfuel.
  pose proof (chunked_600 payload Hlen) as Hsizes.
  assert (Hcount : List.length (chunked payload) = 3%nat)
    by (rewrite <- (length_map (@List.length byte)), Hsizes; reflexivity).
  destruct (send_font_file_acked env Hnofault fuel port baudrate font_file
                                 payload s Hfile)
    as (s' & E & W & R & L & O).
  - rewrite Hlen. reflexivity.
  - rewrite Hrx. reflexivity.
  - intros j _. rewrite Hrx. reflexivity.
  - lia.
  - lia.
  - exists s'. rewrite Hlen in W, L. change (Z.of_nat 600) with 600 in W, L.
    repeat split; try assumption.
    + lia.
    + rewrite L, Hrx. f_equal.
      destruct (chunked payload) as [|c1 [|c2 [|c3 [|c4 l]]]];
        try discriminate Hcount.
      injection Hsizes as H1 H2 H3.
      cbn [progress_msgs]. rewrite H1, H2, H3. reflexivity.
Qed.

Lemma six_hundred_bytes_three_chunks_witness :
  exists s',
    send_font_file (always_ack 600) 3 "COM4" 115200 "font.bin" st0
    = (Returned true, s') /\
    wire s' = wire st0 ++ [CMD_CHINESE] :: start_frame 600
                ++ flat_map data_frame (chunked (repeat Byte.x01 600))
                ++ [[CMD_END]] /\
    map (@List.length byte) (chunked (repeat Byte.x01 600))
    = [256; 256; 88]%nat /\
    ser_reads s' = 5%nat /\
    log s' = log st0
             ++ [MsgFontFile "font.bin"; MsgFileSize 600;
                 MsgConnected "COM4" 115200; MsgSendingC; MsgWaitingOK;
                 MsgWarnNoOK; MsgSendingStart; MsgAckReceived;
                 MsgProgress 256 600; MsgProgress 512 600; MsgProgress 600 600;
                 MsgNewline; MsgTransferComplete] /\
    ser_open s' = false.
Proof.
  apply (six_hundred_bytes_three_chunks
           (always_ack 600) 3 "COM4" 115200 "font.bin" (repeat Byte.x01 600) st0).
  - intro k. reflexivity.
  - intro k. reflexivity.
  - reflexivity.
  - vm_compute. reflexivity.
  - lia.
Defined.

(** C4.  Take a session that got through the handshake and whose first
    [k-1] chunks were acknowledged.  If the read after chunk [k] comes back
    empty or with a byte that is not ACK, the function returns [False] at
    once: chunk [k] is the last thing on the wire, the port is closed, and
    the byte count in the error message is the total length of chunks
    [1..k-1], chunk [k] not included. *)
Theorem nack_reports_acknowledged_bytes
        (env : Env) (fuel : nat) (port : string) (baudrate : Z)
        (font_file : string) (file : File) (payload : list byte)
        (s s1 : St) (k : nat) :
  (forall i, fault env i = None) ->
  fs env font_file = Some file ->
  fopen file = Content payload ->
  upto_handshake env fuel port baudrate (st_size file)
                 (snd (announce font_file (st_size file) s)) = (Val tt, s1) ->
  (1 <= k <= List.length (chunked payload))%nat ->
  total_length (firstn (k - 1) (chunked payload)) < st_size file ->
  (forall j, (j < k - 1)%nat ->
             no_ack (firstn 1 (rx env (ser_reads s1 + j))) = false) ->
  no_ack (firstn 1 (rx env (ser_reads s1 + (k - 1)))) = true ->
  (k <= fuel)%nat ->
  exists s',
    send_font_file env fuel port baudrate font_file s = (Returned false, s') /\
    wire s' = wire s1 ++ flat_map data_frame (firstn k (chunked payload)) /\
    log s' = log s1
             ++ progress_msgs 0 (st_size file) (firstn (k - 1) (chunked payload))
             ++ [MsgNoAckAt (total_length (firstn (k - 1) (chunked payload)))] /\
    ser_open s' = false.
Proof.
  intros Hnofault Hfile Hopen Hupto Hk Hsz Hgood Hbad Hfuel.
  destruct (transfer_loop_nack env Hnofault (st_size file) (k - 1)
                               payload 0 s1 fuel)
    as (s' & E & W & L & O); try assumption; try lia.
  exists s'. replace (S (k - 1)) with k in W by lia.
  rewrite Z.add_0_l in L. repeat split; try assumption.
  apply (send_font_file_ret env fuel port baudrate font_file file s s' false
                            Hfile).
  rewrite session_split, bind_eq, Hupto, bind_eq.
  unfold transfer, open_rb. rewrite Hopen, bind_eq. unfold pure at 1.
  now rewrite E.
Qed.

Lemma nack_reports_acknowledged_bytes_witness :
  exists s',
    send_font_file nack_second_chunk 5 "COM4" 115200 "font.bin" st0
    = (Returned false, s') /\
    wire s'
    = wire (snd (upto_handshake nack_second_chunk 5 "COM4" 115200 600
                                (snd (announce "font.bin" 600 st0))))
      ++ flat_map data_frame (firstn 2 (chunked (repeat Byte.x01 600))) /\
    log s'
    = log (snd (upto_handshake nack_second_chunk 5 "COM4" 115200 600
                               (snd (announce "font.bin" 600 st0))))
      ++ progress_msgs 0 600 (firstn (2 - 1) (chunked (repeat Byte.x01 600)))
      ++ [MsgNoAckAt (total_length
                        (firstn (2 - 1) (chunked (repeat Byte.x01 600))))] /\
    ser_open s' = false.
Proof.
  apply (nack_reports_acknowledged_bytes
           nack_second_chunk 5 "COM4" 115200 "font.bin"
           (regular_file (repeat Byte.x01 600)) (repeat Byte.x01 600) st0
           (snd (upto_handshake nack_second_chunk 5 "COM4" 115200 600
                                (snd (announce "font.bin" 600 st0)))) 2).
  - intro i. reflexivity.
  - reflexivity.
  - reflexivity.
  - vm_compute. reflexivity.
  - vm_compute. lia.
  - vm_compute. reflexivity.
  - intros j Hj. assert (j = 0%nat) as -> by lia. vm_compute. reflexivity.
  - vm_compute. reflexivity.
  - lia.
Defined.

(** ** The first START attempt *)

(** Whatever the link does, the transfer and the end of the session only
    add to the wire. *)
Lemma transfer_finish_wire (env : Env) (fuel : nat) (file : File)
      (file_size : Z) (s : St) :
  exists out,
    wire (snd (bind (transfer env fuel file file_size)
                    (fun _ => finish env) s)) = wire s ++ out.
Proof.
  rewrite bind_eq. unfold transfer. rewrite bind_eq. unfold open_rb.
  destruct (fopen file) as [data|e]; unfold pure, raise.
  2:{ exists []. cbn. now rewrite app_nil_r. }
  destruct (transfer_loop_wire env fuel file_size data 0 s) as (o1 & W1 & _).
  destruct (transfer_loop env fuel data 0 file_size s) as [[[]|b|e|] s1];
    cbn in W1; cbv beta iota; try (exists o1; exact W1).
  destruct (finish_wire env s1) as (o2 & W2 & _).
  exists (o1 ++ o2). rewrite W2, W1. now rewrite <- app_assoc.
Qed.

Section FirstAttempt.

Variable env : Env.
Hypothesis nofault : forall k, fault env k = None.

Ltac run_ok := unfold_prims; repeat first [rewrite nofault | progress cbn].

(** Given one turn at least, the handshake begins by writing START. *)
Lemma handshake_starts (fuel : nat) (file_size : Z) (s : St) :
  (1 <= fuel)%nat ->
  exists tail,
    wire (snd (handshake env fuel file_size s)) = wire s ++ [CMD_START] :: tail.
Proof.
  intro Hfuel. destruct fuel as [|fuel]; [lia|].
  cbv beta iota delta [handshake bind print]. cbn [handshake_loop].
  change ((0 <? max_retries) && negb false) with true. cbv beta iota.
  rewrite bind_eq.
  match goal with
  | |- context [handshake_iter env file_size 0 ?st] => set (s0 := st)
  end.
  assert (W0 : wire s0 = wire s) by reflexivity.
  destruct (to_bytes_4_cases file_size) as [[_ Hfit] | Hover].
  - destruct (handshake_iter_ok env nofault file_size 0 s0 Hfit)
      as (s1 & E1 & W1 & _).
    rewrite E1.
    match goal with
    | |- context [handshake_loop env fuel file_size ?rc ?ar s1] =>
        destruct (handshake_loop_wire env fuel file_size rc ar s1)
          as (h & tail & W2 & _ & _);
        destruct (handshake_loop env fuel file_size rc ar s1)
          as [[[rc2 ar2]|b|e|] s2]
    end; cbn [snd] in W2.
    + exists (le_digits 4 file_size :: start_frames file_size h ++ tail).
      destruct ar2; run_ok; rewrite W2, W1, W0; unfold start_frame;
        now rewrite <- app_assoc.
    + exists (le_digits 4 file_size :: start_frames file_size h ++ tail).
      cbn. rewrite W2, W1, W0. unfold start_frame. now rewrite <- app_assoc.
    + exists (le_digits 4 file_size :: start_frames file_size h ++ tail).
      cbn. rewrite W2, W1, W0. unfold start_frame. now rewrite <- app_assoc.
    + exists (le_digits 4 file_size :: start_frames file_size h ++ tail).
      cbn. rewrite W2, W1, W0. unfold start_frame. now rewrite <- app_assoc.
  - assert (Hnot : ~ 0 <= file_size < 2 ^ 32).
    { intro Hfit. rewrite (to_bytes_4_fits _ Hfit) in Hover. discriminate. }
    destruct (handshake_iter_overflow env nofault file_size 0 s0 Hnot)
      as (s1 & E1 & W1).
    rewrite E1. exists []. cbn. now rewrite W1, W0.
Qed.

End FirstAttempt.

(** ** The first START attempt *)

(** Unless an exception ends it, a handshake given one turn at least gets
    a whole START attempt out, length field included. *)
Lemma handshake_first_attempt (env : Env) (fuel : nat) (file_size : Z)
      (s : St) :
  (1 <= fuel)%nat ->
  (forall e, fst (handshake env fuel file_size s) <> Exc e) ->
  0 <= file_size < 2 ^ 32 /\
  exists rest,
    wire (snd (handshake env fuel file_size s))
    = wire s ++ start_frame file_size ++ rest.
Proof.
  intro Hfuel. destruct fuel as [|fuel]; [lia|].
  cbv beta iota delta [handshake bind print]. cbn [handshake_loop].
  change ((0 <? max_retries) && negb false) with true. cbv beta iota.
  rewrite bind_eq.
  match goal with
  | |- context [handshake_iter env file_size 0 ?st] => set (s0 := st)
  end.
  assert (W0 : wire s0 = wire s) by reflexivity.
  destruct (handshake_iter_wire env file_size 0 s0) as (o1 & W1 & Q1).
  destruct (handshake_iter env file_size 0 s0) as [[[rc ar]|b|e|] s1];
    cbn in W1, Q1; try contradiction.
  - destruct Q1 as [-> Hfit].
    destruct (handshake_loop_wire env fuel file_size rc ar s1)
      as (h & tail & W2 & _ & _).
    destruct (handshake_loop env fuel file_size rc ar s1)
      as [[[rc2 ar2]|b|e|] s2]; cbn [snd] in W2; intros _;
      (split; [exact Hfit|]); exists (start_frames file_size h ++ tail).
    + destruct ar2; unfold_prims; explore; rewrite W2, W1, ?W0; cbn;
        now rewrite <- app_assoc.
    + cbn [snd]. rewrite W2, W1, ?W0. now rewrite <- app_assoc.
    + cbn [snd]. rewrite W2, W1, ?W0. now rewrite <- app_assoc.
    + cbn [snd]. rewrite W2, W1, ?W0. now rewrite <- app_assoc.
  - intro Hne. exfalso. apply (Hne e). reflexivity.
Qed.

Lemma session_first_attempt (env : Env) (fuel : nat) (port : string)
      (baudrate : Z) (file : File) (file_size : Z) (s : St) :
  (1 <= fuel)%nat ->
  (forall e, fst (upto_handshake env fuel port baudrate file_size s) <> Exc e) ->
  0 <= file_size < 2 ^ 32 /\
  exists rest,
    wire (snd (session env fuel port baudrate file file_size s))
    = wire s ++ [CMD_CHINESE] :: start_frame file_size ++ rest.
Proof.
  intros Hfuel. rewrite session_split, bind_eq.
  unfold upto_handshake. rewrite bind_eq.
  destruct (mode_select_wire env port baudrate s) as (o1 & W1 & Q1).
  destruct (mode_select env port baudrate s) as [[[]|b|e|] s1];
    cbn in W1, Q1; try contradiction.
  2:{ intro Hne. exfalso. apply (Hne e). reflexivity. }
  subst o1. intro Hne.
  destruct (handshake_first_attempt env fuel file_size s1 Hfuel Hne)
    as (Hfit & r2 & W2).
  split; [exact Hfit|].
  destruct (handshake env fuel file_size s1) as [[[]|b|e|] s2];
    cbn [snd] in W2 |- *.
  - destruct (transfer_finish_wire env fuel file file_size s2) as (o3 & W3).
    exists (r2 ++ o3). rewrite W3, W2, W1. rewrite <- !app_assoc. reflexivity.
  - exists r2. rewrite W2, W1. now rewrite <- !app_assoc.
  - exists r2. rewrite W2, W1. now rewrite <- !app_assoc.
  - exists r2. rewrite W2, W1. now rewrite <- !app_assoc.
Qed.

(** A session that returns [True] was given a turn of the handshake loop,
    and nothing raised before the transfer. *)
Lemma session_true_handshake (env : Env) (fuel : nat) (port : string)
      (baudrate : Z) (file : File) (file_size : Z) (s : St) :
  fst (session env fuel port baudrate file file_size s) = Ret true ->
  (1 <= fuel)%nat /\
  forall e, fst (upto_handshake env fuel port baudrate file_size s) <> Exc e.
Proof.
  rewrite session_split, bind_eq. intro H. split.
  - destruct fuel as [|fuel]; [exfalso|lia]. revert H.
    unfold upto_handshake. rewrite bind_eq.
    destruct (mode_select_wire env port baudrate s) as (o1 & _ & Q1).
    destruct (mode_select env port baudrate s) as [[[]|b|e|] s1];
      cbn in Q1 |- *; try contradiction; discriminate.
  - intros e He.
    destruct (upto_handshake env fuel port baudrate file_size s)
      as [[[]|b|e'|] s1]; cbn in He, H; discriminate.
Qed.

Section FirstAttemptNoFault.

Variable env : Env.
Hypothesis nofault : forall k, fault env k = None.

Lemma handshake_loop_no_raise (file_size : Z) (fuel : nat) :
  0 <= file_size < 2 ^ 32 ->
  forall (retry_count : Z) (ack_received : bool) (s : St) (e : exn),
    fst (handshake_loop env fuel file_size retry_count ack_received s)
    <> Exc e.
Proof.
  intro Hfit. induction fuel as [|fuel IH]; intros rc ar s e;
    cbn [handshake_loop];
    destruct ((rc <? max_retries) && negb ar); try discriminate.
  rewrite bind_eq.
  destruct (handshake_iter_ok env nofault file_size rc s Hfit)
    as (s1 & E & _).
  rewrite E. apply IH.
Qed.

Lemma upto_handshake_no_raise (fuel : nat) (port : string) (baudrate : Z)
      (file_size : Z) (s : St) (e : exn) :
  0 <= file_size < 2 ^ 32 ->
  fst (upto_handshake env fuel port baudrate file_size s) <> Exc e.
Proof.
  intro Hfit. unfold upto_handshake. rewrite bind_eq.
  destruct (mode_select_ok env nofault port baudrate s) as (s1 & E & _).
  rewrite E. cbv beta iota delta [handshake bind print].
  match goal with
  | |- context [handshake_loop env fuel file_size 0 false ?st] =>
      pose proof (handshake_loop_no_raise file_size fuel Hfit 0 false st) as N;
      destruct (handshake_loop env fuel file_size 0 false st)
        as [[[rc ar]|b|e'|] s2]
  end; try discriminate.
  - destruct ar; unfold_prims; rewrite ?nofault; discriminate.
  - exfalso. apply (N e'). reflexivity.
Qed.

End FirstAttemptNoFault.

(** A wire that is known to open with a START attempt has [h >= 1]. *)
Lemma announces_from_prefix (file_size : Z) (out rest : list (list byte)) :
  0 <= file_size < 2 ^ 32 ->
  out = [CMD_CHINESE] :: start_frame file_size ++ rest ->
  (out = [] \/
   exists h tail,
     out = [CMD_CHINESE] :: start_frames file_size h ++ tail /\
     ((1 <= h)%nat -> 0 <= file_size < 2 ^ 32) /\
     after_handshake tail) ->
  announces file_size out.
Proof.
  intros Hfit Hpre [-> | (h & tail & Hout & _ & Hafter)]; [discriminate|].
  exists h, tail.
  assert (Hh : (1 <= h)%nat).
  { destruct h as [|h]; [exfalso|lia].
    rewrite Hout in Hpre. cbn in Hpre. injection Hpre as Htail.
    unfold after_handshake in Hafter. rewrite Htail in Hafter.
    destruct Hafter as [H | [H | (t & [H | H])]]; discriminate. }
  split; [exact Hh|]. split; [exact Hout|]. split; [exact Hafter|].
  split; [apply le_digits_length|].
  rewrite from_bytes_le_digits by lia. apply Z.mod_small.
  change (256 ^ Z.of_nat 4) with (2 ^ 32). lia.
Qed.

(** C3.  Whatever the link does and however the session ends, what it
    writes is the trigger byte, then whole START attempts, each one the
    START command followed by the same length field, then the rest of the
    session; that field is four bytes long and decodes, little-endian, to
    the size of the font file; and a START command with no field after it
    can only be the last thing written, by an attempt an exception ended.
    There is such an attempt, field included, in every session that reaches
    the handshake and is not ended there by an exception: in particular on
    every link that raises nothing, for a size that fits the field, and in
    every session that returns [True]. *)
Theorem start_length_field_is_file_size
        (env : Env) (fuel : nat) (port : string) (baudrate : Z)
        (font_file : string) (file : File) (s : St) :
  fs env font_file = Some file ->
  exists out,
    wire (snd (send_font_file env fuel port baudrate font_file s)) = wire s ++ out /\
    (out = [] \/
     exists h tail,
       out = [CMD_CHINESE] :: start_frames (st_size file) h ++ tail /\
       after_handshake tail /\
       ((1 <= h)%nat ->
        List.length (le_digits 4 (st_size file)) = 4%nat /\
        from_bytes (le_digits 4 (st_size file)) = st_size file)) /\
    ((1 <= fuel)%nat ->
     (forall e,
         fst (upto_handshake env fuel port baudrate (st_size file)
                             (snd (announce font_file (st_size file) s)))
         <> Exc e) ->
     announces (st_size file) out) /\
    ((1 <= fuel)%nat ->
     (forall k, fault env k = None) ->
     0 <= st_size file < 2 ^ 32 ->
     announces (st_size file) out) /\
    (fst (send_font_file env fuel port baudrate font_file s) = Returned true ->
     announces (st_size file) out).
Proof.
  intro Hfile.
  pose proof (send_font_file_wire env fuel port baudrate font_file file s
                                  Hfile) as Hw.
  destruct (session_wire env fuel port baudrate file (st_size file)
                         (snd (announce font_file (st_size file) s)))
    as (out & W & Shape & _).
  rewrite announce_wire, <- Hw in W.
  assert (Hgen : (1 <= fuel)%nat ->
                 (forall e,
                     fst (upto_handshake env fuel port baudrate (st_size file)
                            (snd (announce font_file (st_size file) s)))
                     <> Exc e) ->
                 announces (st_size file) out).
  { intros Hfuel Hne.
    destruct (session_first_attempt env fuel port baudrate file (st_size file)
                (snd (announce font_file (st_size file) s)) Hfuel Hne)
      as (Hfit & rest & Wp).
    rewrite announce_wire, <- Hw, W in Wp. apply app_inv_head in Wp.
    exact (announces_from_prefix (st_size file) out rest Hfit Wp Shape). }
  exists out. split; [exact W|]. split; [|split; [exact Hgen|split]].
  - destruct Shape as [-> | (h & tail & -> & Hr & Ht)]; [now left|right].
    exists h, tail. split; [reflexivity|]. split; [exact Ht|].
    intro Hh. specialize (Hr Hh). split; [apply le_digits_length|].
    rewrite from_bytes_le_digits by lia. apply Z.mod_small.
    change (256 ^ Z.of_nat 4) with (2 ^ 32). lia.
  - intros Hfuel Hnofault Hfit. apply Hgen; [exact Hfuel|].
    intro e. now apply upto_handshake_no_raise.
  - intro Htrue.
    assert (Hs : fst (session env fuel port baudrate file (st_size file)
                              (snd (announce font_file (st_size file) s)))
                 = Ret true).
    { revert Htrue. unfold send_font_file. rewrite Hfile. cbv zeta.
      destruct (session env fuel port baudrate file (st_size file) _)
        as [[[]|b|e|] s1]; cbn.
      - intros [= ->]. reflexivity.
      - destruct (isinstance_SerialException e); [discriminate|].
        destruct (isinstance_Exception e); discriminate.
      - discriminate. }
    destruct (session_true_handshake env fuel port baudrate file (st_size file)
                (snd (announce font_file (st_size file) s)) Hs)
      as [Hfuel Hne].
    exact (Hgen Hfuel Hne).
Qed.

Lemma start_length_field_is_file_size_witness :
  exists out,
    wire (snd (send_font_file (always_ack 300) 5 "COM4" 115200 "font.bin" st0))
    = wire st0 ++ out /\
    announces 300 out.
Proof.
  destruct (start_length_field_is_file_size
              (always_ack 300) 5 "COM4" 115200 "font.bin"
              (regular_file (repeat Byte.x01 300)) st0 eq_refl)
    as (out & W & _ & _ & H & _).
  exists out. split; [exact W|].
  apply H.
  - lia.
  - intro k. reflexivity.
  - vm_compute. split; [discriminate|reflexivity].
Defined.

(** C5.  Whatever the device answers to the trigger byte, be it nothing,
    fewer than four bytes, or four bytes with or without "OK" in them,
    the check of that answer ends normally, having printed either the
    confirmation or one of the two warnings, and the session goes on to
    the handshake: a START command is the next thing written. *)
Theorem ok_check_is_advisory
        (env : Env) (fuel : nat) (port : string) (baudrate : Z)
        (font_file : string) (file : File) (s : St) :
  (forall k, fault env k = None) ->
  fs env font_file = Some file ->
  (1 <= fuel)%nat ->
  (exists s1,
     mode_select env port baudrate (snd (announce font_file (st_size file) s))
     = (Val tt, s1) /\
     log s1 = log (snd (announce font_file (st_size file) s))
              ++ [MsgConnected port baudrate; MsgSendingC; MsgWaitingOK;
                  mode_select_msg (firstn 4 (rx env 0))]) /\
  (mode_select_msg (firstn 4 (rx env 0)) = MsgReceivedOK \/
   mode_select_msg (firstn 4 (rx env 0)) = MsgWarnNoOK \/
   mode_select_msg (firstn 4 (rx env 0))
   = MsgWarnUnexpected (decode_ascii_ignore (firstn 4 (rx env 0)))) /\
  exists tail,
    wire (snd (send_font_file env fuel port baudrate font_file s))
    = wire s ++ [CMD_CHINESE] :: [CMD_START] :: tail.
Proof.
  intros Hnofault Hfile Hfuel.
  destruct (mode_select_ok env Hnofault port baudrate
                           (snd (announce font_file (st_size file) s)))
    as (s1 & E1 & W1 & _ & _ & L1).
  split; [exists s1; split; assumption|]. split.
  - unfold mode_select_msg.
    destruct (List.length (firstn 4 (rx env 0)) <? 4)%nat; [tauto|].
    destruct (contains_OK (decode_ascii_ignore (firstn 4 (rx env 0)))); tauto.
  - rewrite (send_font_file_wire env fuel port baudrate font_file file s Hfile).
    unfold session. rewrite bind_eq, E1, bind_eq.
    destruct (handshake_starts env Hnofault fuel (st_size file) s1 Hfuel)
      as (tail & W2).
    rewrite announce_wire in W1.
    destruct (handshake env fuel (st_size file) s1) as [[[]|b|e|] s2];
      cbn [snd] in W2 |- *;
      try (exists tail; rewrite W2, W1; now rewrite <- app_assoc).
    destruct (transfer_finish_wire env fuel file (st_size file) s2)
      as (out & W3).
    exists (tail ++ out). rewrite W3, W2, W1. now rewrite <- !app_assoc.
Qed.

Lemma ok_check_is_advisory_witness :
  (exists s1,
     mode_select silent "COM4" 115200 (snd (announce "font.bin" 1 st0))
     = (Val tt, s1) /\
     log s1 = log (snd (announce "font.bin" 1 st0))
              ++ [MsgConnected "COM4" 115200; MsgSendingC; MsgWaitingOK;
                  mode_select_msg (firstn 4 (rx silent 0))]) /\
  (mode_select_msg (firstn 4 (rx silent 0)) = MsgReceivedOK \/
   mode_select_msg (firstn 4 (rx silent 0)) = MsgWarnNoOK \/
   mode_select_msg (firstn 4 (rx silent 0))
   = MsgWarnUnexpected (decode_ascii_ignore (firstn 4 (rx silent 0)))) /\
  exists tail,
    wire (snd (send_font_file silent 1 "COM4" 115200 "font.bin" st0))
    = wire st0 ++ [CMD_CHINESE] :: [CMD_START] :: tail.
Proof.
  apply (ok_check_is_advisory silent 1 "COM4" 115200 "font.bin"
                              (regular_file [Byte.x01]) st0).
  - intro k. reflexivity.
  - reflexivity.
  - lia.
Defined.

(** ** More fuel changes nothing once a run has ended *)





(** ** The handshake against a device that never acknowledges *)






(** C9.  On a link that raises nothing and for a length that fits in four
    bytes:
    - one turn of the handshake loop adds one to [retry_count] when its
      read returns no byte, and leaves it as it was when the read returns
      bytes, whether or not ACK is among them;
    - so against a device whose every handshake answer has bytes but no
      ACK the counter never moves and the function never returns: whatever
      the bound on the loop, it is still running at the end of it, having
      written as many START attempts as the bound allows;
    - while against a device whose every answer is either empty or has ACK
      in it the loop ends within fifty attempts. *)
Theorem retry_counter_counts_only_timeouts (env : Env) (file_size : Z) :
  (forall k, fault env k = None) ->
  0 <= file_size < 2 ^ 32 ->
  (forall retry_count s,
      exists s1 retry_count' ack_received,
        handshake_iter env file_size retry_count s
        = (Val (retry_count', ack_received), s1) /\
        (firstn 10 (rx env (ser_reads s)) = [] ->
         retry_count' = retry_count + 1 /\ ack_received = false) /\
        (firstn 10 (rx env (ser_reads s)) <> [] ->
         retry_count' = retry_count /\
         ack_received = has_ack (firstn 10 (rx env (ser_reads s))))) /\
  ((forall k, (1 <= k)%nat ->
              firstn 10 (rx env k) <> [] /\
              has_ack (firstn 10 (rx env k)) = false) ->
   forall fuel port baudrate font_file file s,
     fs env font_file = Some file ->
     st_size file = file_size ->
     exists s',
       send_font_file env fuel port baudrate font_file s = (Running, s') /\
       wire s' = wire s ++ [CMD_CHINESE] :: start_frames file_size fuel) /\
  ((forall k, firstn 10 (rx env k) = [] \/
              has_ack (firstn 10 (rx env k)) = true) ->
   forall fuel s,
     (50 <= fuel)%nat ->
     exists r s' h,
       handshake_loop env fuel file_size 0 false s = (Val r, s') /\
       wire s' = wire s ++ start_frames file_size h /\
       (h <= 50)%nat).
Proof.
  intros Hnofault Hfit. split; [|split].
  - intros rc s.
    destruct (handshake_iter_ok env Hnofault file_size rc s Hfit)
      as (s1 & E & _).
    exists s1. eexists. eexists. split; [exact E|].
    destruct (firstn 10 (rx env (ser_reads s))) as [|b ack].
    + split; [intros _; split; reflexivity|intro H; contradiction].
    + split; [discriminate|intros _; split; reflexivity].
  - intros Hjunk fuel port baudrate font_file file s Hfile Hsize.
    destruct (mode_select_ok env Hnofault port baudrate
                             (snd (announce font_file (st_size file) s)))
      as (s0 & E0 & W0 & R0 & _).
    rewrite announce_wire in W0.
    assert (Hrun : exists s',
               handshake env fuel file_size s0 = (Fuel, s') /\
               wire s' = wire s0 ++ start_frames file_size fuel).
    { cbv beta iota delta [handshake bind print].
      match goal with
      | |- context [handshake_loop env fuel file_size 0 false ?st] =>
          destruct (handshake_loop_junk env Hnofault file_size fuel Hfit 0 st
                                        ltac:(reflexivity))
            as (s2 & E2 & W2)
      end.
      { intros k Hk. cbn [ser_reads] in Hk. rewrite R0 in Hk. now apply Hjunk. }
      rewrite E2. exists s2. split; [reflexivity|exact W2]. }
    destruct Hrun as (s' & E1 & W1).
    exists s'. split.
    + apply (send_font_file_fuel env fuel port baudrate font_file file s s'
                                 Hfile).
      rewrite Hsize. unfold session.
      rewrite Hsize in E0. now rewrite bind_eq, E0, bind_eq, E1.
    + rewrite W1, W0. now rewrite <- app_assoc.
  - intros Hrx fuel s Hfuel.
    apply (handshake_loop_terminates env Hnofault file_size 50 Hfit fuel 0
                                     false s); [unfold max_retries; lia|exact Hfuel|exact Hrx].
Qed.

Lemma retry_counter_counts_only_timeouts_witness :
  (exists s',
     send_font_file junk_forever 7 "COM4" 115200 "font.bin" st0
     = (Running, s') /\
     wire s' = wire st0 ++ [CMD_CHINESE] :: start_frames 1 7) /\
  (exists r s' h,
     handshake_loop silent 50 1 0 false st0 = (Val r, s') /\
     wire s' = wire st0 ++ start_frames 1 h /\
     (h <= 50)%nat).
Proof.
  assert (Hfit : 0 <= 1 < 2 ^ 32) by (split; [lia|reflexivity]).
  split.
  - apply (proj1 (proj2 (retry_counter_counts_only_timeouts
                           junk_forever 1 (fun _ => eq_refl) Hfit)))
      with (file := regular_file [Byte.x01]).
    + intros k _. split; [discriminate|reflexivity].
    + reflexivity.
    + reflexivity.
  - apply (proj2 (proj2 (retry_counter_counts_only_timeouts
                           silent 1 (fun _ => eq_refl) Hfit))).
    + intro k. left. reflexivity.
    + lia.
Defined.

(** ** Agreement of two runs *)

Lemma agree_bind {A B} (P : St -> St -> Prop) (m1 m2 : M A)
      (f1 f2 : A -> M B) :
  agree P m1 m2 ->
  (forall a, agree same_port (f1 a) (f2 a)) ->
  agree P (bind m1 f1) (bind m2 f2).
Proof.
  intros Hm Hf s1 s2 HP. unfold bind.
  destruct (Hm s1 s2 HP) as (Hr & Hs & out & W1 & W2).
  destruct (m1 s1) as [r1 t1]; destruct (m2 s2) as [r2 t2].
  cbn [fst snd] in Hr, Hs, W1, W2. subst r2.
  destruct r1 as [a|b|e|]; cbn [fst snd];
    try (split; [reflexivity|]; split; [exact Hs|]; exists out; now split).
  destruct (Hf a t1 t2 Hs) as (Hr' & Hs' & out' & W1' & W2').
  split; [exact Hr'|]. split; [exact Hs'|].
  exists (out ++ out'). rewrite W1', W1, W2', W2. now rewrite <- !app_assoc.
Qed.

Ltac agree_nothing :=
  intros s1 s2 Hs; cbn; split; [reflexivity|]; split; [exact Hs|];
  exists []; now rewrite !app_nil_r.

Lemma agree_pure {A} (a : A) : agree same_port (pure a) (pure a).
Proof. agree_nothing. Qed.

Lemma agree_ret {A} (b : bool) : agree same_port (@ret A b) (@ret A b).
Proof. agree_nothing. Qed.

Lemma agree_raise {A} (e : exn) : agree same_port (@raise A e) (@raise A e).
Proof. agree_nothing. Qed.

Lemma agree_out_of_fuel {A} :
  agree same_port (@out_of_fuel A) (@out_of_fuel A).
Proof. agree_nothing. Qed.

Lemma agree_print (m1 m2 : msg) : agree same_port (print m1) (print m2).
Proof. agree_nothing. Qed.

Lemma agree_sleep (ms : Z) : agree same_port (sleep ms) (sleep ms).
Proof. agree_nothing. Qed.

Lemma agree_int_to_bytes (n : Z) (k : nat) :
  agree same_port (int_to_bytes n k) (int_to_bytes n k).
Proof.
  unfold int_to_bytes. destruct (to_bytes n k);
    [apply agree_raise|apply agree_pure].
Qed.

Lemma agree_open_rb (file : File) :
  agree same_port (open_rb file) (open_rb file).
Proof.
  unfold open_rb. destruct (fopen file); [apply agree_pure|apply agree_raise].
Qed.

Section Agreement.

Variables env1 env2 : Env.
Hypothesis same_rx : forall k, rx env1 k = rx env2 k.
Hypothesis same_fault : forall k, fault env1 k = fault env2 k.

Ltac agree_call :=
  intros s1 s2 [Hc Hr]; unfold call, tick;
  rewrite Hc, same_fault;
  destruct (fault env2 (ser_calls s2)); cbn;
  (split; [first [reflexivity | rewrite Hr, same_rx; reflexivity]|]);
  (split; [split; cbn; congruence|]).

Lemma agree_reset_input_buffer :
  agree same_port (ser_reset_input_buffer env1) (ser_reset_input_buffer env2).
Proof.
  unfold ser_reset_input_buffer. agree_call; exists []; now rewrite !app_nil_r.
Qed.

Lemma agree_reset_output_buffer :
  agree same_port (ser_reset_output_buffer env1) (ser_reset_output_buffer env2).
Proof.
  unfold ser_reset_output_buffer. agree_call; exists []; now rewrite !app_nil_r.
Qed.

Lemma agree_flush : agree same_port (ser_flush env1) (ser_flush env2).
Proof.
  unfold ser_flush. agree_call; exists []; now rewrite !app_nil_r.
Qed.

Lemma agree_close : agree same_port (ser_close env1) (ser_close env2).
Proof.
  unfold ser_close. agree_call; exists []; now rewrite !app_nil_r.
Qed.

Lemma agree_write (data : list byte) :
  agree same_port (ser_write env1 data) (ser_write env2 data).
Proof.
  unfold ser_write. agree_call.
  - exists []. now rewrite !app_nil_r.
  - exists [data]. now split.
Qed.

Lemma agree_read (size : nat) :
  agree same_port (ser_read env1 size) (ser_read env2 size).
Proof.
  unfold ser_read. agree_call; exists []; now rewrite !app_nil_r.
Qed.

(** The constructor makes a new port object: whatever came before, the
    two runs are level from here on. *)
Lemma agree_serial_Serial (port1 port2 : string) (baudrate1 baudrate2 : Z) :
  agree (fun _ _ => True)
        (serial_Serial env1 port1 baudrate1)
        (serial_Serial env2 port2 baudrate2).
Proof.
  intros s1 s2 _. unfold serial_Serial, call, tick. cbn [ser_calls].
  rewrite same_fault. destruct (fault env2 0); cbn;
    (split; [reflexivity|]); (split; [split; reflexivity|]);
    exists []; now rewrite !app_nil_r.
Qed.

Ltac agree_prim :=
  first [ apply agree_print | apply agree_sleep | apply agree_pure
        | apply agree_ret | apply agree_raise | apply agree_out_of_fuel
        | apply agree_int_to_bytes | apply agree_open_rb
        | apply agree_reset_input_buffer | apply agree_reset_output_buffer
        | apply agree_flush | apply agree_close | apply agree_write
        | apply agree_read | apply agree_serial_Serial ].

Ltac agree_steps :=
  repeat first
    [ agree_prim
    | match goal with
      | |- agree _ (if ?c then _ else _) (if ?c then _ else _) => destruct c
      | |- agree _ (bind _ _) (bind _ _) => apply agree_bind; [|intro]
      end ].

Lemma agree_mode_select (port1 port2 : string) (baudrate1 baudrate2 : Z) :
  agree (fun _ _ => True)
        (mode_select env1 port1 baudrate1)
        (mode_select env2 port2 baudrate2).
Proof.
  unfold mode_select. cbv zeta. agree_steps.
Qed.

Lemma agree_handshake_iter (file_size retry_count : Z) :
  agree same_port (handshake_iter env1 file_size retry_count)
                  (handshake_iter env2 file_size retry_count).
Proof.
  unfold handshake_iter. cbv zeta. agree_steps.
Qed.

Lemma agree_handshake_loop (file_size : Z) (fuel : nat) :
  forall (retry_count : Z) (ack_received : bool),
    agree same_port
          (handshake_loop env1 fuel file_size retry_count ack_received)
          (handshake_loop env2 fuel file_size retry_count ack_received).
Proof.
  induction fuel as [|fuel IH]; intros rc ar; cbn [handshake_loop];
    destruct ((rc <? max_retries) && negb ar);
    try apply agree_pure; try apply agree_out_of_fuel.
  apply agree_bind; [apply agree_handshake_iter|].
  intros [rc' ar']. apply IH.
Qed.

Lemma agree_handshake (fuel : nat) (file_size : Z) :
  agree same_port (handshake env1 fuel file_size)
                  (handshake env2 fuel file_size).
Proof.
  unfold handshake. apply agree_bind; [apply agree_print|intros _].
  apply agree_bind; [apply agree_handshake_loop|intros [rc ar]].
  agree_steps.
Qed.

Lemma agree_transfer_iter (chunk : list byte) (total_sent file_size : Z) :
  agree same_port (transfer_iter env1 chunk total_sent file_size)
                  (transfer_iter env2 chunk total_sent file_size).
Proof.
  unfold transfer_iter. cbv zeta. agree_steps.
Qed.

Lemma agree_transfer_loop (file_size : Z) (fuel : nat) :
  forall (f : list byte) (total_sent : Z),
    agree same_port (transfer_loop env1 fuel f total_sent file_size)
                    (transfer_loop env2 fuel f total_sent file_size).
Proof.
  induction fuel as [|fuel IH]; intros f total; cbn [transfer_loop];
    destruct (total <? file_size);
    try apply agree_pure; try apply agree_out_of_fuel.
  cbv zeta. destruct (List.length (firstn CHUNK_SIZE f) =? 0)%nat;
    [apply agree_pure|].
  apply agree_bind; [apply agree_transfer_iter|]. intro ts. apply IH.
Qed.

Lemma agree_transfer (fuel : nat) (file : File) (file_size : Z) :
  agree same_port (transfer env1 fuel file file_size)
                  (transfer env2 fuel file file_size).
Proof.
  unfold transfer. apply agree_bind; [apply agree_open_rb|].
  intro f. apply agree_transfer_loop.
Qed.

Lemma agree_finish : agree same_port (finish env1) (finish env2).
Proof.
  unfold finish. agree_steps.
Qed.

Lemma agree_session (fuel : nat) (port1 port2 : string)
      (baudrate1 baudrate2 : Z) (file : File) (file_size : Z) :
  agree (fun _ _ => True)
        (session env1 fuel port1 baudrate1 file file_size)
        (session env2 fuel port2 baudrate2 file file_size).
Proof.
  unfold session.
  apply agree_bind; [apply agree_mode_select|intros _].
  apply agree_bind; [apply agree_handshake|intros _].
  apply agree_bind; [apply agree_transfer|intros _].
  apply agree_finish.
Qed.

End Agreement.

(** C8.  Two calls of [send_font_file] given the same file (same size,
    same bytes), the same answers to their reads and the same errors from
    the link end the same way and add the same writes, in the same order,
    to the wire.  Nothing else has a say: not the port name, the baud
    rate or the name of the file, and not the state the call starts from,
    be it fresh or left behind by an earlier session that failed. *)
Theorem same_inputs_same_wire
        (env1 env2 : Env) (fuel : nat) (port1 port2 : string)
        (baudrate1 baudrate2 : Z) (font_file1 font_file2 : string)
        (s1 s2 : St) :
  (forall k, rx env1 k = rx env2 k) ->
  (forall k, fault env1 k = fault env2 k) ->
  fs env1 font_file1 = fs env2 font_file2 ->
  fst (send_font_file env1 fuel port1 baudrate1 font_file1 s1)
  = fst (send_font_file env2 fuel port2 baudrate2 font_file2 s2) /\
  exists out,
    wire (snd (send_font_file env1 fuel port1 baudrate1 font_file1 s1))
    = wire s1 ++ out /\
    wire (snd (send_font_file env2 fuel port2 baudrate2 font_file2 s2))
    = wire s2 ++ out.
Proof.
  intros Hrx Hfault Hfs. unfold send_font_file. rewrite Hfs.
  destruct (fs env2 font_file2) as [file|].
  2:{ cbn. split; [reflexivity|]. exists []. now rewrite !app_nil_r. }
  cbv zeta.
  destruct (agree_session env1 env2 Hrx Hfault fuel port1 port2
                          baudrate1 baudrate2 file (st_size file)
                          (snd (announce font_file1 (st_size file) s1))
                          (snd (announce font_file2 (st_size file) s2)) I)
    as (Hr & _ & out & W1 & W2).
  rewrite announce_wire in W1, W2.
  destruct (session env1 fuel port1 baudrate1 file (st_size file) _)
    as [r1 t1].
  destruct (session env2 fuel port2 baudrate2 file (st_size file) _)
    as [r2 t2].
  cbn [fst snd] in Hr, W1, W2. subst r2.
  destruct r1 as [[]|b|e|]; cbn [fst snd];
    try (split; [reflexivity|]; exists out; now split).
  destruct e; cbn; (split; [reflexivity|]); exists out; now split.
Qed.

Lemma same_inputs_same_wire_witness :
  fst (send_font_file (always_ack 300) 5 "COM4" 115200 "font.bin" st0)
  = fst (send_font_file (always_ack 300) 5 "COM7" 9600 "copy.bin" st_used) /\
  exists out,
    wire (snd (send_font_file (always_ack 300) 5 "COM4" 115200 "font.bin" st0))
    = wire st0 ++ out /\
    wire (snd (send_font_file (always_ack 300) 5 "COM7" 9600 "copy.bin"
                              st_used))
    = wire st_used ++ out.
Proof.
  apply (same_inputs_same_wire
           (always_ack 300) (always_ack 300) 5 "COM4" "COM7" 115200 9600
           "font.bin" "copy.bin" st0 st_used).
  - intro k. reflexivity.
  - intro k. reflexivity.
  - reflexivity.
Defined.

(** * Further properties of the upload *)

(** X1.  When the port cannot be opened, nothing is written: the
    constructor is the only call made on a port object.  The exception it
    raised is reported by the handler of its class and the function returns
    [False]; had the constructor been interrupted instead, the
    [KeyboardInterrupt] would reach the caller with nothing more printed. *)
Theorem port_open_failure
        (env : Env) (fuel : nat) (port : string) (baudrate : Z)
        (font_file : string) (file : File) (e : exn) (s : St) :
  fs env font_file = Some file ->
  fault env 0 = Some e ->
  send_font_file env fuel port baudrate font_file s
  = (if isinstance_Exception e then Returned false else Propagated e,
     mkSt 1 0 false (wire s)
          (log s ++ [MsgFontFile font_file; MsgFileSize (st_size file)]
                 ++ (if isinstance_SerialException e
                     then [MsgSerialPortError e]
                     else if isinstance_Exception e
                          then [MsgError e; MsgTraceback]
                          else []))
          (clock s)).
Proof.
  intros Hfile Hfault. unfold send_font_file. rewrite Hfile. cbv zeta.
  unfold session, mode_select. unfold_prims. rewrite Hfault. cbn.
  destruct e; cbn; rewrite <- ?app_assoc; reflexivity.
Qed.

Lemma port_open_failure_witness :
  send_font_file no_port 5 "COM4" 115200 "font.bin" st0
  = (Returned false,
     mkSt 1 0 false [] [MsgFontFile "font.bin"; MsgFileSize 1;
                        MsgSerialPortError SerialException] 0).
Proof.
  apply (port_open_failure no_port 5 "COM4" 115200 "font.bin"
                           (regular_file [Byte.x01]) SerialException st0);
    reflexivity.
Defined.

Section Oversize.

Variable env : Env.
Hypothesis nofault : forall k, fault env k = None.

Ltac run_ok := unfold_prims; repeat first [rewrite nofault | progress cbn].

Lemma mode_select_log (port : string) (baudrate : Z) (s : St) :
  exists s1,
    mode_select env port baudrate s = (Val tt, s1) /\
    wire s1 = wire s ++ [[CMD_CHINESE]] /\
    ser_open s1 = true /\
    exists more, log s1 = log s ++ more.
Proof.
  destruct (mode_select_ok env nofault port baudrate s)
    as (s1 & E & W & _ & O & L).
  exists s1. repeat split; try assumption. eexists. exact L.
Qed.

Lemma handshake_overflow (fuel : nat) (file_size : Z) (s : St) :
  ~ 0 <= file_size < 2 ^ 32 ->
  (1 <= fuel)%nat ->
  exists s1,
    handshake env fuel file_size s = (Exc OverflowError, s1) /\
    wire s1 = wire s ++ [[CMD_START]] /\
    ser_open s1 = ser_open s /\
    log s1 = log s ++ [MsgSendingStart].
Proof.
  intros Hbig Hfuel. destruct fuel as [|fuel]; [lia|].
  cbv beta iota delta [handshake bind print]. cbn [handshake_loop].
  change ((0 <? max_retries) && negb false) with true. cbv beta iota.
  unfold handshake_iter, int_to_bytes.
  destruct (to_bytes_4_cases file_size) as [[_ Hfit] | E]; [contradiction|].
  rewrite E. run_ok. give_state.
Qed.

End Oversize.

(** X2.  A font whose size does not fit the four-byte length field is
    never announced: on a link that raises nothing, the first START
    attempt writes its command byte, [to_bytes] raises [OverflowError],
    and the function returns [False] with the trigger byte and that one
    START byte on the wire, no length field, and the port left open. *)
Theorem oversize_file_fails_at_first_start
        (env : Env) (fuel : nat) (port : string) (baudrate : Z)
        (font_file : string) (file : File) (s : St) :
  (forall k, fault env k = None) ->
  fs env font_file = Some file ->
  2 ^ 32 <= st_size file ->
  (1 <= fuel)%nat ->
  exists s',
    send_font_file env fuel port baudrate font_file s = (Returned false, s') /\
    wire s' = wire s ++ [[CMD_CHINESE]; [CMD_START]] /\
    ser_open s' = true /\
    exists before,
      log s' = before ++ [MsgSendingStart; MsgError OverflowError; MsgTraceback].
Proof.
  intros Hnofault Hfile Hbig Hfuel.
  unfold send_font_file. rewrite Hfile. cbv zeta.
  destruct (mode_select_log env Hnofault port baudrate
                            (snd (announce font_file (st_size file) s)))
    as (s1 & E1 & W1 & O1 & more & L1).
  rewrite announce_wire in W1.
  destruct (handshake_overflow env Hnofault fuel (st_size file) s1
                               ltac:(lia) Hfuel)
    as (s2 & E2 & W2 & O2 & L2).
  unfold session. rewrite bind_eq, E1, bind_eq, E2. cbn.
  eexists. split; [reflexivity|]. cbn. repeat split.
  - rewrite W2, W1. now rewrite <- app_assoc.
  - congruence.
  - exists (log (snd (announce font_file (st_size file) s)) ++ more).
    rewrite L2, L1. now rewrite <- !app_assoc.
Qed.

Lemma oversize_file_fails_at_first_start_witness :
  exists s',
    send_font_file oversize 5 "COM4" 115200 "font.bin" st0
    = (Returned false, s') /\
    wire s' = wire st0 ++ [[CMD_CHINESE]; [CMD_START]] /\
    ser_open s' = true /\
    exists before,
      log s' = before ++ [MsgSendingStart; MsgError OverflowError; MsgTraceback].
Proof.
  apply (oversize_file_fails_at_first_start
           oversize 5 "COM4" 115200 "font.bin"
           (mkFile (2 ^ 32) (Content [Byte.x01])) st0).
  - intro k. reflexivity.
  - reflexivity.
  - cbn. lia.
  - lia.
Defined.

(** X3.  A session that returns [True] has sent the font itself: the
    chunks carried by its DATA frames, put end to end in the order they
    were written, are the bytes of the file, none lost, repeated or out of
    place. *)
Theorem success_sends_the_file
        (env : Env) (fuel : nat) (port : string) (baudrate : Z)
        (font_file : string) (payload : list byte) (s s' : St) :
  fs env font_file = Some (regular_file payload) ->
  send_font_file env fuel port baudrate font_file s = (Returned true, s') ->
  exists h chunks,
    wire s' = wire s ++ [CMD_CHINESE]
                :: start_frames (Z.of_nat (List.length payload)) h
                ++ flat_map data_frame chunks ++ [[CMD_END]] /\
    List.concat chunks = payload.
Proof.
  intros Hfile Hrun.
  unfold send_font_file in Hrun. rewrite Hfile in Hrun. cbv zeta in Hrun.
  destruct (session_wire env fuel port baudrate (regular_file payload)
              (st_size (regular_file payload))
              (snd (announce font_file (st_size (regular_file payload)) s)))
    as (out & W & _ & Ok).
  rewrite announce_wire in W.
  destruct (session env fuel port baudrate (regular_file payload) _ _)
    as [[[]|b|e|] s1]; cbn in W, Ok.
  - injection Hrun as -> ->.
    destruct (Ok eq_refl payload eq_refl eq_refl) as (h & _ & ->).
    exists h, (chunked payload). split; [exact W|apply concat_chunked].
  - destruct (isinstance_SerialException e); [discriminate|].
    destruct (isinstance_Exception e); discriminate.
  - discriminate.
Qed.

Lemma success_sends_the_file_witness :
  exists h chunks,
    wire (snd (send_font_file (always_ack 300) 5 "COM4" 115200 "font.bin" st0))
    = wire st0 ++ [CMD_CHINESE]
        :: start_frames (Z.of_nat (List.length (repeat Byte.x01 300))) h
        ++ flat_map data_frame chunks ++ [[CMD_END]] /\
    List.concat chunks = repeat Byte.x01 300.
Proof.
  apply (success_sends_the_file
           (always_ack 300) 5 "COM4" 115200 "font.bin" (repeat Byte.x01 300) st0).
  - reflexivity.
  - vm_compute. reflexivity.
Defined.

(** X4.  The length written before a chunk is always right.  Whatever is
    left of the file, one turn of the transfer loop on a link that raises
    nothing writes the DATA command, a length field and the chunk
    [f.read(CHUNK_SIZE)] gave, in that order: the length of the chunk fits
    in two bytes, so [to_bytes] does not raise, and the field is two bytes
    that decode, little-endian, to the number of bytes of the chunk written
    after them.  The turn then ends on the answer read, never on an
    exception. *)
Theorem data_length_field_is_chunk_length
        (env : Env) (f : list byte) (total_sent file_size : Z) (s : St) :
  (forall k, fault env k = None) ->
  exists field s1,
    transfer_iter env (firstn CHUNK_SIZE f) total_sent file_size s
    = (if no_ack (firstn 1 (rx env (ser_reads s))) then Ret false
       else Val (total_sent + Z.of_nat (List.length (firstn CHUNK_SIZE f))),
       s1) /\
    wire s1 = wire s ++ [[CMD_DATA]; field; firstn CHUNK_SIZE f] /\
    List.length field = 2%nat /\
    from_bytes field = Z.of_nat (List.length (firstn CHUNK_SIZE f)).
Proof.
  intro Hnofault.
  pose proof (firstn_chunk_length f) as Hlen.
  destruct (transfer_iter_ok env Hnofault (firstn CHUNK_SIZE f) total_sent
                             file_size s Hlen)
    as (s1 & E & W & _).
  exists (le_digits 2 (Z.of_nat (List.length (firstn CHUNK_SIZE f)))), s1.
  split; [exact E|]. split; [exact W|]. split; [apply le_digits_length|].
  rewrite from_bytes_le_digits by lia.
  apply Z.mod_small. change (256 ^ Z.of_nat 2) with 65536. lia.
Qed.

Lemma data_length_field_is_chunk_length_witness :
  exists field s1,
    transfer_iter (always_ack 300) (firstn CHUNK_SIZE (repeat Byte.x01 300))
                  0 300 st0
    = (if no_ack (firstn 1 (rx (always_ack 300) (ser_reads st0)))
       then Ret false
       else Val (0 + Z.of_nat (List.length
                                 (firstn CHUNK_SIZE (repeat Byte.x01 300)))),
       s1) /\
    wire s1 = wire st0 ++ [[CMD_DATA]; field;
                           firstn CHUNK_SIZE (repeat Byte.x01 300)] /\
    List.length field = 2%nat /\
    from_bytes field
    = Z.of_nat (List.length (firstn CHUNK_SIZE (repeat Byte.x01 300))).
Proof.
  apply (data_length_field_is_chunk_length
           (always_ack 300) (repeat Byte.x01 300) 0 300 st0).
  intro k. reflexivity.
Defined.

Lemma closes_bind {A B} (m : M A) (f : A -> M B) :
  closes_on_return m -> (forall a, closes_on_return (f a)) ->
  closes_on_return (bind m f).
Proof.
  intros Hm Hf s Hs. unfold bind. specialize (Hm s Hs).
  destruct (m s) as [[a|b|e|] s1]; cbn in Hm |- *; try exact Hm.
  apply Hf. exact Hm.
Qed.

Lemma closes_pure {A} (a : A) : closes_on_return (pure a).
Proof. intros s Hs. exact Hs. Qed.

Lemma closes_raise {A} (e : exn) : closes_on_return (@raise A e).
Proof. intros s Hs. exact Hs. Qed.

Lemma closes_out_of_fuel {A} : closes_on_return (@out_of_fuel A).
Proof. intros s Hs. exact Hs. Qed.

Lemma closes_print (m : msg) : closes_on_return (print m).
Proof. intros s Hs. exact Hs. Qed.

Lemma closes_sleep (ms : Z) : closes_on_return (sleep ms).
Proof. intros s Hs. exact Hs. Qed.

Lemma closes_int_to_bytes (n : Z) (length : nat) :
  closes_on_return (int_to_bytes n length).
Proof. unfold int_to_bytes. destruct (to_bytes n length); intros s Hs; exact Hs. Qed.

Lemma closes_open_rb (file : File) : closes_on_return (open_rb file).
Proof. unfold open_rb. destruct (fopen file); intros s Hs; exact Hs. Qed.

(** ** Who closes the port *)

Section Closing.

Variable env : Env.

Lemma closes_call {A} (k : St -> A * St) :
  (forall s, ser_open (snd (k s)) = ser_open s) ->
  closes_on_return (call env k).
Proof.
  intros Hk s Hs. unfold call.
  destruct (fault env (ser_calls s)); [exact Hs|].
  specialize (Hk (tick s)). destruct (k (tick s)) as [a s1]. cbn in *.
  now rewrite Hk.
Qed.

Lemma closes_close_ret {A} (b : bool) :
  closes_on_return (ser_close env ;; @ret A b).
Proof.
  intros s Hs. unfold_prims. destruct (fault env (ser_calls s)); cbn; auto.
Qed.

Lemma closes_close_print_ret {A} (m : msg) (b : bool) :
  closes_on_return (ser_close env ;; print m ;; @ret A b).
Proof.
  intros s Hs. unfold_prims. destruct (fault env (ser_calls s)); cbn; auto.
Qed.

Ltac closes :=
  repeat first
    [ apply closes_close_ret
    | apply closes_close_print_ret
    | match goal with
      | |- closes_on_return (bind _ _) => apply closes_bind; [|intro]
      end
    | apply closes_pure | apply closes_raise | apply closes_out_of_fuel
    | apply closes_print | apply closes_sleep
    | apply closes_int_to_bytes | apply closes_open_rb
    | apply closes_call; intros; reflexivity
    | match goal with
      | |- closes_on_return (if ?c then _ else _) => destruct c
      | |- closes_on_return (match ?p with (_, _) => _ end) => destruct p
      end ].

Lemma closes_handshake_iter (file_size retry_count : Z) :
  closes_on_return (handshake_iter env file_size retry_count).
Proof.
  unfold handshake_iter, ser_reset_input_buffer, ser_write, ser_flush, ser_read.
  closes.
Qed.

Lemma closes_handshake_loop (fuel : nat) :
  forall file_size retry_count ack_received,
    closes_on_return (handshake_loop env fuel file_size retry_count ack_received).
Proof.
  induction fuel as [|fuel IH]; intros; cbn [handshake_loop].
  - closes.
  - destruct ((retry_count <? max_retries) && negb ack_received); closes.
    + apply closes_handshake_iter.
    + apply IH.
Qed.

Lemma closes_handshake (fuel : nat) (file_size : Z) :
  closes_on_return (handshake env fuel file_size).
Proof.
  unfold handshake. closes. apply closes_handshake_loop.
Qed.

Lemma closes_transfer_iter (chunk : list byte) (total_sent file_size : Z) :
  closes_on_return (transfer_iter env chunk total_sent file_size).
Proof.
  unfold transfer_iter, ser_write, ser_read. closes.
Qed.

Lemma closes_transfer_loop (fuel : nat) :
  forall f total_sent file_size,
    closes_on_return (transfer_loop env fuel f total_sent file_size).
Proof.
  induction fuel as [|fuel IH]; intros; cbn [transfer_loop].
  - closes.
  - destruct (total_sent <? file_size); closes.
    + apply closes_transfer_iter.
    + apply IH.
Qed.

Lemma closes_transfer (fuel : nat) (file : File) (file_size : Z) :
  closes_on_return (transfer env fuel file file_size).
Proof.
  unfold transfer. closes. apply closes_transfer_loop.
Qed.

Lemma closes_finish : closes_on_return (finish env).
Proof.
  unfold finish, ser_write. closes.
Qed.

Lemma session_port (fuel : nat) (port : string) (baudrate : Z)
      (file : File) (file_size : Z) (s : St) :
  fault env 0 = None ->
  ser_open (snd (session env fuel port baudrate file file_size s))
  = match fst (session env fuel port baudrate file file_size s) with
    | Ret _ => false
    | _ => true
    end.
Proof.
  intro Hopen. unfold session, mode_select. rewrite bind_assoc.
  rewrite bind_eq. unfold serial_Serial at 1 2. unfold call at 1 2. cbn [ser_calls].
  rewrite Hopen. cbn [tick ser_calls ser_reads ser_open wire log clock].
  match goal with
  | |- ser_open (snd (?m ?s1)) = _ =>
      assert (Hc : closes_on_return m); [|apply Hc; reflexivity]
  end.
  unfold ser_reset_input_buffer, ser_reset_output_buffer, ser_write, ser_flush, ser_read.
  closes.
  - apply closes_handshake.
  - apply closes_transfer.
  - apply closes_finish.
Qed.

End Closing.

(** X5.  Once the port has been opened, it is closed when the function
    ends exactly when the body of the [try] executed one of its [return]
    statements; each of them is preceded by [ser.close()].  When the body
    raised instead, whatever the call that raised, the handlers print and
    return [False] and the port is still open. *)
Theorem port_closed_exactly_on_return
        (env : Env) (fuel : nat) (port : string) (baudrate : Z)
        (font_file : string) (file : File) (s s1 : St) (r : res Empty_set) :
  fs env font_file = Some file ->
  fault env 0 = None ->
  session env fuel port baudrate file (st_size file)
          (snd (announce font_file (st_size file) s)) = (r, s1) ->
  ser_open (snd (send_font_file env fuel port baudrate font_file s))
  = match r with
    | Ret _ => false
    | _ => true
    end.
Proof.
  intros Hfile Hopen Hrun.
  pose proof (session_port env fuel port baudrate file (st_size file)
                (snd (announce font_file (st_size file) s)) Hopen) as P.
  unfold send_font_file. rewrite Hfile. cbv zeta.
  rewrite Hrun in P |- *. cbn in P.
  destruct r as [[]|b|e|]; cbn; try exact P.
  destruct e; cbn; exact P.
Qed.

Lemma port_closed_exactly_on_return_witness :
  ser_open (snd (send_font_file broken_link 5 "COM4" 115200 "font.bin" st0))
  = true.
Proof.
  apply (port_closed_exactly_on_return
           broken_link 5 "COM4" 115200 "font.bin" (regular_file [Byte.x01]) st0
           (snd (session broken_link 5 "COM4" 115200 (regular_file [Byte.x01]) 1
                         (snd (announce "font.bin" 1 st0))))
           (Exc SerialException)).
  - reflexivity.
  - reflexivity.
  - vm_compute. reflexivity.
Defined.

(** ** A handshake that succeeds late, a file that ends early *)

Lemma has_ack_nonempty (ack : list byte) :
  has_ack ack = true -> (0 <? List.length ack)%nat = true.
Proof.
  destruct ack; [discriminate|reflexivity].
Qed.

Lemma start_frames_S (file_size : Z) (n : nat) :
  start_frames file_size (S n)
  = start_frame file_size ++ start_frames file_size n.
Proof. reflexivity. Qed.

Section Recovery.

Variable env : Env.
Hypothesis nofault : forall k, fault env k = None.

(** [n] timed-out reads and then an answer with ACK in it: the loop ends
    after [n + 1] attempts. *)
Lemma handshake_loop_recovers (file_size : Z) (n : nat) :
  0 <= file_size < 2 ^ 32 ->
  forall (fuel : nat) (retry_count : Z) (s : St),
    retry_count + Z.of_nat n < max_retries ->
    (n < fuel)%nat ->
    (forall k, (k < n)%nat -> firstn 10 (rx env (ser_reads s + k)) = []) ->
    has_ack (firstn 10 (rx env (ser_reads s + n))) = true ->
    exists s',
      handshake_loop env fuel file_size retry_count false s
      = (Val (retry_count + Z.of_nat n, true), s') /\
      wire s' = wire s ++ start_frames file_size (S n) /\
      ser_reads s' = (ser_reads s + S n)%nat /\
      ser_open s' = ser_open s.
Proof.
  intro Hfit. induction n as [|n IH]; intros fuel rc s Hrc Hfuel Hrx Hack;
    (destruct fuel as [|fuel]; [lia|]);
    destruct (handshake_loop_step env nofault fuel file_size rc s Hfit
                                  ltac:(lia))
      as (s1 & E & W1 & R1 & O1 & _); rewrite E.
  - rewrite Nat.add_0_r in Hack. rewrite Hack, (has_ack_nonempty _ Hack).
    rewrite handshake_loop_exit by (cbn; apply andb_false_r).
    exists s1. rewrite Z.add_0_r. split; [reflexivity|].
    unfold start_frames. cbn [repeat List.concat]. rewrite app_nil_r.
    repeat split; try assumption. lia.
  - pose proof (Hrx 0%nat ltac:(lia)) as H0.
    rewrite Nat.add_0_r in H0. rewrite H0.
    cbn [List.length Nat.ltb Nat.leb has_ack existsb].
    destruct (IH fuel (rc + 1) s1 ltac:(lia) ltac:(lia))
      as (s' & E' & W' & R' & O').
    { intros k Hk. rewrite R1.
      replace (S (ser_reads s) + k)%nat with (ser_reads s + S k)%nat by lia.
      apply Hrx. lia. }
    { rewrite R1.
      replace (S (ser_reads s) + n)%nat with (ser_reads s + S n)%nat by lia.
      exact Hack. }
    exists s'. split; [|split; [|split]].
    + rewrite E'. do 2 f_equal. f_equal. lia.
    + rewrite W', W1, (start_frames_S file_size (S n)).
      now rewrite <- app_assoc.
    + lia.
    + congruence.
Qed.

Lemma upto_handshake_recovers (fuel : nat) (port : string) (baudrate : Z)
      (file_size : Z) (n : nat) (s : St) :
  0 <= file_size < 2 ^ 32 ->
  Z.of_nat n < max_retries ->
  (n < fuel)%nat ->
  (forall k, (k < n)%nat -> firstn 10 (rx env (1 + k)) = []) ->
  has_ack (firstn 10 (rx env (1 + n))) = true ->
  exists s1,
    upto_handshake env fuel port baudrate file_size s = (Val tt, s1) /\
    wire s1 = wire s ++ [CMD_CHINESE] :: start_frames file_size (S n) /\
    ser_reads s1 = (2 + n)%nat /\
    ser_open s1 = true.
Proof.
  intros Hfit Hn Hfuel Hrx Hack.
  unfold upto_handshake. rewrite bind_eq.
  destruct (mode_select_ok env nofault port baudrate s)
    as (s0 & E0 & W0 & R0 & O0 & _).
  rewrite E0. cbv beta iota delta [handshake bind print].
  match goal with
  | |- context [handshake_loop env fuel file_size 0 false ?st] =>
      destruct (handshake_loop_recovers file_size n Hfit fuel 0 st
                                        ltac:(lia) Hfuel)
        as (s1 & E1 & W1 & R1 & O1)
  end.
  { cbn [ser_reads]. rewrite R0. exact Hrx. }
  { cbn [ser_reads]. rewrite R0. exact Hack. }
  rewrite E1. cbn [ser_reads wire log ser_open] in W1, R1, O1 |- *.
  cbn. exists s1. split; [reflexivity|]. repeat split.
  - rewrite W1, W0. now rewrite <- app_assoc.
  - lia.
  - congruence.
Qed.

(** Every chunk acknowledged, and a file that holds no more than the size
    taken for it: the loop sends all there is and ends, at the size or at
    the end of the file. *)
Lemma transfer_loop_short (file_size : Z) (f : list byte) :
  forall (total_sent : Z) (s : St) (fuel : nat),
    total_sent + Z.of_nat (List.length f) <= file_size ->
    (List.length (chunked f) < fuel)%nat ->
    (forall j, (j < List.length (chunked f))%nat ->
               no_ack (firstn 1 (rx env (ser_reads s + j))) = false) ->
    exists s',
      transfer_loop env fuel f total_sent file_size s = (Val tt, s') /\
      wire s' = wire s ++ flat_map data_frame (chunked f) /\
      ser_reads s' = (ser_reads s + List.length (chunked f))%nat /\
      ser_open s' = ser_open s.
Proof.
  induction f as [|f Hf IH] using chunk_ind; intros total s fuel Hsz Hfuel Hrx.
  - exists s. destruct fuel as [|fuel]; [cbn in Hfuel; lia|].
    cbn [transfer_loop]. destruct (total <? file_size); cbn;
      rewrite app_nil_r; repeat split; lia.
  - rewrite chunked_cons in * by assumption. cbn [List.length] in Hfuel, Hrx.
    destruct fuel as [|fuel]; [lia|].
    assert (Hpos : (0 < List.length f)%nat)
      by (destruct f; [contradiction|cbn; lia]).
    rewrite transfer_loop_step by (assumption || lia).
    destruct (transfer_iter_ok env nofault (firstn CHUNK_SIZE f) total
                               file_size s (firstn_chunk_length f))
      as (s1 & E & W1 & R1 & _ & O1).
    pose proof (Hrx 0%nat ltac:(lia)) as H0. rewrite Nat.add_0_r in H0.
    rewrite H0 in E, O1. rewrite bind_eq, E.
    destruct (IH (total + Z.of_nat (List.length (firstn CHUNK_SIZE f))) s1 fuel)
      as (s' & E' & W' & R' & O').
    { rewrite length_firstn, length_skipn. unfold CHUNK_SIZE. lia. }
    { lia. }
    { intros j Hj. rewrite R1.
      replace (S (ser_reads s) + j)%nat with (ser_reads s + S j)%nat by lia.
      apply Hrx. lia. }
    exists s'. split; [exact E'|]. split; [|split].
    + rewrite W', W1. cbn [flat_map]. now rewrite <- app_assoc.
    + rewrite R', R1. cbn [List.length]. lia.
    + congruence.
Qed.

(** The whole session: [n] timed-out START attempts, one acknowledged,
    every chunk acknowledged. *)
Lemma send_font_file_recovers (fuel : nat) (port : string) (baudrate : Z)
      (font_file : string) (file_size : Z) (data : list byte) (n : nat)
      (s : St) :
  fs env font_file = Some (mkFile file_size (Content data)) ->
  Z.of_nat (List.length data) <= file_size < 2 ^ 32 ->
  Z.of_nat n < max_retries ->
  (forall k, (k < n)%nat -> firstn 10 (rx env (1 + k)) = []) ->
  has_ack (firstn 10 (rx env (1 + n))) = true ->
  (forall j, (j < List.length (chunked data))%nat ->
             no_ack (firstn 1 (rx env (2 + n + j))) = false) ->
  (n < fuel)%nat ->
  (List.length (chunked data) < fuel)%nat ->
  exists s',
    send_font_file env fuel port baudrate font_file s = (Returned true, s') /\
    wire s' = wire s ++ [CMD_CHINESE]
                :: start_frames file_size (S n)
                ++ flat_map data_frame (chunked data) ++ [[CMD_END]] /\
    ser_reads s' = (2 + n + List.length (chunked data))%nat /\
    ser_open s' = false.
Proof.
  intros Hfile Hfit Hn Hrx Hack Hacks Hfuel1 Hfuel.
  destruct (upto_handshake_recovers fuel port baudrate file_size n
              (snd (announce font_file file_size s)) ltac:(lia) Hn Hfuel1
              Hrx Hack)
    as (s1 & E1 & W1 & R1 & O1).
  destruct (transfer_loop_short file_size data 0 s1 fuel ltac:(lia) Hfuel)
    as (s2 & E2 & W2 & R2 & O2).
  { intros j Hj. rewrite R1. now apply Hacks. }
  destruct (finish_ok env nofault s2) as (s3 & E3 & W3 & R3 & _ & O3).
  exists s3. split.
  - apply (send_font_file_ret env fuel port baudrate font_file
                              (mkFile file_size (Content data)) s s3 true Hfile).
    cbn [st_size].
    rewrite session_split, bind_eq, E1, bind_eq.
    unfold transfer. cbn [fopen open_rb].
    rewrite bind_eq. unfold pure at 1. rewrite E2. exact E3.
  - split; [|split].
    + rewrite W3, W2, W1, announce_wire. rewrite <- !app_assoc. cbn [app].
      rewrite <- ?app_assoc. reflexivity.
    + rewrite R3, R2, R1. reflexivity.
    + exact O3.
Qed.

End Recovery.

(** X6.  A device that lets the first [n] START attempts time out, fewer
    than the fifty allowed, and acknowledges the next one and then every
    chunk, gets the whole font: the function returns [True] having made
    exactly [n + 1] START attempts, each announcing the file size, and the
    chunks sent are those of the file. *)
Theorem upload_succeeds_after_timeouts
        (env : Env) (fuel : nat) (port : string) (baudrate : Z)
        (font_file : string) (payload : list byte) (n : nat) (s : St) :
  (forall k, fault env k = None) ->
  fs env font_file = Some (regular_file payload) ->
  Z.of_nat (List.length payload) < 2 ^ 32 ->
  Z.of_nat n < max_retries ->
  (forall k, (1 <= k <= n)%nat -> firstn 10 (rx env k) = []) ->
  has_ack (firstn 10 (rx env (S n))) = true ->
  (forall j, (j < List.length (chunked payload))%nat ->
             no_ack (firstn 1 (rx env (2 + n + j))) = false) ->
  (n < fuel)%nat ->
  (List.length (chunked payload) < fuel)%nat ->
  exists s',
    send_font_file env fuel port baudrate font_file s = (Returned true, s') /\
    wire s' = wire s ++ [CMD_CHINESE]
                :: start_frames (Z.of_nat (List.length payload)) (S n)
                ++ flat_map data_frame (chunked payload) ++ [[CMD_END]] /\
    ser_reads s' = (2 + n + List.length (chunked payload))%nat.
Proof.
  intros Hnofault Hfile Hfit Hn Hrx Hack Hacks Hfuel1 Hfuel.
  destruct (send_font_file_recovers env Hnofault fuel port baudrate font_file
              (Z.of_nat (List.length payload)) payload n s Hfile
              ltac:(lia) Hn)
    as (s' & E & W & R & _); try assumption.
  - intros k Hk. apply Hrx. lia.
  - exists s'. auto.
Qed.

Lemma upload_succeeds_after_timeouts_witness :
  exists s',
    send_font_file ack_third_attempt 5 "COM4" 115200 "font.bin" st0
    = (Returned true, s') /\
    wire s' = wire st0 ++ [CMD_CHINESE]
                :: start_frames (Z.of_nat (List.length (repeat Byte.x01 300))) 3
                ++ flat_map data_frame (chunked (repeat Byte.x01 300))
                ++ [[CMD_END]] /\
    ser_reads s' = (2 + 2 + List.length (chunked (repeat Byte.x01 300)))%nat.
Proof.
  apply (upload_succeeds_after_timeouts
           ack_third_attempt 5 "COM4" 115200 "font.bin"
           (repeat Byte.x01 300) 2 st0).
  - intro k. reflexivity.
  - reflexivity.
  - vm_compute. reflexivity.
  - reflexivity.
  - intros k Hk. assert (k = 1 \/ k = 2)%nat as [-> | ->] by lia; reflexivity.
  - reflexivity.
  - intros j Hj. reflexivity.
  - lia.
  - vm_compute. lia.
Defined.

(** X7.  A file that holds fewer bytes than [os.path.getsize] reported is
    sent as far as it goes and the upload is reported complete: when the
    START attempt and every chunk are acknowledged, the loop stops at the
    empty read, END is written and the function returns [True], although
    the chunks sent add up to less than the size announced in START. *)
Theorem truncated_file_reported_complete
        (env : Env) (fuel : nat) (port : string) (baudrate : Z)
        (font_file : string) (file_size : Z) (data : list byte) (s : St) :
  (forall k, fault env k = None) ->
  fs env font_file = Some (mkFile file_size (Content data)) ->
  Z.of_nat (List.length data) < file_size < 2 ^ 32 ->
  has_ack (firstn 10 (rx env 1)) = true ->
  (forall j, (j < List.length (chunked data))%nat ->
             no_ack (firstn 1 (rx env (2 + j))) = false) ->
  (List.length (chunked data) < fuel)%nat ->
  exists s',
    send_font_file env fuel port baudrate font_file s = (Returned true, s') /\
    wire s' = wire s ++ [CMD_CHINESE]
                :: start_frame file_size
                ++ flat_map data_frame (chunked data) ++ [[CMD_END]] /\
    from_bytes (le_digits 4 file_size) = file_size /\
    total_length (chunked data) < file_size.
Proof.
  intros Hnofault Hfile Hfit Hack Hacks Hfuel.
  destruct (send_font_file_recovers env Hnofault fuel port baudrate font_file
              file_size data 0 s Hfile ltac:(lia) ltac:(reflexivity))
    as (s' & E & W & _); try assumption.
  - intros k Hk. lia.
  - lia.
  - exists s'. split; [exact E|]. split; [|split].
    + rewrite W. unfold start_frames. cbn [repeat List.concat].
      now rewrite app_nil_r.
    + rewrite from_bytes_le_digits by lia. apply Z.mod_small.
      change (256 ^ Z.of_nat 4) with (2 ^ 32). lia.
    + rewrite chunked_total. lia.
Qed.

Lemma truncated_file_reported_complete_witness :
  exists s',
    send_font_file shrunk_file 5 "COM4" 115200 "font.bin" st0
    = (Returned true, s') /\
    wire s' = wire st0 ++ [CMD_CHINESE]
                :: start_frame 600
                ++ flat_map data_frame (chunked (repeat Byte.x01 300))
                ++ [[CMD_END]] /\
    from_bytes (le_digits 4 600) = 600 /\
    total_length (chunked (repeat Byte.x01 300)) < 600.
Proof.
  apply (truncated_file_reported_complete
           shrunk_file 5 "COM4" 115200 "font.bin" 600 (repeat Byte.x01 300) st0).
  - intro k. reflexivity.
  - reflexivity.
  - vm_compute. split; reflexivity.
  - reflexivity.
  - intros j Hj. reflexivity.
  - vm_compute. lia.
Defined.

(** ** Which loop can go on for ever *)

(** The transfer loop reads the file forward: it makes at most one turn
    per chunk of the file, whatever the device answers and whatever the
    link raises. *)
Lemma transfer_loop_ends (env : Env) (fuel : nat) :
  forall (f : list byte) (total_sent file_size : Z) (s : St),
    (List.length (chunked f) < fuel)%nat ->
    fst (transfer_loop env fuel f total_sent file_size s) <> Fuel.
Proof.
  induction fuel as [|fuel IH]; intros f total size s Hfuel; [lia|].
  cbn [transfer_loop]. destruct (total <? size); [|discriminate].
  destruct (List.length (firstn CHUNK_SIZE f) =? 0)%nat eqn:E; [discriminate|].
  apply firstn_chunk_nonempty in E.
  rewrite chunked_cons in Hfuel by assumption. cbn [List.length] in Hfuel.
  rewrite bind_eq.
  destruct (transfer_iter_wire env (firstn CHUNK_SIZE f) total size s)
    as (out & _ & Q).
  destruct (transfer_iter env (firstn CHUNK_SIZE f) total size s)
    as [[ts|b|e|] s1]; cbn in Q |- *; try discriminate; [|contradiction].
  apply IH. lia.
Qed.

(** X8.  Only the handshake can keep the function busy for ever.  Given
    more turns than the file has chunks, a call that has not ended is still
    in lines 40-107: the transfer loop and the closing END cannot be what
    it is waiting in, whatever the device sends and whatever the link
    raises. *)
Theorem only_the_handshake_can_hang
        (env : Env) (fuel : nat) (port : string) (baudrate : Z)
        (font_file : string) (file : File) (data : list byte) (s : St) :
  fs env font_file = Some file ->
  fopen file = Content data ->
  (List.length (chunked data) < fuel)%nat ->
  fst (send_font_file env fuel port baudrate font_file s) = Running ->
  fst (upto_handshake env fuel port baudrate (st_size file)
                      (snd (announce font_file (st_size file) s))) = Fuel.
Proof.
  intros Hfile Hopen Hfuel Hrun.
  unfold send_font_file in Hrun. rewrite Hfile in Hrun. cbv zeta in Hrun.
  rewrite session_split, bind_eq in Hrun.
  destruct (upto_handshake env fuel port baudrate (st_size file) _)
    as [[[]|b|e|] s1]; cbn in Hrun |- *.
  - exfalso. rewrite bind_eq in Hrun. unfold transfer in Hrun.
    rewrite bind_eq in Hrun. unfold open_rb in Hrun. rewrite Hopen in Hrun.
    unfold pure at 1 in Hrun.
    pose proof (transfer_loop_ends env fuel data 0 (st_size file) s1 Hfuel) as T.
    destruct (transfer_loop env fuel data 0 (st_size file) s1)
      as [[[]|b|e|] s2]; cbn in T.
    + destruct (finish_wire env s2) as (out & _ & Q).
      destruct (finish env s2) as [[[]|b|e|] s3]; cbn in Q, Hrun;
        try contradiction; try discriminate.
      destruct (isinstance_SerialException e); [discriminate|].
      destruct (isinstance_Exception e); discriminate.
    + discriminate.
    + cbn in Hrun. destruct (isinstance_SerialException e); [discriminate|].
      destruct (isinstance_Exception e); discriminate.
    + contradiction.
  - discriminate.
  - exfalso. destruct (isinstance_SerialException e); [discriminate|].
    destruct (isinstance_Exception e); discriminate.
  - reflexivity.
Qed.

Lemma only_the_handshake_can_hang_witness :
  fst (upto_handshake junk_forever 5 "COM4" 115200 1
                      (snd (announce "font.bin" 1 st0))) = Fuel.
Proof.
  apply (only_the_handshake_can_hang
           junk_forever 5 "COM4" 115200 "font.bin"
           (regular_file [Byte.x01]) [Byte.x01] st0).
  - reflexivity.
  - reflexivity.
  - vm_compute. lia.
  - vm_compute. reflexivity.
Defined.

(** ** What [True] stands for *)

Lemma tmc_bind {A B} (m : M A) (f : A -> M B) :
  true_means_completed m -> (forall a, true_means_completed (f a)) ->
  true_means_completed (bind m f).
Proof.
  intros Hm Hf s. unfold bind. specialize (Hm s).
  destruct (m s) as [[a|b|e|] s1]; auto. apply Hf.
Qed.

Lemma tmc_pure {A} (a : A) : true_means_completed (pure a).
Proof. intro s. exact I. Qed.

Lemma tmc_raise {A} (e : exn) : true_means_completed (@raise A e).
Proof. intro s. exact I. Qed.

Lemma tmc_out_of_fuel {A} : true_means_completed (@out_of_fuel A).
Proof. intro s. exact I. Qed.

Lemma tmc_ret_false {A} : true_means_completed (@ret A false).
Proof. intro s. exact I. Qed.

Lemma tmc_print (m : msg) : true_means_completed (print m).
Proof. intro s. exact I. Qed.

Lemma tmc_sleep (ms : Z) : true_means_completed (sleep ms).
Proof. intro s. exact I. Qed.

Lemma tmc_int_to_bytes (n : Z) (length : nat) :
  true_means_completed (int_to_bytes n length).
Proof. unfold int_to_bytes. destruct (to_bytes n length); intro s; exact I. Qed.

Lemma tmc_open_rb (file : File) : true_means_completed (open_rb file).
Proof. unfold open_rb. destruct (fopen file); intro s; exact I. Qed.

Section Completion.

Variable env : Env.

Lemma tmc_call {A} (k : St -> A * St) : true_means_completed (call env k).
Proof.
  intro s. unfold call. destruct (fault env (ser_calls s)); [exact I|].
  destruct (k (tick s)). exact I.
Qed.

Lemma tmc_finish : true_means_completed (finish env).
Proof.
  intro s. unfold finish. unfold_prims. explore; auto.
  repeat split; cbn; eauto.
Qed.

Ltac tmc :=
  repeat first
    [ match goal with
      | |- true_means_completed (bind _ _) => apply tmc_bind; [|intro]
      | |- true_means_completed (if ?c then _ else _) => destruct c
      | |- true_means_completed (match ?p with (_, _) => _ end) => destruct p
      end
    | apply tmc_pure | apply tmc_raise | apply tmc_out_of_fuel
    | apply tmc_ret_false | apply tmc_print | apply tmc_sleep
    | apply tmc_int_to_bytes | apply tmc_open_rb | apply tmc_call ].

Lemma tmc_handshake_iter (file_size retry_count : Z) :
  true_means_completed (handshake_iter env file_size retry_count).
Proof. unfold handshake_iter. tmc. Qed.

Lemma tmc_handshake_loop (fuel : nat) :
  forall file_size retry_count ack_received,
    true_means_completed
      (handshake_loop env fuel file_size retry_count ack_received).
Proof.
  induction fuel as [|fuel IH]; intros; cbn [handshake_loop].
  - tmc.
  - destruct ((retry_count <? max_retries) && negb ack_received); tmc.
    + apply tmc_handshake_iter.
    + apply IH.
Qed.

Lemma tmc_handshake (fuel : nat) (file_size : Z) :
  true_means_completed (handshake env fuel file_size).
Proof. unfold handshake. tmc. apply tmc_handshake_loop. Qed.

Lemma tmc_transfer_iter (chunk : list byte) (total_sent file_size : Z) :
  true_means_completed (transfer_iter env chunk total_sent file_size).
Proof. unfold transfer_iter. tmc. Qed.

Lemma tmc_transfer_loop (fuel : nat) :
  forall f total_sent file_size,
    true_means_completed (transfer_loop env fuel f total_sent file_size).
Proof.
  induction fuel as [|fuel IH]; intros; cbn [transfer_loop].
  - tmc.
  - destruct (total_sent <? file_size); tmc.
    + apply tmc_transfer_iter.
    + apply IH.
Qed.

Lemma tmc_transfer (fuel : nat) (file : File) (file_size : Z) :
  true_means_completed (transfer env fuel file file_size).
Proof. unfold transfer. tmc. apply tmc_transfer_loop. Qed.

Lemma tmc_mode_select (port : string) (baudrate : Z) :
  true_means_completed (mode_select env port baudrate).
Proof.
  unfold mode_select. tmc.
  intro s. unfold serial_Serial. apply tmc_call.
Qed.

Lemma tmc_session (fuel : nat) (port : string) (baudrate : Z)
      (file : File) (file_size : Z) :
  true_means_completed (session env fuel port baudrate file file_size).
Proof.
  unfold session. tmc.
  - apply tmc_mode_select.
  - apply tmc_handshake.
  - apply tmc_transfer.
  - apply tmc_finish.
Qed.

Lemma send_font_file_true (fuel : nat) (port : string) (baudrate : Z)
      (font_file : string) (s s' : St) :
  send_font_file env fuel port baudrate font_file s = (Returned true, s') ->
  completed s'.
Proof.
  unfold send_font_file. destruct (fs env font_file) as [file|]; [|discriminate].
  cbv zeta.
  pose proof (tmc_session fuel port baudrate file (st_size file)
                (snd (announce font_file (st_size file) s))) as T.
  destruct (session env fuel port baudrate file (st_size file) _)
    as [[[]|b|e|] s1].
  - intros [= -> ->]. exact T.
  - destruct (isinstance_SerialException e); [discriminate|].
    destruct (isinstance_Exception e); discriminate.
  - discriminate.
Qed.

End Completion.

(** X9.  [True] is a promise kept under every behaviour of the device
    and the link: whenever [send_font_file] returns [True], the END command
    is the last thing it wrote, "Transfer complete" the last thing it
    printed, and the port is closed. *)
Theorem true_only_after_end
        (env : Env) (fuel : nat) (port : string) (baudrate : Z)
        (font_file : string) (s s' : St) :
  send_font_file env fuel port baudrate font_file s = (Returned true, s') ->
  ser_open s' = false /\
  (exists w, wire s' = w ++ [[CMD_END]]) /\
  (exists l, log s' = l ++ [MsgTransferComplete]).
Proof.
  intro H. exact (send_font_file_true env fuel port baudrate font_file s s' H).
Qed.

Lemma true_only_after_end_witness :
  ser_open (snd (send_font_file grown_file 5 "COM4" 115200 "font.bin" st0))
  = false /\
  (exists w,
     wire (snd (send_font_file grown_file 5 "COM4" 115200 "font.bin" st0))
     = w ++ [[CMD_END]]) /\
  (exists l,
     log (snd (send_font_file grown_file 5 "COM4" 115200 "font.bin" st0))
     = l ++ [MsgTransferComplete]).
Proof.
  apply (true_only_after_end grown_file 5 "COM4" 115200 "font.bin" st0).
  vm_compute. reflexivity.
Defined.

(** ** The announced size decides when the transfer stops *)

Lemma chunks_wanted_done (total_sent file_size : Z) :
  file_size <= total_sent -> chunks_wanted total_sent file_size = 0%nat.
Proof.
  intro H. unfold chunks_wanted.
  assert ((file_size - total_sent + 255) / 256 <= 0); [|lia].
  apply Z.lt_succ_r. apply Z.div_lt_upper_bound; lia.
Qed.

Lemma chunks_wanted_more (total_sent file_size : Z) :
  total_sent < file_size ->
  chunks_wanted total_sent file_size
  = S (chunks_wanted (total_sent + 256) file_size).
Proof.
  intro H. unfold chunks_wanted.
  replace (file_size - total_sent + 255)
    with (file_size - (total_sent + 256) + 255 + 1 * 256) by lia.
  rewrite Z.div_add by lia.
  assert (0 <= (file_size - (total_sent + 256) + 255) / 256)
    by (apply Z.div_pos; lia).
  lia.
Qed.

Lemma short_chunk_is_last (f : list byte) :
  (List.length (firstn CHUNK_SIZE f) < 256)%nat -> skipn CHUNK_SIZE f = [].
Proof.
  intro H. rewrite length_firstn in H. unfold CHUNK_SIZE in *.
  apply skipn_all2. lia.
Qed.

Section Capped.

Variable env : Env.
Hypothesis nofault : forall k, fault env k = None.

(** Every chunk acknowledged: the loop sends a chunk per turn until the
    count of bytes sent reaches the size or the file ends. *)
Lemma transfer_loop_capped (file_size : Z) (f : list byte) :
  forall (total_sent : Z) (s : St) (fuel : nat),
    (List.length (chunked f) < fuel)%nat ->
    (forall j, (j < List.length (chunked f))%nat ->
               no_ack (firstn 1 (rx env (ser_reads s + j))) = false) ->
    exists s',
      transfer_loop env fuel f total_sent file_size s = (Val tt, s') /\
      wire s' = wire s ++ flat_map data_frame
                            (firstn (chunks_wanted total_sent file_size)
                                    (chunked f)) /\
      ser_open s' = ser_open s.
Proof.
  induction f as [|f Hf IH] using chunk_ind; intros total s fuel Hfuel Hrx.
  - exists s. destruct fuel as [|fuel]; [cbn in Hfuel; lia|].
    cbn [transfer_loop]. rewrite chunked_nil, !firstn_nil.
    destruct (total <? file_size); cbn; rewrite app_nil_r; auto.
  - rewrite chunked_cons in * by assumption. cbn [List.length] in Hfuel, Hrx.
    destruct fuel as [|fuel]; [lia|].
    destruct (Z.lt_ge_cases total file_size) as [Hlt|Hge].
    + rewrite transfer_loop_step by assumption.
      destruct (transfer_iter_ok env nofault (firstn CHUNK_SIZE f) total
                                 file_size s (firstn_chunk_length f))
        as (s1 & E & W1 & R1 & _ & O1).
      pose proof (Hrx 0%nat ltac:(lia)) as H0. rewrite Nat.add_0_r in H0.
      rewrite H0 in E, O1. rewrite bind_eq, E.
      destruct (IH (total + Z.of_nat (List.length (firstn CHUNK_SIZE f))) s1 fuel)
        as (s' & E' & W' & O').
      { lia. }
      { intros j Hj. rewrite R1.
        replace (S (ser_reads s) + j)%nat with (ser_reads s + S j)%nat by lia.
        apply Hrx. lia. }
      exists s'. split; [exact E'|]. split; [|congruence].
      rewrite W', W1, <- app_assoc. f_equal.
      rewrite (chunks_wanted_more total file_size Hlt), firstn_cons.
      cbn [flat_map]. do 2 f_equal.
      pose proof (firstn_chunk_length f) as Hle.
      destruct (Nat.eq_dec (List.length (firstn CHUNK_SIZE f)) 256) as [->|Hne].
      * reflexivity.
      * rewrite (short_chunk_is_last f) by lia.
        rewrite chunked_nil, !firstn_nil. reflexivity.
    + exists s. cbn [transfer_loop].
      replace (total <? file_size) with false
        by (symmetry; apply Z.ltb_ge; lia).
      rewrite chunks_wanted_done by assumption. cbn. rewrite app_nil_r. auto.
Qed.

End Capped.

(** X10.  The size announced in START, not the end of the file, decides
    how many chunks are sent.  When the START attempt and every chunk are
    acknowledged, the function returns [True] having sent the first
    [ceil(size / 256)] chunks of what the file holds, or all of them when
    the file has fewer: a file that grew after its size was taken is cut at
    a chunk boundary, up to 255 bytes past the announced size. *)
Theorem announced_size_caps_the_chunks
        (env : Env) (fuel : nat) (port : string) (baudrate : Z)
        (font_file : string) (file_size : Z) (data : list byte) (s : St) :
  (forall k, fault env k = None) ->
  fs env font_file = Some (mkFile file_size (Content data)) ->
  0 <= file_size < 2 ^ 32 ->
  has_ack (firstn 10 (rx env 1)) = true ->
  (forall j, (j < List.length (chunked data))%nat ->
             no_ack (firstn 1 (rx env (2 + j))) = false) ->
  (List.length (chunked data) < fuel)%nat ->
  exists s',
    send_font_file env fuel port baudrate font_file s = (Returned true, s') /\
    wire s' = wire s ++ [CMD_CHINESE]
                :: start_frame file_size
                ++ flat_map data_frame
                     (firstn (Z.to_nat ((file_size + 255) / 256)) (chunked data))
                ++ [[CMD_END]].
Proof.
  intros Hnofault Hfile Hfit Hack Hacks Hfuel.
  destruct (upto_handshake_ack_first env Hnofault fuel port baudrate file_size
              (snd (announce font_file file_size s)) Hfit Hack ltac:(lia))
    as (s1 & E1 & W1 & R1 & _ & O1).
  destruct (transfer_loop_capped env Hnofault file_size data 0 s1 fuel Hfuel)
    as (s2 & E2 & W2 & O2).
  { intros j Hj. rewrite R1. now apply Hacks. }
  destruct (finish_ok env Hnofault s2) as (s3 & E3 & W3 & _).
  exists s3. split.
  - apply (send_font_file_ret env fuel port baudrate font_file
                              (mkFile file_size (Content data)) s s3 true Hfile).
    cbn [st_size].
    rewrite session_split, bind_eq, E1, bind_eq.
    unfold transfer. cbn [fopen open_rb].
    rewrite bind_eq. unfold pure at 1. rewrite E2. exact E3.
  - rewrite W3, W2, W1, announce_wire. unfold chunks_wanted.
    rewrite Z.sub_0_r. rewrite <- !app_assoc. cbn [app].
    rewrite <- ?app_assoc. reflexivity.
Qed.

Lemma announced_size_caps_the_chunks_witness :
  exists s',
    send_font_file grown_file 5 "COM4" 115200 "font.bin" st0
    = (Returned true, s') /\
    wire s' = wire st0 ++ [CMD_CHINESE]
                :: start_frame 300
                ++ flat_map data_frame
                     (firstn (Z.to_nat ((300 + 255) / 256))
                             (chunked (repeat Byte.x01 600)))
                ++ [[CMD_END]].
Proof.
  apply (announced_size_caps_the_chunks
           grown_file 5 "COM4" 115200 "font.bin" 300 (repeat Byte.x01 600) st0).
  - intro k. reflexivity.
  - reflexivity.
  - vm_compute. split; [discriminate|reflexivity].
  - reflexivity.
  - intros j Hj. reflexivity.
  - vm_compute. lia.
Defined.

(** ** The time spent asleep *)

Section Timing.

Variable env : Env.
Hypothesis nofault : forall k, fault env k = None.

Ltac run_ok := unfold_prims; repeat first [rewrite nofault | progress cbn].

Lemma mode_select_clock (port : string) (baudrate : Z) (s : St) :
  clock (snd (mode_select env port baudrate s)) = clock s + 500.
Proof.
  unfold mode_select. run_ok. on_ifs; run_ok; reflexivity.
Qed.

Lemma handshake_iter_clock (file_size retry_count : Z) (s : St) :
  0 <= file_size < 2 ^ 32 ->
  clock (snd (handshake_iter env file_size retry_count s))
  = clock s + 350
    + (if (0 <? List.length (firstn 10 (rx env (ser_reads s))))%nat
       then 0 else 200).
Proof.
  intro Hfit. unfold handshake_iter, int_to_bytes.
  rewrite to_bytes_4_fits by assumption. run_ok.
  destruct (firstn 10 (rx env (ser_reads s))); cbn; on_ifs; run_ok; lia.
Qed.

Lemma transfer_iter_clock (chunk : list byte) (total_sent file_size : Z)
      (s : St) :
  (List.length chunk <= 256)%nat ->
  clock (snd (transfer_iter env chunk total_sent file_size s)) = clock s + 70.
Proof.
  intro Hlen. unfold transfer_iter, int_to_bytes.
  rewrite to_bytes_2_fits by lia. run_ok.
  destruct (no_ack (firstn 1 (rx env (ser_reads s)))); run_ok; lia.
Qed.

Lemma finish_clock (s : St) :
  clock (snd (finish env s)) = clock s + 100.
Proof.
  unfold finish. run_ok. reflexivity.
Qed.

(** The handshake loop sleeps 350 ms per attempt and 200 ms more per
    attempt that timed out. *)
Lemma handshake_loop_clock (file_size : Z) (fuel : nat) :
  0 <= file_size < 2 ^ 32 ->
  forall (retry_count : Z) (ack_received : bool) (s : St)
         (retry_count' : Z) (ack_received' : bool) (s' : St),
    handshake_loop env fuel file_size retry_count ack_received s
    = (Val (retry_count', ack_received'), s') ->
    (ser_reads s <= ser_reads s')%nat /\
    clock s' = clock s
               + 350 * Z.of_nat (ser_reads s' - ser_reads s)
               + 200 * (retry_count' - retry_count).
Proof.
  intro Hfit. induction fuel as [|fuel IH]; intros rc ack s rc' ack' s' E;
    cbn [handshake_loop] in E;
    destruct ((rc <? max_retries) && negb ack) eqn:C;
    try discriminate;
    try (injection E as <- <- <-; split; [lia|];
         rewrite Nat.sub_diag; cbn; lia).
  rewrite bind_eq in E.
  pose proof (handshake_iter_clock file_size rc s Hfit) as K.
  destruct (handshake_iter_ok env nofault file_size rc s Hfit)
    as (s1 & E1 & _ & R1 & _).
  rewrite E1 in E, K. cbn [snd] in K.
  apply IH in E. destruct E as [Hle Hclock]. split; [lia|].
  rewrite Hclock, K, R1 in *.
  replace (ser_reads s' - ser_reads s)%nat
    with (S (ser_reads s' - S (ser_reads s)))%nat by lia.
  destruct (0 <? List.length (firstn 10 (rx env (ser_reads s))))%nat; lia.
Qed.

(** The transfer loop sleeps 70 ms per chunk. *)
Lemma transfer_loop_clock (file_size : Z) (fuel : nat) :
  forall (f : list byte) (total_sent : Z) (s s' : St),
    transfer_loop env fuel f total_sent file_size s = (Val tt, s') ->
    (ser_reads s <= ser_reads s')%nat /\
    clock s' = clock s + 70 * Z.of_nat (ser_reads s' - ser_reads s).
Proof.
  induction fuel as [|fuel IH]; intros f total s s' E;
    cbn [transfer_loop] in E;
    destruct (total <? file_size) eqn:C;
    try discriminate;
    try (injection E as <-; split; [lia|]; rewrite Nat.sub_diag; cbn; lia).
  destruct (List.length (firstn CHUNK_SIZE f) =? 0)%nat eqn:E0.
  { injection E as <-. split; [lia|]. rewrite Nat.sub_diag. cbn. lia. }
  rewrite bind_eq in E.
  pose proof (transfer_iter_clock (firstn CHUNK_SIZE f) total file_size s
                                  (firstn_chunk_length f)) as K.
  destruct (transfer_iter_ok env nofault (firstn CHUNK_SIZE f) total file_size s
                             (firstn_chunk_length f))
    as (s1 & E1 & _ & R1 & _).
  rewrite E1 in E, K. cbn [snd] in K.
  destruct (no_ack (firstn 1 (rx env (ser_reads s)))); [discriminate|].
  apply IH in E. destruct E as [Hle Hclock]. split; [lia|].
  rewrite Hclock, K, R1 in *.
  replace (ser_reads s' - ser_reads s)%nat
    with (S (ser_reads s' - S (ser_reads s)))%nat by lia.
  lia.
Qed.

Lemma upto_handshake_clock (fuel : nat) (port : string) (baudrate : Z)
      (file_size : Z) (n : nat) (s : St) :
  0 <= file_size < 2 ^ 32 ->
  Z.of_nat n < max_retries ->
  (n < fuel)%nat ->
  (forall k, (k < n)%nat -> firstn 10 (rx env (1 + k)) = []) ->
  has_ack (firstn 10 (rx env (1 + n))) = true ->
  clock (snd (upto_handshake env fuel port baudrate file_size s))
  = clock s + 500 + 350 * Z.of_nat (S n) + 200 * Z.of_nat n.
Proof.
  intros Hfit Hn Hfuel Hrx Hack.
  unfold upto_handshake. rewrite bind_eq.
  pose proof (mode_select_clock port baudrate s) as K0.
  destruct (mode_select_ok env nofault port baudrate s)
    as (s0 & E0 & _ & R0 & _).
  rewrite E0 in K0 |- *. cbn [snd] in K0.
  cbv beta iota delta [handshake bind print].
  match goal with
  | |- context [handshake_loop env fuel file_size 0 false ?st] =>
      destruct (handshake_loop_recovers env nofault file_size n Hfit fuel 0 st
                                        ltac:(lia) Hfuel)
        as (s1 & E1 & _ & R1 & _)
  end.
  { cbn [ser_reads]. rewrite R0. exact Hrx. }
  { cbn [ser_reads]. rewrite R0. exact Hack. }
  rewrite E1. cbn.
  apply (handshake_loop_clock file_size fuel Hfit) in E1.
  destruct E1 as [_ K1]. cbn [ser_reads clock] in K1, R1.
  rewrite K1, K0, R1.
  replace (ser_reads s0 + S n - ser_reads s0)%nat with (S n) by lia.
  lia.
Qed.

End Timing.

(** X11.  How long an upload sleeps.  With [n] START attempts timing out
    before one is acknowledged, and every chunk acknowledged, the calls of
    [time.sleep] made by a successful upload add up to 500 ms for the mode
    selection, 350 ms per START attempt and 200 ms more per timed-out one,
    70 ms per chunk and 100 ms after END. *)
Theorem upload_sleep_time
        (env : Env) (fuel : nat) (port : string) (baudrate : Z)
        (font_file : string) (payload : list byte) (n : nat) (s : St) :
  (forall k, fault env k = None) ->
  fs env font_file = Some (regular_file payload) ->
  Z.of_nat (List.length payload) < 2 ^ 32 ->
  Z.of_nat n < max_retries ->
  (forall k, (1 <= k <= n)%nat -> firstn 10 (rx env k) = []) ->
  has_ack (firstn 10 (rx env (S n))) = true ->
  (forall j, (j < List.length (chunked payload))%nat ->
             no_ack (firstn 1 (rx env (2 + n + j))) = false) ->
  (n < fuel)%nat ->
  (List.length (chunked payload) < fuel)%nat ->
  fst (send_font_file env fuel port baudrate font_file s) = Returned true /\
  clock (snd (send_font_file env fuel port baudrate font_file s))
  = clock s + 500
    + 350 * (Z.of_nat n + 1) + 200 * Z.of_nat n
    + 70 * Z.of_nat (ceil_div (List.length payload))
    + 100.
Proof.
  intros Hnofault Hfile Hfit Hn Hrx Hack Hacks Hfuel1 Hfuel.
  set (L := Z.of_nat (List.length payload)) in *.
  assert (Hrx' : forall k, (k < n)%nat -> firstn 10 (rx env (1 + k)) = [])
    by (intros k Hk; apply Hrx; lia).
  pose proof (upto_handshake_clock env Hnofault fuel port baudrate L n
                (snd (announce font_file L s)) ltac:(lia) Hn Hfuel1 Hrx' Hack)
    as K1.
  destruct (upto_handshake_recovers env Hnofault fuel port baudrate L n
              (snd (announce font_file L s)) ltac:(lia) Hn Hfuel1 Hrx' Hack)
    as (s1 & E1 & _ & R1 & _).
  rewrite E1 in K1. cbn [snd] in K1.
  destruct (transfer_loop_short env Hnofault L payload 0 s1 fuel
              ltac:(subst L; lia) Hfuel)
    as (s2 & E2 & _ & R2 & _).
  { intros j Hj. rewrite R1. now apply Hacks. }
  pose proof (finish_clock env Hnofault s2) as K3.
  destruct (finish_ok env Hnofault s2) as (s3 & E3 & _).
  rewrite E3 in K3. cbn [snd] in K3.
  assert (E : send_font_file env fuel port baudrate font_file s
              = (Returned true, s3)).
  { apply (send_font_file_ret env fuel port baudrate font_file
                              (regular_file payload) s s3 true Hfile).
    change (st_size (regular_file payload)) with L.
    rewrite session_split, bind_eq, E1, bind_eq.
    unfold transfer. cbn [regular_file fopen open_rb].
    rewrite bind_eq. unfold pure at 1. rewrite E2. exact E3. }
  rewrite E. cbn [fst snd]. split; [reflexivity|].
  apply (transfer_loop_clock env Hnofault) in E2. destruct E2 as [_ K2].
  rewrite K3, K2, K1, R2, <- chunked_count.
  replace (ser_reads s1 + List.length (chunked payload) - ser_reads s1)%nat
    with (List.length (chunked payload)) by lia.
  cbn [announce bind print clock snd]. unfold announce, bind, print. cbn.
  lia.
Qed.

Lemma upload_sleep_time_witness :
  fst (send_font_file ack_third_attempt 5 "COM4" 115200 "font.bin" st0)
  = Returned true /\
  clock (snd (send_font_file ack_third_attempt 5 "COM4" 115200 "font.bin" st0))
  = clock st0 + 500
    + 350 * (Z.of_nat 2 + 1) + 200 * Z.of_nat 2
    + 70 * Z.of_nat (ceil_div (List.length (repeat Byte.x01 300)))
    + 100.
Proof.
  apply (upload_sleep_time
           ack_third_attempt 5 "COM4" 115200 "font.bin"
           (repeat Byte.x01 300) 2 st0).
  - intro k. reflexivity.
  - reflexivity.
  - vm_compute. reflexivity.
  - reflexivity.
  - intros k Hk. assert (k = 1 \/ k = 2)%nat as [-> | ->] by lia; reflexivity.
  - reflexivity.
  - intros j Hj. reflexivity.
  - lia.
  - vm_compute. lia.
Defined.

(** * The command line *)

(** Once the arguments are read, [main] does not end on [ValueError]. *)
Lemma main_parsed (env : Env) (h : Host) (fuel : nat) (s : St)
      (args : string * Z * string) (before : list main_msg) :
  parse_args h = (Some args, before) ->
  run_end (main env h fuel s) <> Uncaught ValueError_int.
Proof.
  intro Hp. unfold main. rewrite Hp. destruct args as [[port baudrate] font_file].
  cbv zeta.
  destruct (send_font_file env fuel port baudrate _ s) as [[b|e|] s'];
    [destruct (input_eof h)| |]; discriminate.
Qed.

Lemma parse_args_none (h : Host) (before : list main_msg) :
  parse_args h = (None, before) <->
  (4 <= List.length (argv h))%nat /\
  py_int h (nth 3 (argv h) EmptyString) = None /\ before = [].
Proof.
  unfold parse_args.
  destruct (3 <=? List.length (argv h))%nat eqn:E3.
  - destruct (3 <? List.length (argv h))%nat eqn:E4.
    + apply Nat.ltb_lt in E4.
      destruct (py_int h (nth 3 (argv h) EmptyString)) as [b|].
      * split; [discriminate|]. intros (_ & H & _). discriminate.
      * split.
        -- intro H. injection H as <-. repeat split. lia.
        -- intros (_ & _ & ->). reflexivity.
    + apply Nat.ltb_ge in E4. split; [discriminate|]. intros (H & _). lia.
  - apply Nat.leb_gt in E3.
    destruct (List.length (argv h) =? 2)%nat;
      (split; [discriminate|]; intros (H & _); lia).
Qed.

(** X12.  [main] ends on the [ValueError] of [int] exactly when it was
    given a fourth argument that is no number; the baud rate is not looked
    at otherwise.  When it does, nothing has been printed and the upload
    was not started. *)
Theorem main_bad_baudrate (env : Env) (h : Host) (fuel : nat) (s : St) :
  (run_end (main env h fuel s) = Uncaught ValueError_int <->
   (4 <= List.length (argv h))%nat /\
   py_int h (nth 3 (argv h) EmptyString) = None) /\
  (run_end (main env h fuel s) = Uncaught ValueError_int ->
   main env h fuel s = mkRun (Uncaught ValueError_int) [] s []).
Proof.
  destruct (parse_args h) as [[args|] before] eqn:Hp.
  - pose proof (main_parsed env h fuel s args before Hp) as Hne.
    split; [split|]; try (intro H; contradiction).
    intros [H4 Hint].
    assert (parse_args h = (None, [])) as Hn
        by (apply parse_args_none; auto).
    congruence.
  - apply parse_args_none in Hp as Hq. destruct Hq as (H4 & Hint & ->).
    unfold main. rewrite Hp. cbn. split; [split|]; auto.
Qed.

Lemma main_bad_baudrate_witness :
  main silent host_bad_baudrate 5 st0 = mkRun (Uncaught ValueError_int) [] st0 [].
Proof.
  apply (main_bad_baudrate silent host_bad_baudrate 5 st0).
  apply (main_bad_baudrate silent host_bad_baudrate 5 st0).
  split; [cbn; lia | reflexivity].
Defined.

Lemma resolve_missing (env : Env) (h : Host) (font_file : string) :
  fs env font_file = None ->
  (isabs h font_file = false -> fs env (beside_script h font_file) = None) ->
  resolve_font_file env h font_file = font_file.
Proof.
  intros Hcwd Hscript. unfold resolve_font_file, path_exists.
  rewrite Hcwd. destruct (isabs h font_file); [reflexivity|].
  rewrite Hscript by reflexivity. reflexivity.
Qed.

(** X13.  A font that is neither where the name says nor, for a relative
    name, beside the script: [main] reports the name as it was given,
    touches no port, prints that the upload failed and, once Enter is
    pressed, exits with status 1. *)
Theorem main_missing_file
        (env : Env) (h : Host) (fuel : nat) (s : St)
        (port : string) (baudrate : Z) (font_file : string)
        (before : list main_msg) :
  parse_args h = (Some (port, baudrate, font_file), before) ->
  fs env font_file = None ->
  (isabs h font_file = false -> fs env (beside_script h font_file) = None) ->
  input_eof h = false ->
  main env h fuel s
  = mkRun (SystemExit 1) before
          (mkSt (ser_calls s) (ser_reads s) (ser_open s) (wire s)
                (log s ++ [MsgFileNotFound font_file]) (clock s))
          [MsgUploadFailed; MsgPressEnter].
Proof.
  intros Hp Hcwd Hscript Hin. unfold main. rewrite Hp. cbv zeta.
  rewrite (resolve_missing env h font_file Hcwd Hscript).
  unfold send_font_file. rewrite Hcwd, Hin. reflexivity.
Qed.

Lemma main_missing_file_witness :
  main no_file host_three_args 5 st0
  = mkRun (SystemExit 1) []
          (mkSt 0 0 false [] [MsgFileNotFound "font.bin"] 0)
          [MsgUploadFailed; MsgPressEnter].
Proof.
  apply (main_missing_file no_file host_three_args 5 st0 "COM7" 9600 "font.bin" []);
    reflexivity.
Defined.

Lemma resolve_beside_script (env : Env) (h : Host) (font_file : string)
      (file : File) :
  isabs h font_file = false ->
  fs env font_file = None ->
  fs env (beside_script h font_file) = Some file ->
  resolve_font_file env h font_file = beside_script h font_file.
Proof.
  intros Habs Hcwd Hscript. unfold resolve_font_file, path_exists.
  now rewrite Habs, Hcwd, Hscript.
Qed.

(** X14.  A relative name that is not found where the command is run but
    is found beside the script is uploaded from there: with a device that
    acknowledges the START attempt and every chunk, [main] sends the bytes
    of the file beside the script, announces it under that path, and exits
    with status 0. *)
Theorem main_uploads_font_beside_script
        (env : Env) (h : Host) (fuel : nat) (s : St)
        (port : string) (baudrate : Z) (font_file : string)
        (before : list main_msg) (payload : list byte) :
  (forall k, fault env k = None) ->
  parse_args h = (Some (port, baudrate, font_file), before) ->
  isabs h font_file = false ->
  fs env font_file = None ->
  fs env (beside_script h font_file) = Some (regular_file payload) ->
  Z.of_nat (List.length payload) < 2 ^ 32 ->
  has_ack (firstn 10 (rx env 1)) = true ->
  (forall j, (j < List.length (chunked payload))%nat ->
             no_ack (firstn 1 (rx env (2 + j))) = false) ->
  (1 <= fuel)%nat ->
  (List.length (chunked payload) <= fuel)%nat ->
  input_eof h = false ->
  run_end (main env h fuel s) = SystemExit 0 /\
  run_after (main env h fuel s) = [MsgUploadCompleted; MsgPressEnter] /\
  wire (run_state (main env h fuel s))
  = wire s ++ [CMD_CHINESE]
      :: start_frame (Z.of_nat (List.length payload))
      ++ flat_map data_frame (chunked payload) ++ [[CMD_END]] /\
  exists more,
    log (run_state (main env h fuel s))
    = log s ++ MsgFontFile (beside_script h font_file) :: more.
Proof.
  intros Hnofault Hp Habs Hcwd Hscript Hfit Hack Hacks Hfuel1 Hfuel Hin.
  destruct (send_font_file_acked env Hnofault fuel port baudrate
              (beside_script h font_file) payload s Hscript Hfit Hack Hacks
              Hfuel1 Hfuel)
    as (s' & E & W & _ & L & _).
  unfold main. rewrite Hp. cbv zeta.
  rewrite (resolve_beside_script env h font_file _ Habs Hcwd Hscript).
  rewrite E, Hin. cbn. repeat split; [exact W|].
  eexists. rewrite L. cbn [app]. reflexivity.
Qed.

Lemma main_uploads_font_beside_script_witness :
  run_end (main font_beside_script host_three_args 5 st0) = SystemExit 0 /\
  run_after (main font_beside_script host_three_args 5 st0)
  = [MsgUploadCompleted; MsgPressEnter] /\
  wire (run_state (main font_beside_script host_three_args 5 st0))
  = wire st0 ++ [CMD_CHINESE]
      :: start_frame (Z.of_nat (List.length (repeat Byte.x01 300)))
      ++ flat_map data_frame (chunked (repeat Byte.x01 300)) ++ [[CMD_END]] /\
  exists more,
    log (run_state (main font_beside_script host_three_args 5 st0))
    = log st0 ++ MsgFontFile (beside_script host_three_args "font.bin") :: more.
Proof.
  apply (main_uploads_font_beside_script
           font_beside_script host_three_args 5 st0 "COM7" 9600 "font.bin" []
           (repeat Byte.x01 300)).
  - intro k. reflexivity.
  - reflexivity.
  - reflexivity.
  - reflexivity.
  - reflexivity.
  - vm_compute. reflexivity.
  - reflexivity.
  - intros j Hj. reflexivity.
  - lia.
  - vm_compute. lia.
  - reflexivity.
Defined.

(** X15.  The exit status of [main].  [sys.exit] is reached only when
    the closing prompt could be read; the status is 0 or 1; and it is 0 only
    after an upload that ended with END written, "Transfer complete"
    printed and the port closed, in which case [main] printed that the
    upload completed. *)
Theorem main_exit_status
        (env : Env) (h : Host) (fuel : nat) (s : St) (code : Z) :
  run_end (main env h fuel s) = SystemExit code ->
  input_eof h = false /\
  (code = 0 \/ code = 1) /\
  (code = 0 ->
   run_after (main env h fuel s) = [MsgUploadCompleted; MsgPressEnter] /\
   ser_open (run_state (main env h fuel s)) = false /\
   (exists w, wire (run_state (main env h fuel s)) = w ++ [[CMD_END]]) /\
   (exists l, log (run_state (main env h fuel s)) = l ++ [MsgTransferComplete])) /\
  (code = 1 ->
   run_after (main env h fuel s) = [MsgUploadFailed; MsgPressEnter]).
Proof.
  unfold main.
  destruct (parse_args h) as [[[[port baudrate] font_file]|] before];
    [|discriminate].
  cbv zeta.
  destruct (send_font_file env fuel port baudrate _ s) as [[b|e|] s'] eqn:E;
    [|discriminate|discriminate].
  destruct (input_eof h); [discriminate|]. cbn.
  intros [= <-]. split; [reflexivity|].
  destruct b; cbn.
  - split; [now left|]. split; [|discriminate].
    intros _. split; [reflexivity|].
    exact (send_font_file_true env fuel port baudrate _ s s' E).
  - split; [now right|]. split; [discriminate|reflexivity].
Qed.

Lemma main_exit_status_witness :
  input_eof host_three_args = false /\
  (0 = 0 \/ 0 = 1) /\
  (0 = 0 ->
   run_after (main font_beside_script host_three_args 5 st0)
   = [MsgUploadCompleted; MsgPressEnter] /\
   ser_open (run_state (main font_beside_script host_three_args 5 st0)) = false /\
   (exists w, wire (run_state (main font_beside_script host_three_args 5 st0))
              = w ++ [[CMD_END]]) /\
   (exists l, log (run_state (main font_beside_script host_three_args 5 st0))
              = l ++ [MsgTransferComplete])) /\
  (0 = 1 ->
   run_after (main font_beside_script host_three_args 5 st0)
   = [MsgUploadFailed; MsgPressEnter]).
Proof.
  apply (main_exit_status font_beside_script host_three_args 5 st0 0).
  vm_compute. reflexivity.
Defined.
